(** * ha-asusrouter: the bridge and the configuration flow

    A shallow embedding of [custom_components/asusrouter/bridge.py] and
    [custom_components/asusrouter/config_flow.py].

    Python dictionaries with string keys are [gmap string _]; dictionaries
    that are shared and mutated ([self._configs], [self._options], the
    [errors] dictionaries, the copy made by [_async_check_connection]) live
    in a heap of dictionary objects and are passed around by location.
    Awaited calls are sequential, so a coroutine is a computation in a state
    and exception monad.  The vendor SDK and the host platform are outside
    the repository: what they return or raise is a parameter of the model. *)

From stdpp Require Import gmap strings list fin_maps.

Local Open Scope string_scope.
Local Open Scope list_scope.
Local Open Scope Z_scope.

(** ** Python values, exceptions, outcomes *)

Definition loc := positive.

(** The values stored in configuration dictionaries: [None], booleans,
    integers, strings, lists of strings and references to dictionaries. *)
Inductive value :=
  | VNone
  | VBool (b : bool)
  | VInt (z : Z)
  | VStr (s : string)
  | VList (l : list string)
  | VDict (l : loc).

#[global] Instance value_eq_dec : EqDecision value.
Proof. solve_decision. Defined.

Abbreviation pydict := (gmap string value).

(** Exceptions, by class.  The three SDK classes caught by the flow are
    sibling subclasses of the SDK's [AsusRouterError]; [AsusRouterError]
    itself stands for any other SDK error.  Every class here derives from
    [Exception]: signals that only derive from [BaseException] (task
    cancellation, interpreter exit) are outside the model. *)
Inductive exn :=
  | AsusRouterLoginError
  | AsusRouterLoginBlockError (timeout : Z)
  | AsusRouterConnectionError
  | AsusRouterError
  | ConfigEntryNotReady
  | UpdateFailed (cause : exn)
  | OSError
  | ValueError (msg : string)
  | KeyError (key : string)
  | TypeError
  | AttributeError
  | ImportError (name : string)
  | gaierror
  | OtherException (name : string).

#[global] Instance exn_eq_dec : EqDecision exn.
Proof. solve_decision. Defined.

Inductive outcome (A : Type) :=
  | Ok (a : A)
  | Raise (e : exn).
Arguments Ok {A} a.
Arguments Raise {A} e.

Definition obind {A B} (c : outcome A) (k : A → outcome B) : outcome B :=
  match c with
  | Ok a => k a
  | Raise e => Raise e
  end.

(** ** Coroutines: state and exceptions *)

Definition M (S A : Type) : Type := S → outcome A * S.

Definition ret {S A} (a : A) : M S A := fun s => (Ok a, s).
Definition raise {S A} (e : exn) : M S A := fun s => (Raise e, s).
Definition bind {S A B} (c : M S A) (k : A → M S B) : M S B :=
  fun s => match c s with
           | (Ok a, s') => k a s'
           | (Raise e, s') => (Raise e, s')
           end.
Definition lift {S A} (o : outcome A) : M S A := fun s => (o, s).
Definition get {S} : M S S := fun s => (Ok s, s).
Definition modify {S} (f : S → S) : M S unit := fun s => (Ok tt, f s).

(** [try: body except Exception as ex: handler ex]; whatever the body did
    to the state before it raised stays done. *)
Definition try_except {S A} (body : M S A) (handler : exn → M S A) : M S A :=
  fun s => match body s with
           | (Ok a, s') => (Ok a, s')
           | (Raise e, s') => handler e s'
           end.

(** [try: body finally: cleanup].  The clean-up runs on every way out of
    the body; if it raises, its exception replaces the body's outcome. *)
Definition try_finally {S A} (body : M S A) (cleanup : M S unit) : M S A :=
  fun s => match body s with
           | (r, s') => match cleanup s' with
                        | (Ok _, s'') => (r, s'')
                        | (Raise e, s'') => (Raise e, s'')
                        end
           end.

Declare Scope py_scope.
Delimit Scope py_scope with py.
Notation "'let!' x ':=' c 'in' k" := (bind c (fun x => k))
  (at level 10, x pattern, c at level 100, k at level 200) : py_scope.
Notation "c ';;' k" := (bind c (fun _ => k))
  (at level 100, k at level 200, right associativity) : py_scope.
Notation "'let?' x ':=' c 'in' k" := (obind c (fun x => k))
  (at level 10, x pattern, c at level 100, k at level 200).

Fixpoint foldM {S A B} (f : A → B → M S A) (a : A) (l : list B) : M S A :=
  match l with
  | [] => ret a
  | b :: l' => bind (f a b) (fun a' => foldM f a' l')
  end.

Fixpoint ofold {A B} (f : A → B → outcome A) (a : A) (l : list B) : outcome A :=
  match l with
  | [] => Ok a
  | b :: l' => let? a' := f a b in ofold f a' l'
  end.

(** ** Logging *)

Inductive level := DEBUG | WARNING | ERROR.

(** What is substituted for a [{}] of a log message. *)
Inductive fmt_arg :=
  | FValue (v : value)
  | FStrings (l : list string)
  | FExn (e : exn)
  | FType (e : exn).

Record log_entry := Log {
  log_level : level;
  log_template : string;
  log_args : list fmt_arg
}.

(** ** Dictionary operations *)

(** [d[k]] *)
Definition getitem {V} (d : gmap string V) (k : string) : outcome V :=
  match d !! k with
  | Some v => Ok v
  | None => Raise (KeyError k)
  end.

(** [k in d] *)
Definition contains {V} (d : gmap string V) (k : string) : bool :=
  bool_decide (is_Some (d !! k)).

(** [d.get(k, default)] *)
Definition dict_get (d : pydict) (k : string) (dflt : value) : value :=
  default dflt (d !! k).

(** [d.update(other)]: the entries of [other] win. *)
Definition update (d other : pydict) : pydict := other ∪ d.

(** ["{}_{}".format(a, b)] on strings *)
Definition format2 (a b : string) : string := a +:+ "_" +:+ b.

(** ** Constants of [const.py] and of the host platform *)

(** [homeassistant.const] *)
Definition CONF_NAME := "name".
Definition CONF_HOST := "host".
Definition CONF_PASSWORD := "password".
Definition CONF_USERNAME := "username".
Definition CONF_PORT := "port".
Definition CONF_SCAN_INTERVAL := "scan_interval".
Definition CONF_SSL := "ssl".
Definition CONF_VERIFY_SSL := "verify_ssl".

(** The integration's own [const.py] is not among the sources: the names the
    two modules import from it are parameters. *)
Class Const := {
  CONF_CACHE_TIME : string;
  CONF_CERT_PATH : string;
  CONF_CONFIRM : string;
  CONF_CONSIDER_HOME : string;
  CONF_ENABLE_CONTROL : string;
  CONF_ENABLE_MONITOR : string;
  CONF_INTERFACES : string;
  DEFAULT_CACHE_TIME : value;
  DEFAULT_CONSIDER_HOME : value;
  DEFAULT_ENABLE_CONTROL : value;
  DEFAULT_ENABLE_MONITOR : value;
  DEFAULT_SCAN_INTERVAL : value;
  DELAULT_INTERFACES : list string;
  DEFAULT_PORT : value;
  DEFAULT_SSL : value;
  DEFAULT_USERNAME : value;
  DEFAULT_VERIFY_SSL : value;
  RESULT_CONNECTION_REFUSED : string;
  RESULT_ERROR : string;
  RESULT_LOGIN_BLOCKED : string;
  RESULT_SUCCESS : string;
  RESULT_UNKNOWN : string;
  RESULT_WRONG_CREDENTIALS : string;
  SIMPLE_SETUP_PARAMETERS : gmap string pydict;
  STEP_TYPE_COMPLETE : string;
  STEP_TYPE_SIMPLE : string;
  SENSORS_MISC : list string;
  SENSORS_NETWORK_STAT : list string;
  SENSORS_PORTS : list string;
  SENSORS_RAM : list string;
  SENSORS_WAN : list string;
  SENSORS_TYPE_CPU : string;
  SENSORS_TYPE_MISC : string;
  SENSORS_TYPE_NETWORK_STAT : string;
  SENSORS_TYPE_PORTS : string;
  SENSORS_TYPE_RAM : string;
  SENSORS_TYPE_WAN : string
}.

(** ** bridge.py *)

(** The port data of the SDK: port type, then port, then an integer. The
    inner dictionary keeps its iteration order; a port is named by the text
    that [format] prints for it. *)
Abbreviation port_dict := (list (string * Z)).
Abbreviation raw_ports := (gmap string port_dict).

(** [d[port]] on the inner dictionary *)
Fixpoint port_getitem (d : port_dict) (port : string) : outcome Z :=
  match d with
  | [] => Raise (KeyError port)
  | (p, v) :: d' => if decide (p = port) then Ok v else port_getitem d' port
  end.

(** [isinstance(ex, (OSError, ValueError))].  Of the classes of the
    standard library and of the platform, [OSError], its subclass
    [socket.gaierror] and [ValueError] are instances, the others are not.
    The exception classes of the SDK, and the classes known by name only,
    are not part of the repository: [derives] tells which of them derive
    from [OSError] or [ValueError] as well (an SDK error that is also a
    [TimeoutError] does). *)
Definition isinstance_OSError_ValueError (derives : exn → bool) (ex : exn) : bool :=
  match ex with
  | OSError | gaierror | ValueError _ => true
  | AsusRouterLoginError | AsusRouterLoginBlockError _ | AsusRouterConnectionError
  | AsusRouterError | OtherException _ => derives ex
  | ConfigEntryNotReady | UpdateFailed _ | KeyError _ | TypeError | AttributeError
  | ImportError _ => false
  end.

(** The SDK object [self._api]: what each awaited call gives, and which of
    the exceptions it raises derive from [OSError] or [ValueError]. *)
Record AsusRouter := {
  async_get_cpu_labels : outcome (list string);
  async_get_network_labels : outcome (list string);
  async_get_ports : outcome raw_ports;
  derives_from_OSError_or_ValueError : exn → bool
}.

Record AsusRouterBridgeHTTP := {
  _host : value;
  _api : AsusRouter
}.

(** The bound methods stored under ["method"]. *)
Inductive poll_method :=
  | _get_cpu_method
  | _get_ram_method
  | _get_network_stat_method
  | _get_misc_method
  | _get_ports_method
  | _get_wan_method.

Record sensor_entry := {
  sensors : list string;
  method : poll_method
}.

(** Integer arithmetic of Python on the values a ports dictionary holds
    ([bool] is a subclass of [int]). *)
Definition as_int (v : value) : outcome Z :=
  match v with
  | VInt z => Ok z
  | VBool b => Ok (if b then 1 else 0)
  | _ => Raise TypeError
  end.

Definition py_add (a b : value) : outcome value :=
  let? x := as_int a in
  let? y := as_int b in
  Ok (VInt (x + y)).

Definition py_gt (a b : value) : outcome bool :=
  let? x := as_int a in
  let? y := as_int b in
  Ok (bool_decide (x > y)).

Definition log {S} (put : log_entry → S → S) (l : level) (t : string) (a : list fmt_arg) : M S unit :=
  modify (put (Log l t a)).

Section Bridge.
Context `{Const}.
Local Open Scope py_scope.

Abbreviation B := (M (list log_entry)).
Definition _LOGGER (l : level) (t : string) (a : list fmt_arg) : B unit :=
  log (fun e lg => lg ++ [e]) l t a.

(** One round of [for port in raw[type]] in [_get_ports]. *)
Definition _get_ports_port (raw_type : port_dict) (type : string)
    (data : pydict) (port : string) : outcome pydict :=
  let? v := port_getitem raw_type port in
  let data := <[format2 type port := VInt v]> data in
  let? v' := port_getitem raw_type port in
  let? cur := getitem data (format2 type "total") in
  let? total := py_add cur (VInt v') in
  Ok (<[format2 type "total" := total]> data).

(** One round of [for type in SENSORS_PORTS] in [_get_ports]. *)
Definition _get_ports_type (raw : raw_ports) (data : pydict) (type : string)
    : outcome pydict :=
  if contains raw type then
    let data := <[format2 type "total" := VInt 0]> data in
    let? raw_type := getitem raw type in
    let? data := ofold (_get_ports_port raw_type type) data raw_type.*1 in
    let? total := getitem data (format2 type "total") in
    let? positive := py_gt total (VInt 0) in
    Ok (if positive : bool then <[type := VBool true]> data else data)
  else Ok data.

(** [except (OSError, ValueError) as ex: raise UpdateFailed(ex) from ex];
    the clause catches the instances of the two classes, those of their
    subclasses included. *)
Definition update_failed {A} (derives : exn → bool) (o : outcome A) : outcome A :=
  match o with
  | Ok a => Ok a
  | Raise ex =>
    if isinstance_OSError_ValueError derives ex then Raise (UpdateFailed ex)
    else Raise ex
  end.

Definition _get_ports (self : AsusRouterBridgeHTTP) : outcome pydict :=
  let data : pydict := ∅ in
  update_failed (derives_from_OSError_or_ValueError (_api self))
    (let? raw := async_get_ports (_api self) in
     ofold (_get_ports_type raw) data SENSORS_PORTS).

(** *** The lists of available sensors *)

Definition _get_cpu_sensors (self : AsusRouterBridgeHTTP) : B (list string) :=
  try_except
    (let! sensors := lift (async_get_cpu_labels (_api self)) in
     _LOGGER DEBUG "Available CPU sensors: {}" [FStrings sensors] ;;
     ret sensors)
    (fun ex =>
     _LOGGER WARNING "Cannot get available CPU sensors for {}: {}"
       [FValue (_host self); FExn ex] ;;
     ret ["total"]).

(** The local variable [sensors] of the two functions below is assigned
    before the awaited call and grown in place, so the handler finds in it
    what was appended before the exception: it is the state of the body. *)
Definition with_sensors {A} (c : M (list string * list log_entry) A)
    : B (outcome A * list string) :=
  fun lg => match c ([], lg) with
            | (r, (sensors, lg')) => (Ok (r, sensors), lg')
            end.
Definition sensors_append (x : string) : M (list string * list log_entry) unit :=
  modify (fun s => (s.1 ++ [x], s.2)).
Definition sensors_log (l : level) (t : string)
    : M (list string * list log_entry) unit :=
  fun s => (Ok tt, (s.1, s.2 ++ [Log l t [FStrings s.1]])).

Definition _get_network_stat_sensors (self : AsusRouterBridgeHTTP) : B (list string) :=
  let! (r, sensors) := with_sensors
    (let! labels := lift (async_get_network_labels (_api self)) in
     foldM (fun _ label =>
         foldM (fun _ el => sensors_append (format2 label el)) tt SENSORS_NETWORK_STAT)
       tt labels ;;
     sensors_log DEBUG "Available network stat sensors: {}") in
  match r with
  | Ok _ => ret sensors
  | Raise ex =>
    _LOGGER WARNING "Cannot get available network stat sensors for {}: {}"
      [FValue (_host self); FExn ex] ;;
    ret sensors
  end.

Definition _get_ports_sensors (self : AsusRouterBridgeHTTP) : B (list string) :=
  let! (r, sensors) := with_sensors
    (let! data := lift (async_get_ports (_api self)) in
     foldM (fun _ type =>
         if contains data type then
           sensors_append type ;;
           sensors_append (format2 type "total") ;;
           let! data_type := lift (getitem data type) in
           foldM (fun _ port => sensors_append (format2 type port)) tt data_type.*1
         else ret tt)
       tt SENSORS_PORTS ;;
     sensors_log DEBUG "Available ports sensors: {}") in
  match r with
  | Ok _ => ret sensors
  | Raise ex =>
    _LOGGER WARNING "Cannot get available ports sensors for {}: {}"
      [FValue (_host self); FExn ex] ;;
    ret sensors
  end.

Definition async_get_available_sensors (self : AsusRouterBridgeHTTP)
    : B (gmap string sensor_entry) :=
  let! cpu := _get_cpu_sensors self in
  let! network_stat := _get_network_stat_sensors self in
  let! ports := _get_ports_sensors self in
  ret (list_to_map (reverse
    [ (SENSORS_TYPE_CPU, {| sensors := cpu; method := _get_cpu_method |});
      (SENSORS_TYPE_RAM, {| sensors := SENSORS_RAM; method := _get_ram_method |});
      (SENSORS_TYPE_NETWORK_STAT,
         {| sensors := network_stat; method := _get_network_stat_method |});
      (SENSORS_TYPE_MISC, {| sensors := SENSORS_MISC; method := _get_misc_method |});
      (SENSORS_TYPE_PORTS, {| sensors := ports; method := _get_ports_method |});
      (SENSORS_TYPE_WAN, {| sensors := SENSORS_WAN; method := _get_wan_method |}) ])).
End Bridge.

(** *** Module namespace of bridge.py *)

(** The names bound at the top level of [bridge.py], in the order the module
    binds them: its imports, its logger and its two classes. *)
Definition bridge_globals : list string :=
  [ "annotations"; "logging"; "_LOGGER"; "Any"; "ABC"; "abstractmethod";
    "datetime"; "AsusDevice"; "AsusRouter"; "AsusRouterError";
    "ConnectedDevice"; "CONF_HOST"; "CONF_PASSWORD"; "CONF_PORT"; "CONF_SSL";
    "CONF_USERNAME"; "CONF_VERIFY_SSL"; "HomeAssistant";
    "ConfigEntryNotReady"; "format_mac"; "UpdateFailed"; "CONF_CACHE_TIME";
    "CONF_CERT_PATH"; "CONF_ENABLE_CONTROL"; "CONF_ENABLE_MONITOR";
    "SENSORS_MISC"; "SENSORS_NETWORK_STAT"; "SENSORS_PORTS"; "SENSORS_RAM";
    "SENSORS_TYPE_CPU"; "SENSORS_TYPE_MISC"; "SENSORS_TYPE_NETWORK_STAT";
    "SENSORS_TYPE_PORTS"; "SENSORS_TYPE_RAM"; "SENSORS_TYPE_WAN";
    "SENSORS_WAN"; "AsusRouterBridge"; "AsusRouterBridgeHTTP" ].

(** [from module import name], for a module that is not a package: the name
    is looked up among the module's globals. *)
Definition import_from (module_globals : list string) (name : string) : outcome unit :=
  if decide (name ∈ module_globals) then Ok tt else Raise (ImportError name).

(** ** config_flow.py *)

(** Line 65: [from .bridge import ARBridge]. *)
Definition config_flow_import_bridge : outcome unit :=
  import_from bridge_globals "ARBridge".

(** An instance of the class the flow calls [ARBridge]: what each of the
    methods the flow awaits gives.  The flow awaits each of them at most once
    on an instance. *)
Record ARBridge_instance := {
  async_connect : outcome unit;
  async_clean : outcome unit;
  get_serial : outcome value;
  async_disconnect : outcome unit;
  async_get_network_interfaces : outcome (list string)
}.

(** What the flow asked of the bridge, in order. *)
Inductive bridge_call :=
  | call_ARBridge (configs : pydict) (options : option pydict)
  | call_async_connect
  | call_async_clean
  | call_get_serial
  | call_async_disconnect
  | call_async_get_network_interfaces.

(** The dictionary objects, the logger, the bridge calls made so far, and the
    attributes of the flow handler ([self]).  The last two fields are the
    dictionaries created once by the default values [errors = dict()] of
    [async_select_step] and of [async_step_device]. *)
Record state := State {
  heap : gmap loc pydict;
  next_loc : loc;
  logs : list log_entry;
  calls : list bridge_call;
  _configs : loc;
  _options : loc;
  unique_id : option value;
  async_select_step_errors : loc;
  async_step_device_errors : loc
}.

Definition set_heap (f : gmap loc pydict → gmap loc pydict) (s : state) : state :=
  State (f (heap s)) (next_loc s) (logs s) (calls s) (_configs s) (_options s)
    (unique_id s) (async_select_step_errors s) (async_step_device_errors s).
Definition set_next_loc (l : loc) (s : state) : state :=
  State (heap s) l (logs s) (calls s) (_configs s) (_options s)
    (unique_id s) (async_select_step_errors s) (async_step_device_errors s).
Definition add_log (e : log_entry) (s : state) : state :=
  State (heap s) (next_loc s) (logs s ++ [e]) (calls s) (_configs s) (_options s)
    (unique_id s) (async_select_step_errors s) (async_step_device_errors s).
Definition add_call (c : bridge_call) (s : state) : state :=
  State (heap s) (next_loc s) (logs s) (calls s ++ [c]) (_configs s) (_options s)
    (unique_id s) (async_select_step_errors s) (async_step_device_errors s).
Definition set_unique_id (v : value) (s : state) : state :=
  State (heap s) (next_loc s) (logs s) (calls s) (_configs s) (_options s)
    (Some v) (async_select_step_errors s) (async_step_device_errors s).

Abbreviation F := (M state).

(** [dict(d)], [dict()] and [d.copy()]: a new object *)
Definition new_dict (d : pydict) : F loc :=
  fun s => (Ok (next_loc s),
            set_next_loc (Pos.succ (next_loc s)) (set_heap <[next_loc s := d]> s)).
(** The entries of the object at [l] *)
Definition read (l : loc) : F pydict := fun s => (Ok (heap s !!! l), s).
(** Mutation in place of the object at [l] *)
Definition mutate (l : loc) (f : pydict → pydict) : F unit :=
  modify (fun s => set_heap <[l := f (heap s !!! l)]> s).
Definition copy (l : loc) : F loc :=
  bind (read l) new_dict.
(** [d.pop(k)], the value dropped *)
Definition pop (l : loc) (k : string) : F unit :=
  bind (read l) (fun d =>
    if contains d k then mutate l (delete k) else raise (KeyError k)).

(** Truth value of a Python object *)
Definition truthy (v : value) : F bool :=
  match v with
  | VNone => ret false
  | VBool b => ret b
  | VInt z => ret (bool_decide (z ≠ 0))
  | VStr s => ret (bool_decide (s ≠ ""))
  | VList l => ret (bool_decide (l ≠ []))
  | VDict l => bind (read l) (fun d => ret (bool_decide (d ≠ ∅)))
  end.

(** [for k in v], as far as the elements go *)
Definition iterate (v : value) : F (list string) :=
  match v with
  | VList l => ret l
  | VStr s => ret ((fun c => String c EmptyString) <$> String.list_ascii_of_string s)
  | VDict l => bind (read l) (fun d => ret (map_to_list d).*1)
  | _ => raise TypeError
  end.

(** [if user_input:] on [dict | None] *)
Definition given (user_input : option pydict) : bool :=
  match user_input with
  | Some d => bool_decide (d ≠ ∅)
  | None => false
  end.

(** *** Forms *)

Inductive marker := Required | Optional.

Inductive validator :=
  | py_str
  | py_int
  | py_bool
  | multi_select (choices : gset string).

Record field := Field {
  field_marker : marker;
  field_key : string;
  field_default : value;
  field_validator : validator
}.

(** [vol.Schema(schema)], the entries of [schema] in order *)
Abbreviation Schema := (list field).

Inductive FlowResult :=
  | async_show_form (step_id : string) (data_schema : Schema) (errors : option loc)
  | async_create_entry (title : value) (data : loc) (options : loc).

(** The coroutines of the handler that a step table can hold. *)
Inductive step :=
  | step_user
  | step_discovery
  | step_credentials
  | step_device
  | step_operation_mode
  | step_times
  | step_interfaces
  | step_name
  | step_finish.

#[global] Instance step_eq_dec : EqDecision step.
Proof. solve_decision. Defined.

(** Every call of one coroutine of the handler by another is of the form
    [return await ...]: a coroutine ends with a result or hands over to the
    next call. *)
Inductive next :=
  | Return (r : FlowResult)
  | Await_select_step (last_step : option string) (errors : option loc)
  | Await_step (f : step) (user_input : option pydict) (errors : option loc).

Section Forms.
Context `{Const}.

Definition _create_form_discovery (user_input : pydict) : Schema :=
  [ Field Required CONF_HOST (dict_get user_input CONF_HOST (VStr "")) py_str ].

Definition _create_form_credentials (user_input : pydict) : Schema :=
  [ Field Required CONF_USERNAME
      (dict_get user_input CONF_USERNAME DEFAULT_USERNAME) py_str;
    Field Required CONF_PASSWORD (dict_get user_input CONF_PASSWORD (VStr "")) py_str;
    Field Optional CONF_SSL (dict_get user_input CONF_SSL DEFAULT_SSL) py_bool ].

Definition _create_form_device (user_input : pydict) : Schema :=
  [ Field Required CONF_USERNAME
      (dict_get user_input CONF_USERNAME DEFAULT_USERNAME) py_str;
    Field Required CONF_PASSWORD (dict_get user_input CONF_PASSWORD (VStr "")) py_str;
    Field Optional CONF_PORT (dict_get user_input CONF_PORT DEFAULT_PORT) py_int;
    Field Optional CONF_SSL (dict_get user_input CONF_SSL DEFAULT_SSL) py_bool;
    Field Optional CONF_VERIFY_SSL
      (dict_get user_input CONF_VERIFY_SSL DEFAULT_VERIFY_SSL) py_bool;
    Field Optional CONF_CERT_PATH (dict_get user_input CONF_CERT_PATH (VStr "")) py_str ].

(** The entry for [CONF_ENABLE_MONITOR] is commented out in the source. *)
Definition _create_form_operation_mode (user_input : pydict) : Schema :=
  [ Field Required CONF_ENABLE_CONTROL
      (dict_get user_input CONF_ENABLE_CONTROL DEFAULT_ENABLE_CONTROL) py_bool ].

Definition _create_form_times (user_input : pydict) : Schema :=
  [ Field Required CONF_CACHE_TIME
      (dict_get user_input CONF_CACHE_TIME DEFAULT_CACHE_TIME) py_int;
    Field Required CONF_SCAN_INTERVAL
      (dict_get user_input CONF_SCAN_INTERVAL DEFAULT_SCAN_INTERVAL) py_int;
    Field Required CONF_CONSIDER_HOME
      (dict_get user_input CONF_CONSIDER_HOME DEFAULT_CONSIDER_HOME) py_int ].

(** The schema of the 'interfaces' step once the keys of the choices
    [{k: k for k in user_input["interfaces"]}] are known *)
Definition interfaces_schema (dflt : list string) (choices : gset string) : Schema :=
  [ Field Required CONF_INTERFACES (VList dflt) (multi_select choices) ].

Definition _create_form_interfaces (user_input : pydict) (dflt : list string)
    : F Schema :=
  bind (lift (getitem user_input "interfaces")) (fun v =>
  bind (iterate v) (fun choices =>
  ret (interfaces_schema dflt (list_to_set choices)))).

Definition _create_form_name (user_input : pydict) : Schema :=
  [ Field Optional CONF_NAME (dict_get user_input CONF_NAME (VStr "")) py_str ].

Definition _create_form_confirmation (user_input : pydict) : Schema :=
  [ Field Optional CONF_CONFIRM (dict_get user_input CONF_CONFIRM (VBool false)) py_bool ].

(** The schemas of the forms that the steps of [ASUSRouterFlowHandler]
    show, whatever the input and the interfaces found. *)
Definition wizard_forms (user_input : pydict) (interfaces : gset string)
    (dflt : list string) : list Schema :=
  [ _create_form_discovery user_input;
    _create_form_credentials user_input;
    _create_form_device user_input;
    _create_form_operation_mode user_input;
    _create_form_times user_input;
    interfaces_schema dflt interfaces;
    _create_form_name user_input ].

(** The configuration keys the wizard's forms ask for *)
Definition wizard_keys (user_input : pydict) (interfaces : gset string)
    (dflt : list string) : list string :=
  field_key <$> concat (wizard_forms user_input interfaces dflt).
End Forms.

Section ConfigFlow.
Context `{Const}.
(** The class bound to the name [ARBridge], called on the entries of the
    dictionaries it is given (the second is absent when the call passes
    two arguments).  It reads its arguments and does not change them. *)
Variable ARBridge : pydict → option pydict → outcome ARBridge_instance.
(** [socket.gethostbyname] *)
Variable gethostbyname : value → outcome value.
Local Open Scope py_scope.

Definition _LOGGER' (l : level) (t : string) (a : list fmt_arg) : F unit :=
  log add_log l t a.

Definition await {A} (c : bridge_call) (o : outcome A) : F A :=
  modify (add_call c) ;; lift o.

Definition _check_host (host : value) : outcome value :=
  match gethostbyname host with
  | Raise gaierror => Ok VNone
  | o => o
  end.

Definition _check_errors (errors : pydict) : bool :=
  contains errors "base"
  && bool_decide (errors !! "base" ≠ Some (VStr RESULT_SUCCESS))
  && bool_decide (errors !! "base" ≠ Some (VStr "")).

Definition _async_get_network_interfaces (configs : loc) (options : option loc)
    : F (list string) :=
  let! c := read configs in
  let! o := match options with
            | Some l => read l
            | None => ret ∅
            end in
  let! api := await (call_ARBridge c (Some o)) (ARBridge c (Some o)) in
  try_except
    (let! labels := await call_async_get_network_interfaces
                      (async_get_network_interfaces api) in
     await call_async_disconnect (async_disconnect api) ;;
     ret labels)
    (fun ex =>
     let! c := read configs in
     let! host := lift (getitem c CONF_HOST) in
     _LOGGER' DEBUG "Cannot get available network stat sensors for {}: {}"
       [FValue host; FExn ex] ;;
     ret DELAULT_INTERFACES).

(** The [except] clauses of [_async_check_connection], tried in order. *)
Definition connection_error (host : value) (simple : bool) (ex : exn) : F pydict :=
  match ex with
  | AsusRouterLoginError =>
    _LOGGER' ERROR "Error during connection to '{}'. Wrong credentials"
      [FValue host] ;;
    ret {[ "errors" := VStr RESULT_WRONG_CREDENTIALS ]}
  | AsusRouterLoginBlockError timeout =>
    _LOGGER' ERROR "Device '{}' has reported block for the login (to many wrong attempts were made). Please try again in {} seconds"
      [FValue host; FValue (VInt timeout)] ;;
    ret {[ "errors" := VStr RESULT_LOGIN_BLOCKED ]}
  | AsusRouterConnectionError =>
    (if simple then
       _LOGGER' DEBUG "Simplified setup failed for {}. Switching to the complete mode. Original exception of type {}: {}"
         [FValue host; FType ex; FExn ex]
     else
       _LOGGER' ERROR "Connection refused by {}. Check SSL and port settings. Original exception: {}"
         [FValue host; FExn ex]) ;;
    ret {[ "errors" := VStr RESULT_CONNECTION_REFUSED ]}
  | _ =>
    (if simple then
       _LOGGER' DEBUG "Simplified setup failed for {}. Switching to the complete mode. Original exception of type {}: {}"
         [FValue host; FType ex; FExn ex]
     else
       _LOGGER' ERROR "Unknown error of type '{}' during connection to {}: {}"
         [FType ex; FValue host; FExn ex]) ;;
    ret {[ "errors" := VStr RESULT_UNKNOWN ]}
  end.

Definition _async_check_connection (configs : loc) (options : option loc)
    (simple : bool) : F pydict :=
  let step_type := STEP_TYPE_COMPLETE in
  let! configs_to_use := copy configs in
  let! o := match options with
            | Some l => read l
            | None => ret ∅
            end in
  mutate configs_to_use (fun d => update d o) ;;
  let! d := read configs_to_use in
  if negb (contains d CONF_HOST) then
    ret {[ "errors" := VStr RESULT_ERROR ]}
  else
    let! host := lift (getitem d CONF_HOST) in
    let result : pydict := ∅ in
    let! step_type :=
      (if simple then
         let! ssl := lift (getitem d CONF_SSL) in
         let! use_ssl := truthy ssl in
         let! parameters :=
           lift (getitem SIMPLE_SETUP_PARAMETERS (if use_ssl then "ssl" else "no_ssl")) in
         mutate configs_to_use (fun d => update d parameters) ;;
         _LOGGER' DEBUG "Setup ({}) initiated" [FValue (VStr STEP_TYPE_SIMPLE)] ;;
         ret STEP_TYPE_SIMPLE
       else ret step_type) in
    let! c := read configs_to_use in
    let! api := await (call_ARBridge c None) (ARBridge c None) in
    let! returned :=
      try_finally
        (try_except
           (await call_async_connect (async_connect api) ;; ret None)
           (fun ex => let! r := connection_error host simple ex in ret (Some r)))
        (await call_async_clean (async_clean api)) in
    match returned with
    | Some r => ret r
    | None =>
      let! serial := await call_get_serial (get_serial api) in
      let result := <[ "unique_id" := serial ]> result in
      await call_async_disconnect (async_disconnect api) ;;
      let! items := read configs in
      foldM (fun _ item => pop configs_to_use item) tt (map_to_list items).*1 ;;
      let result := <[ "configs" := VDict configs_to_use ]> result in
      _LOGGER' DEBUG "Setup ({}) successful" [FValue (VStr step_type)] ;;
      ret result
    end.
End ConfigFlow.

(** *** ASUSRouterFlowHandler *)

Section ASUSRouterFlowHandler.
Context `{Const}.
Variable ARBridge : pydict → option pydict → outcome ARBridge_instance.
Variable gethostbyname : value → outcome value.
Local Open Scope py_scope.

Definition self_configs : F loc := fun s => (Ok (_configs s), s).
Definition self_options : F loc := fun s => (Ok (_options s), s).

(** The platform's [async_set_unique_id] *)
Definition async_set_unique_id (v : value) : F unit := modify (set_unique_id v).

(** Dictionary last_step: next_step *)
Definition _steps : gmap string step :=
  list_to_map (reverse
    [ ("discovery", step_credentials);
      ("credentials", step_operation_mode);
      ("credentials_error", step_device);
      ("device", step_operation_mode);
      ("operation_mode", step_times);
      ("times", step_interfaces);
      ("interfaces", step_name);
      ("name", step_finish) ]).

Definition async_select_step (last_step : option string) (errors : option loc)
    : F next :=
  let! errors := match errors with
                 | Some l => ret l
                 | None => fun s => (Ok (async_select_step_errors s), s)
                 end in
  match last_step with
  | Some last_step =>
    if bool_decide (last_step ≠ "") then
      if contains _steps last_step then
        let! e := read errors in
        if _check_errors e then
          let! f := lift (getitem _steps (last_step +:+ "_error")) in
          ret (Await_step f None (Some errors))
        else
          let! f := lift (getitem _steps last_step) in
          ret (Await_step f None None)
      else raise (ValueError ("Unknown value of last_step: " +:+ last_step))
    else raise (ValueError "Step name was not provided")
  | None => raise (ValueError "Step name was not provided")
  end.

Definition async_step_user (user_input : option pydict) : F next :=
  ret (Await_step step_discovery user_input None).

Definition async_step_discovery (user_input : option pydict) : F next :=
  let step_id := "discovery" in
  let! errors := new_dict ∅ in
  let! selected :=
    (if given user_input then
       let input := default ∅ user_input in
       let! host := lift (getitem input CONF_HOST) in
       let! ip := lift (_check_host gethostbyname host) in
       let! resolved := truthy ip in
       (if resolved then ret tt
        else mutate errors <[ "base" := VStr "cannot_resolve_host" ]>) ;;
       let! e := read errors in
       if bool_decide (e = ∅) then
         let! configs := self_configs in
         mutate configs (fun d => update d input) ;;
         ret (Some (Await_select_step (Some step_id) (Some errors)))
       else ret None
     else ret None) in
  match selected with
  | Some n => ret n
  | None =>
    let user_input := if given user_input then default ∅ user_input else ∅ in
    ret (Return (async_show_form step_id (_create_form_discovery user_input)
                   (Some errors)))
  end.

Definition async_step_credentials (user_input : option pydict) : F next :=
  let step_id := "credentials" in
  let! errors := new_dict ∅ in
  let! selected :=
    (if given user_input then
       let! configs := self_configs in
       let! options := self_options in
       mutate options (fun d => update d (default ∅ user_input)) ;;
       let! result := _async_check_connection ARBridge configs (Some options) true in
       if contains result "errors" then
         let! code := lift (getitem result "errors") in
         mutate errors <[ "base" := code ]> ;;
         let! e := read errors in
         if bool_decide (e !! "base" ≠ Some (VStr RESULT_WRONG_CREDENTIALS))
            && bool_decide (e !! "base" ≠ Some (VStr RESULT_LOGIN_BLOCKED))
         then ret (Some (Await_select_step (Some step_id) (Some errors)))
         else ret None
       else
         let! found := lift (getitem result "configs") in
         let! found := match found with
                       | VDict l => read l
                       | _ => raise TypeError
                       end in
         mutate options (fun d => update d found) ;;
         let! serial := lift (getitem result "unique_id") in
         async_set_unique_id serial ;;
         ret (Some (Await_select_step (Some step_id) (Some errors)))
     else ret None) in
  match selected with
  | Some n => ret n
  | None =>
    let! user_input :=
      (if given user_input then ret (default ∅ user_input)
       else let! options := self_options in read options) in
    ret (Return (async_show_form step_id (_create_form_credentials user_input)
                   (Some errors)))
  end.

Definition async_step_device (user_input : option pydict) (errors : option loc)
    : F next :=
  let step_id := "device" in
  let! errors := match errors with
                 | Some l => ret l
                 | None => fun s => (Ok (async_step_device_errors s), s)
                 end in
  let! selected :=
    (if given user_input then
       let! configs := self_configs in
       let! options := self_options in
       mutate options (fun d => update d (default ∅ user_input)) ;;
       let! result := _async_check_connection ARBridge configs (Some options) false in
       if contains result "errors" then
         let! code := lift (getitem result "errors") in
         mutate errors <[ "base" := code ]> ;;
         ret None
       else
         let! found := lift (getitem result "configs") in
         let! found := match found with
                       | VDict l => read l
                       | _ => raise TypeError
                       end in
         mutate options (fun d => update d found) ;;
         let! serial := lift (getitem result "unique_id") in
         async_set_unique_id serial ;;
         ret (Some (Await_select_step (Some step_id) (Some errors)))
     else ret None) in
  match selected with
  | Some n => ret n
  | None =>
    let! user_input :=
      (if given user_input then ret (default ∅ user_input)
       else let! options := self_options in read options) in
    ret (Return (async_show_form step_id (_create_form_device user_input)
                   (Some errors)))
  end.

Definition async_step_operation_mode (user_input : option pydict) : F next :=
  let step_id := "operation_mode" in
  let! options := self_options in
  if negb (given user_input) then
    let! user_input := read options in
    ret (Return (async_show_form step_id (_create_form_operation_mode user_input)
                   None))
  else
    mutate options (fun d => update d (default ∅ user_input)) ;;
    ret (Await_select_step (Some step_id) None).

Definition async_step_times (user_input : option pydict) : F next :=
  let step_id := "times" in
  let! options := self_options in
  if negb (given user_input) then
    let! user_input := read options in
    ret (Return (async_show_form step_id (_create_form_times user_input) None))
  else
    mutate options (fun d => update d (default ∅ user_input)) ;;
    ret (Await_select_step (Some step_id) None).

Definition async_step_interfaces (user_input : option pydict) : F next :=
  let step_id := "interfaces" in
  let! configs := self_configs in
  let! options := self_options in
  let! o := read options in
  let! monitor := truthy (dict_get o CONF_ENABLE_MONITOR DEFAULT_ENABLE_MONITOR) in
  if monitor then
    if given user_input then
      mutate options (fun d => update d (default ∅ user_input)) ;;
      ret (Await_select_step (Some step_id) None)
    else
      let! user_input := read options in
      let! interfaces := _async_get_network_interfaces ARBridge configs (Some options) in
      let user_input := <[ "interfaces" := VList interfaces ]> user_input in
      let! schema := _create_form_interfaces user_input [] in
      ret (Return (async_show_form step_id schema None))
  else ret (Await_select_step (Some step_id) None).

Definition async_step_name (user_input : option pydict) : F next :=
  let step_id := "name" in
  let! options := self_options in
  if negb (given user_input) then
    let user_input : pydict := ∅ in
    ret (Return (async_show_form step_id (_create_form_name user_input) None))
  else
    mutate options (fun d => update d (default ∅ user_input)) ;;
    ret (Await_select_step (Some step_id) None).

Definition async_step_finish (user_input : option pydict) : F next :=
  let! configs := self_configs in
  let! options := self_options in
  let! c := read configs in
  let! title := lift (getitem c CONF_HOST) in
  ret (Return (async_create_entry title configs options)).

(** Calling a bound method of the handler; only [async_step_device] has
    a parameter named [errors]. *)
Definition call_step (f : step) (user_input : option pydict) (errors : option loc)
    : F next :=
  match f, errors with
  | step_device, _ => async_step_device user_input errors
  | _, Some _ => raise TypeError
  | step_user, None => async_step_user user_input
  | step_discovery, None => async_step_discovery user_input
  | step_credentials, None => async_step_credentials user_input
  | step_operation_mode, None => async_step_operation_mode user_input
  | step_times, None => async_step_times user_input
  | step_interfaces, None => async_step_interfaces user_input
  | step_name, None => async_step_name user_input
  | step_finish, None => async_step_finish user_input
  end.

Definition await_next (n : next) : F next :=
  match n with
  | Return r => ret (Return r)
  | Await_select_step last_step errors => async_select_step last_step errors
  | Await_step f user_input errors => call_step f user_input errors
  end.

(** The result of a call, followed through at most [fuel] awaited calls;
    [None] when more would be needed. *)
Fixpoint run (fuel : nat) (n : next) : F (option FlowResult) :=
  match n, fuel with
  | Return r, _ => ret (Some r)
  | _, O => ret None
  | _, S fuel' => let! n' := await_next n in run fuel' n'
  end.
End ASUSRouterFlowHandler.

(** ** Concrete data to run the model on *)

(** One possible [const.py]. *)
Definition sample_const : Const := {|
  CONF_CACHE_TIME := "cache_time";
  CONF_CERT_PATH := "cert_path";
  CONF_CONFIRM := "confirm";
  CONF_CONSIDER_HOME := "consider_home";
  CONF_ENABLE_CONTROL := "enable_control";
  CONF_ENABLE_MONITOR := "enable_monitor";
  CONF_INTERFACES := "interfaces";
  DEFAULT_CACHE_TIME := VInt 5;
  DEFAULT_CONSIDER_HOME := VInt 45;
  DEFAULT_ENABLE_CONTROL := VBool false;
  DEFAULT_ENABLE_MONITOR := VBool true;
  DEFAULT_SCAN_INTERVAL := VInt 30;
  DELAULT_INTERFACES := ["WAN"; "USB"; "WIRED"; "BRIDGE"];
  DEFAULT_PORT := VInt 0;
  DEFAULT_SSL := VBool false;
  DEFAULT_USERNAME := VStr "admin";
  DEFAULT_VERIFY_SSL := VBool true;
  RESULT_CONNECTION_REFUSED := "connection_refused";
  RESULT_ERROR := "error";
  RESULT_LOGIN_BLOCKED := "login_blocked";
  RESULT_SUCCESS := "success";
  RESULT_UNKNOWN := "unknown";
  RESULT_WRONG_CREDENTIALS := "wrong_credentials";
  SIMPLE_SETUP_PARAMETERS :=
    {[ "ssl" := {[ CONF_PORT := VInt 8443; CONF_VERIFY_SSL := VBool false ]};
       "no_ssl" := {[ CONF_PORT := VInt 80; CONF_VERIFY_SSL := VBool false ]} ]};
  STEP_TYPE_COMPLETE := "complete";
  STEP_TYPE_SIMPLE := "simple";
  SENSORS_MISC := ["boottime"];
  SENSORS_NETWORK_STAT := ["rx"; "tx"; "rx_speed"; "tx_speed"];
  SENSORS_PORTS := ["WAN"; "LAN"];
  SENSORS_RAM := ["total"; "free"; "used"; "usage"];
  SENSORS_WAN := ["status"; "ip"];
  SENSORS_TYPE_CPU := "cpu";
  SENSORS_TYPE_MISC := "misc";
  SENSORS_TYPE_NETWORK_STAT := "network_stat";
  SENSORS_TYPE_PORTS := "ports";
  SENSORS_TYPE_RAM := "ram";
  SENSORS_TYPE_WAN := "wan"
|}.

(** A router whose SDK calls all fail, and one that answers. *)
Definition failing_api : AsusRouter := {|
  async_get_cpu_labels := Raise OSError;
  async_get_network_labels := Raise AsusRouterConnectionError;
  async_get_ports := Raise (ValueError "no data");
  derives_from_OSError_or_ValueError := fun _ => false
|}.

Definition sample_ports : raw_ports :=
  {[ "LAN" := [("1", 1000); ("2", 0); ("3", 100)]; "WAN" := [("0", 0)] ]}.

Definition sample_api : AsusRouter := {|
  async_get_cpu_labels := Ok ["total"; "1"; "2"];
  async_get_network_labels := Ok ["WAN"; "WIRED"];
  async_get_ports := Ok sample_ports;
  derives_from_OSError_or_ValueError := fun _ => false
|}.

(** Port data with a port that is called "total". *)
Definition clash_ports : raw_ports := {[ "LAN" := [("total", 5)] ]}.

Definition clash_api : AsusRouter := {|
  async_get_cpu_labels := Ok [];
  async_get_network_labels := Ok [];
  async_get_ports := Ok clash_ports;
  derives_from_OSError_or_ValueError := fun _ => false
|}.

Definition sample_bridge (api : AsusRouter) : AsusRouterBridgeHTTP :=
  {| _host := VStr "192.168.1.1"; _api := api |}.

(** A flow handler as [__init__] leaves it, with the given entries in
    [self._configs] (object 1) and [self._options] (object 2); objects 3
    and 4 are the two default [errors] dictionaries. *)
Definition sample_state (configs options : pydict) : state := {|
  heap := {[ 1%positive := configs; 2%positive := options;
             3%positive := ∅; 4%positive := ∅ ]};
  next_loc := 5%positive;
  logs := [];
  calls := [];
  _configs := 1%positive;
  _options := 2%positive;
  unique_id := None;
  async_select_step_errors := 3%positive;
  async_step_device_errors := 4%positive
|}.

(** Bridges: one that connects, and one whose calls raise the given
    exceptions. *)
Definition sample_instance : ARBridge_instance := {|
  async_connect := Ok tt;
  async_clean := Ok tt;
  get_serial := Ok (VStr "SN0001");
  async_disconnect := Ok tt;
  async_get_network_interfaces := Ok ["WAN"; "WIRED"]
|}.

Definition failing_instance (on_connect : exn) (on_clean : outcome unit)
    : ARBridge_instance := {|
  async_connect := Raise on_connect;
  async_clean := on_clean;
  get_serial := Ok VNone;
  async_disconnect := Ok tt;
  async_get_network_interfaces := Raise on_connect
|}.

(** [ARBridge] classes whose instances behave alike whatever they are
    created with. *)
Definition bridge_class (api : ARBridge_instance)
    : pydict → option pydict → outcome ARBridge_instance :=
  fun _ _ => Ok api.

(** [self._configs] and [self._options] after the 'discovery' step and a
    submission of the 'credentials' form. *)
Definition sample_configs : pydict := {[ "host" := VStr "router.asus.com" ]}.
Definition sample_options : pydict :=
  {[ "username" := VStr "admin"; "password" := VStr "secret"; "ssl" := VBool true ]}.

(** Dictionaries in which the host is among the options and not among
    the configs. *)
Definition hostless_configs : pydict := {[ "username" := VStr "admin" ]}.
Definition host_options : pydict := {[ "host" := VStr "router.asus.com" ]}.

Definition sample_gethostbyname (host : value) : outcome value :=
  match host with
  | VStr "router.asus.com" => Ok (VStr "192.168.1.1")
  | VStr _ => Raise gaierror
  | _ => Raise TypeError
  end.

(** The keys that [_get_ports_sensors] lists for the port data [data]: for
    each port type of [types] that the data has, the type, its total and its
    ports. *)
Definition type_sensors (data : raw_ports) (type : string) : list string :=
  match data !! type with
  | Some d => type :: format2 type "total" :: (format2 type <$> d.*1)
  | None => []
  end.

Definition ports_sensors (data : raw_ports) (types : list string) : list string :=
  types ≫= type_sensors data.

(** Sum of the values of an inner dictionary of the port data *)
Definition ports_total (d : port_dict) : Z := foldr Z.add 0 d.*2.

Section Readings.
Context `{Const}.

(** The six sensor types *)
Definition sensor_types : list string :=
  [ SENSORS_TYPE_CPU; SENSORS_TYPE_RAM; SENSORS_TYPE_NETWORK_STAT;
    SENSORS_TYPE_MISC; SENSORS_TYPE_PORTS; SENSORS_TYPE_WAN ].

(** What one round of the loop over the port types leaves for its type *)
Definition type_entries (type : string) (d : port_dict) (data : pydict) : Prop :=
  data !! format2 type "total" = Some (VInt (ports_total d))
  ∧ (∀ port v, (port, v) ∈ d → data !! format2 type port = Some (VInt v))
  ∧ (ports_total d > 0 → data !! type = Some (VBool true))
  ∧ (ports_total d ≤ 0 → data !! type = None).

(** The form error code that goes with an exception of [async_connect],
    by the type of the exception *)
Definition error_code (ex : exn) : string :=
  match ex with
  | AsusRouterLoginError => RESULT_WRONG_CREDENTIALS
  | AsusRouterLoginBlockError _ => RESULT_LOGIN_BLOCKED
  | AsusRouterConnectionError => RESULT_CONNECTION_REFUSED
  | _ => RESULT_UNKNOWN
  end.

(** The codes that [_async_check_connection] can report *)
Definition error_codes : list string :=
  [ RESULT_ERROR; RESULT_WRONG_CREDENTIALS; RESULT_LOGIN_BLOCKED;
    RESULT_CONNECTION_REFUSED; RESULT_UNKNOWN ].

(** The codes that send the 'credentials' step on to the 'device' step
    differ from [RESULT_SUCCESS] and from the empty string. *)
Definition failure_codes_distinct : Prop :=
  Forall (fun code => code ≠ RESULT_SUCCESS ∧ code ≠ "")
    [ RESULT_ERROR; RESULT_CONNECTION_REFUSED; RESULT_UNKNOWN ].

(** The ways through [_async_check_connection] once the bridge object
    [api] exists: the outcome [r] of the call and the bridge calls [rest]
    made after the clean-up. *)
Definition connected (api : ARBridge_instance) (r : outcome pydict)
    (rest : list bridge_call) : Prop :=
  match async_connect api, async_clean api with
  | _, Raise e => r = Raise e ∧ rest = []
  | Raise ex, Ok _ => r = Ok {[ "errors" := VStr (error_code ex) ]} ∧ rest = []
  | Ok _, Ok _ =>
    (∃ e, r = Raise e) ∨ (∃ result, r = Ok result ∧ result !! "errors" = None)
  end.

(** The configuration keys as the specification lists them: host,
    username and password, port, SSL and verify-SSL with the certificate
    path, cache time, scan interval and consider-home timeout, the
    interfaces, and a control and a monitor toggle. *)
Definition listed_keys : list string :=
  [ CONF_HOST; CONF_USERNAME; CONF_PASSWORD; CONF_PORT; CONF_SSL;
    CONF_VERIFY_SSL; CONF_CERT_PATH; CONF_CACHE_TIME; CONF_SCAN_INTERVAL;
    CONF_CONSIDER_HOME; CONF_INTERFACES; CONF_ENABLE_CONTROL;
    CONF_ENABLE_MONITOR ].

(** The same without the monitor toggle and with the device name. *)
Definition collected_keys : list string :=
  [ CONF_HOST; CONF_USERNAME; CONF_PASSWORD; CONF_PORT; CONF_SSL;
    CONF_VERIFY_SSL; CONF_CERT_PATH; CONF_CACHE_TIME; CONF_SCAN_INTERVAL;
    CONF_CONSIDER_HOME; CONF_INTERFACES; CONF_ENABLE_CONTROL; CONF_NAME ].
End Readings.

(** [configs.copy()] updated with [options], on the entries *)
Definition merged (configs : loc) (options : option loc) (s : state) : pydict :=
  update (heap s !!! configs)
    (match options with Some l => heap s !!! l | None => ∅ end).

(** An object that exists lies below the next free location. *)
Definition allocated (s : state) (l : loc) : Prop := (l < next_loc s)%positive.

(** The state in which the 'credentials' and 'device' steps call
    [_async_check_connection] when they are given [user_input]: the local
    [errors] dictionary is new (for 'credentials') and [self._options] is
    updated with the input. *)
Definition options_updated (user_input : pydict) (s : state) : state :=
  set_heap <[_options s := update (heap s !!! _options s) user_input]> s.

Definition credentials_submitted (user_input : pydict) (s : state) : state :=
  options_updated user_input
    (set_next_loc (Pos.succ (next_loc s)) (set_heap <[next_loc s := ∅]> s)).

(** The successors that the specification lists for the steps of the
    wizard *)
Definition successors : list (string * step) :=
  [ ("discovery", step_credentials);
    ("credentials", step_operation_mode);
    ("device", step_operation_mode);
    ("operation_mode", step_times);
    ("times", step_interfaces);
    ("interfaces", step_name);
    ("name", step_finish) ].

(** ** The rest of bridge.py *)

(** The other side of the HTTP bridge: the identity that the SDK reports
    and what the awaited calls of the SDK object give, for the calls that
    [AsusRouter] above does not list. *)
Module SDK.
Record AsusDevice := {
  mac : value;
  serial : value;
  model : value;
  brand : value;
  firmware : value
}.

Record calls := {
  async_connect : outcome unit;
  async_get_identity : outcome AsusDevice;
  async_get_devices : outcome pydict;
  async_get_cpu : outcome pydict;
  async_get_ram : outcome pydict;
  async_get_network : outcome pydict;
  async_get_wan : outcome pydict;
  derives_from_OSError_or_ValueError : exn → bool
}.
End SDK.

(** [isinstance(ex, AsusRouterError)]: the SDK's own exceptions *)
Definition is_AsusRouterError (ex : exn) : bool :=
  match ex with
  | AsusRouterLoginError
  | AsusRouterLoginBlockError _
  | AsusRouterConnectionError
  | AsusRouterError => true
  | _ => false
  end.

(** The arguments with which [_get_api] calls the SDK's [AsusRouter]. *)
Record AsusRouter_arguments := {
  arg_host : value;
  arg_username : value;
  arg_password : value;
  arg_port : value;
  arg_use_ssl : value;
  arg_cert_check : value;
  arg_cert_path : value;
  arg_cache_time : value;
  arg_enable_monitor : value;
  arg_enable_control : value
}.

Section BridgeHTTP.
Context `{Const}.

(** The keyword arguments are evaluated in the order they are written. *)
Definition _get_api (configs : pydict) : outcome AsusRouter_arguments :=
  let? host := getitem configs CONF_HOST in
  let? username := getitem configs CONF_USERNAME in
  let? password := getitem configs CONF_PASSWORD in
  let? port := getitem configs CONF_PORT in
  let? use_ssl := getitem configs CONF_SSL in
  let? cert_check := getitem configs CONF_VERIFY_SSL in
  Ok {| arg_host := host;
        arg_username := username;
        arg_password := password;
        arg_port := port;
        arg_use_ssl := use_ssl;
        arg_cert_check := cert_check;
        arg_cert_path := dict_get configs CONF_CERT_PATH (VStr "");
        arg_cache_time := dict_get configs CONF_CACHE_TIME (VInt 3);
        arg_enable_monitor := dict_get configs CONF_ENABLE_MONITOR VNone;
        arg_enable_control := dict_get configs CONF_ENABLE_CONTROL VNone |}.

(** [AsusRouterBridgeHTTP.__init__]: the attributes [_configs], [_api] (as
    the arguments it is created with) and [_host] of the new object.  The
    dictionaries given are read, the merge is done on a copy. *)
Definition AsusRouterBridgeHTTP_init (configs options : pydict)
    : outcome (pydict * AsusRouter_arguments * value) :=
  let _configs := update configs options in
  let? api := _get_api _configs in
  let? host := getitem _configs CONF_HOST in
  Ok (_configs, api, host).

(** [AsusRouterBridge.get_bridge]; the default of [options] is [dict()]. *)
Definition get_bridge (configs : pydict) (options : option pydict)
    : outcome (pydict * AsusRouter_arguments * value) :=
  AsusRouterBridgeHTTP_init configs (default ∅ options).
End BridgeHTTP.

(** [AsusRouterBridgeHTTP.async_connect], on the attribute [_identity] of
    the bridge ([None] as long as nothing was assigned to it). *)
Definition bridge_async_connect (api : SDK.calls) (_identity : option SDK.AsusDevice)
    : outcome unit * option SDK.AsusDevice :=
  match SDK.async_connect api with
  | Ok _ =>
    match SDK.async_get_identity api with
    | Ok device => (Ok tt, Some device)
    | Raise ex =>
      (Raise (if is_AsusRouterError ex then ex else ConfigEntryNotReady), _identity)
    end
  | Raise ex =>
    (Raise (if is_AsusRouterError ex then ex else ConfigEntryNotReady), _identity)
  end.

(** [get_mac], [get_serial], [get_model], [get_vendor] and [get_firmware] of
    the HTTP bridge read [self._identity], an attribute that only
    [async_connect] assigns. *)
Definition identity_attribute (field : SDK.AsusDevice → value)
    (_identity : option SDK.AsusDevice) : outcome value :=
  match _identity with
  | Some device => Ok (field device)
  | None => Raise AttributeError
  end.

Definition bridge_get_mac := identity_attribute SDK.mac.
Definition bridge_get_serial := identity_attribute SDK.serial.
Definition bridge_get_model := identity_attribute SDK.model.
Definition bridge_get_vendor := identity_attribute SDK.brand.
Definition bridge_get_firmware := identity_attribute SDK.firmware.

(** [except Exception as ex: raise UpdateFailed(ex) from ex] *)
Definition async_get_connected_devices (api : SDK.calls) : outcome pydict :=
  match SDK.async_get_devices api with
  | Ok api_devices => Ok api_devices
  | Raise ex => Raise (UpdateFailed ex)
  end.

Definition _get_cpu (api : SDK.calls) : outcome pydict :=
  update_failed (SDK.derives_from_OSError_or_ValueError api)
    (SDK.async_get_cpu api).
Definition _get_ram (api : SDK.calls) : outcome pydict :=
  update_failed (SDK.derives_from_OSError_or_ValueError api)
    (SDK.async_get_ram api).
Definition _get_network_stat (api : SDK.calls) : outcome pydict :=
  update_failed (SDK.derives_from_OSError_or_ValueError api)
    (SDK.async_get_network api).
Definition _get_wan (api : SDK.calls) : outcome pydict :=
  update_failed (SDK.derives_from_OSError_or_ValueError api)
    (SDK.async_get_wan api).

(** The keys that [_get_api] indexes, in the order it does. *)
Definition required_keys : list string :=
  [ CONF_HOST; CONF_USERNAME; CONF_PASSWORD; CONF_PORT; CONF_SSL; CONF_VERIFY_SSL ].

(** Sample data for the HTTP bridge; the SDK errors without a class of
    their own in the model are here taken to derive from [OSError], as a
    timeout error of the SDK does. *)
Definition sample_device : SDK.AsusDevice := {|
  SDK.mac := VStr "A0:B1:C2:D3:E4:F5";
  SDK.serial := VStr "SN0001";
  SDK.model := VStr "RT-AX88U";
  SDK.brand := VStr "ASUSTek";
  SDK.firmware := VStr "3.0.0.4.388"
|}.

Definition sample_sdk (on_connect : outcome unit) (on_data : outcome pydict)
    : SDK.calls := {|
  SDK.async_connect := on_connect;
  SDK.async_get_identity := Ok sample_device;
  SDK.async_get_devices := on_data;
  SDK.async_get_cpu := on_data;
  SDK.async_get_ram := on_data;
  SDK.async_get_network := on_data;
  SDK.async_get_wan := on_data;
  SDK.derives_from_OSError_or_ValueError := fun ex => bool_decide (ex = AsusRouterError)
|}.

(** The HTTP bridge as [_async_check_connection] uses it: a new bridge,
    not yet connected, over the SDK calls [api]. *)
Definition http_instance (api : SDK.calls) : ARBridge_instance := {|
  async_connect := (bridge_async_connect api None).1;
  async_clean := Ok tt;
  get_serial := bridge_get_serial (bridge_async_connect api None).2;
  async_disconnect := Ok tt;
  async_get_network_interfaces := Ok []
|}.

Definition complete_configs : pydict :=
  {[ "host" := VStr "router.asus.com"; "username" := VStr "admin";
     "password" := VStr "secret"; "port" := VInt 8443; "ssl" := VBool true;
     "verify_ssl" := VBool false ]}.

(** The attributes of the handler and the two default dictionaries are the
    same in two states. *)
Definition same_self (s s' : state) : Prop :=
  _configs s' = _configs s
  ∧ _options s' = _options s
  ∧ unique_id s' = unique_id s
  ∧ async_select_step_errors s' = async_select_step_errors s
  ∧ async_step_device_errors s' = async_step_device_errors s.

(** A coroutine that leaves a relation between the state it starts in and
    the state it ends in, whatever its outcome. *)
Definition preserves {A} (R : state → state → Prop) (c : F A) : Prop :=
  ∀ s, R s (c s).2.

(** A chain of awaited calls that is over after [k] of them: more fuel
    changes nothing, and the answer is not "out of fuel". *)
Definition settles `{Const}
    (ARBridge : pydict → option pydict → outcome ARBridge_instance)
    (gethostbyname : value → outcome value) (k : nat) (n : next) : Prop :=
  ∀ s fuel, (k ≤ fuel)%nat →
    run ARBridge gethostbyname fuel n s = run ARBridge gethostbyname k n s
    ∧ (run ARBridge gethostbyname k n s).1 ≠ Ok None.

(** ** The options flow *)

(** [v == False] and [v == True]: among the values of the model, the
    boolean itself and the integer equal to it. *)
Definition eq_False (v : value) : bool :=
  match v with
  | VBool false | VInt 0 => true
  | _ => false
  end.

Definition eq_True (v : value) : bool :=
  match v with
  | VBool true | VInt 1 => true
  | _ => false
  end.

Module OptionsFlowHandler.

(** The coroutines of the handler. *)
Inductive step :=
  | step_init
  | step_options
  | step_device
  | step_operation_mode
  | step_times
  | step_interfaces
  | step_confirmation
  | step_finish.

#[global] Instance options_step_eq_dec : EqDecision step.
Proof. solve_decision. Defined.

(** What the handler returns: [async_create_entry] is called with a title
    and the data only. *)
Inductive FlowResult :=
  | async_show_form (step_id : string) (data_schema : Schema) (errors : option loc)
  | async_create_entry (title : value) (data : loc).

Inductive next :=
  | Return (r : FlowResult)
  | Await_select_step (last_step : option string) (errors : option loc)
  | Await_step (f : step) (user_input : option pydict) (errors : option loc).

(** The entry whose options are edited; [data] and [options] are what its
    mappings hold. *)
Record ConfigEntry := {
  title : value;
  data : pydict;
  options : pydict
}.

(** The handler: the dictionary objects, the log, the bridge calls,
    [self._configs] and [self._options] are those of [store]; the last field
    is the dictionary created once for the default value [errors = dict()]
    of [async_select_step]. *)
Record handler := Handler {
  store : state;
  config_entry : ConfigEntry;
  _selection : loc;
  _host : value;
  select_step_errors : loc
}.

Definition set_store (s : state) (self : handler) : handler :=
  Handler s (config_entry self) (_selection self) (_host self)
    (select_step_errors self).

Abbreviation OF := (M handler).

(** A computation on the objects, run by the handler. *)
Definition on_store {A} (c : F A) : OF A :=
  fun self => let (r, s) := c (store self) in (r, set_store s self).

Section Handler.
Context `{Const}.
Variable ARBridge : pydict → option pydict → outcome ARBridge_instance.
Local Open Scope py_scope.

(** [__init__], from the objects [s] that exist and the default dictionary
    [errors] of [async_select_step]: the selection is a new dictionary, the
    configs and the options are copies of the entry's. *)
Definition OptionsFlowHandler_init (entry : ConfigEntry) (errors : loc) (s : state)
    : outcome handler :=
  let selection := next_loc s in
  let configs := Pos.succ selection in
  let options' := Pos.succ configs in
  let? host := getitem (data entry) CONF_HOST in
  Ok (Handler
        (State (<[options' := options entry]>
                  (<[configs := data entry]> (<[selection := ∅]> (heap s))))
           (Pos.succ options') (logs s) (calls s) configs options'
           (unique_id s) (async_select_step_errors s) (async_step_device_errors s))
        entry selection host errors).

Definition self_selection : OF loc := fun self => (Ok (_selection self), self).
Definition self_configs : OF loc := fun self => (Ok (_configs (store self)), self).
Definition self_options : OF loc := fun self => (Ok (_options (store self)), self).

(** Dictionary last_step: next_step, in the order of its keys *)
Definition _steps : list (string * step) :=
  [ ("options", step_device);
    ("device", step_operation_mode);
    ("operation_mode", step_times);
    ("times", step_interfaces);
    ("interfaces", step_confirmation);
    ("confirmation", step_finish) ].

Definition steps_table : gmap string step := list_to_map _steps.

Definition async_select_step (last_step : option string) (errors : option loc)
    : OF next :=
  let! errors := match errors with
                 | Some l => ret l
                 | None => fun self => (Ok (select_step_errors self), self)
                 end in
  match last_step with
  | Some last_step =>
    if bool_decide (last_step ≠ "") then
      if contains steps_table last_step then
        let! e := on_store (read errors) in
        if _check_errors e then
          let! f := lift (getitem steps_table (last_step +:+ "_error")) in
          ret (Await_step f None (Some errors))
        else
          let! f := lift (getitem steps_table last_step) in
          ret (Await_step f None None)
      else raise (ValueError ("Unknown value of last_step: " +:+ last_step))
    else raise (ValueError "Step name was not provided")
  | None => raise (ValueError "Step name was not provided")
  end.

Definition async_step_init (user_input : option pydict) : OF next :=
  ret (Await_step step_options user_input None).

Definition async_step_options (user_input : option pydict) : OF next :=
  let step_id := "options" in
  if given user_input then
    let! selection := self_selection in
    on_store (mutate selection (fun d => update d (default ∅ user_input))) ;;
    ret (Await_select_step (Some step_id) None)
  else
    let schema_dict :=
      (fun el => Field Optional el (VBool false) py_bool)
        <$> filter (fun el => el ≠ step_id ∧ el ≠ "confirmation") (_steps.*1) in
    ret (Return (async_show_form step_id schema_dict None)).

(** [step_id in self._selection and not self._selection[step_id] == False] *)
Definition selected (step_id : string) : OF bool :=
  let! selection := self_selection in
  let! d := on_store (read selection) in
  ret (match d !! step_id with
       | Some v => negb (eq_False v)
       | None => false
       end).

Definition async_step_device (user_input : option pydict) : OF next :=
  let step_id := "device" in
  let! errors := on_store (new_dict ∅) in
  let! chosen := selected step_id in
  if negb chosen then ret (Await_select_step (Some step_id) None)
  else
    let! done :=
      (if given user_input then
         let! configs := self_configs in
         let! options := self_options in
         on_store (mutate options (fun d => update d (default ∅ user_input))) ;;
         let! result :=
           on_store (_async_check_connection ARBridge configs (Some options) false) in
         if contains result "errors" then
           let! code := lift (getitem result "errors") in
           on_store (mutate errors <[ "base" := code ]>) ;;
           ret None
         else
           let! found := lift (getitem result "configs") in
           let! found := match found with
                         | VDict l => on_store (read l)
                         | _ => raise TypeError
                         end in
           on_store (mutate options (fun d => update d found)) ;;
           ret (Some (Await_select_step (Some step_id) (Some errors)))
       else ret None) in
    match done with
    | Some n => ret n
    | None =>
      let! user_input :=
        (if given user_input then ret (default ∅ user_input)
         else let! options := self_options in on_store (read options)) in
      ret (Return (async_show_form step_id (_create_form_device user_input)
                     (Some errors)))
    end.

Definition async_step_operation_mode (user_input : option pydict) : OF next :=
  let step_id := "operation_mode" in
  let! chosen := selected step_id in
  if negb chosen then ret (Await_select_step (Some step_id) None)
  else
    let! options := self_options in
    if negb (given user_input) then
      let! user_input := on_store (read options) in
      ret (Return (async_show_form step_id (_create_form_operation_mode user_input)
                     None))
    else
      on_store (mutate options (fun d => update d (default ∅ user_input))) ;;
      ret (Await_select_step (Some step_id) None).

Definition async_step_times (user_input : option pydict) : OF next :=
  let step_id := "times" in
  let! chosen := selected step_id in
  if negb chosen then ret (Await_select_step (Some step_id) None)
  else
    let! options := self_options in
    if negb (given user_input) then
      let! user_input := on_store (read options) in
      ret (Return (async_show_form step_id (_create_form_times user_input) None))
    else
      on_store (mutate options (fun d => update d (default ∅ user_input))) ;;
      ret (Await_select_step (Some step_id) None).

(** [if not interface in lst: lst.append(interface)], for each interface *)
Definition tracked_or_found (tracked interfaces : list string) : list string :=
  foldl (fun lst interface =>
           if bool_decide (interface ∈ lst) then lst else lst ++ [interface])
    tracked interfaces.

(** [user_input = self._options.copy()] is a shallow copy: the object under
    'interfaces' is one object, reached from [user_input] and from
    [self._options].  What is appended to it is therefore written to both
    here.  As long as no step has replaced it, that list is also the one
    that the options of the config entry hold ([__init__] copies them
    shallowly, too); [ConfigEntry] records the values the entry had when the
    handler was created and does not follow this. *)
Definition async_step_interfaces (user_input : option pydict) : OF next :=
  let step_id := "interfaces" in
  let! chosen := selected step_id in
  if negb chosen then ret (Await_select_step (Some step_id) None)
  else
    let! configs := self_configs in
    let! options := self_options in
    let! o := on_store (read options) in
    let! monitor :=
      on_store (truthy (dict_get o CONF_ENABLE_MONITOR DEFAULT_ENABLE_MONITOR)) in
    if monitor then
      if given user_input then
        on_store (mutate options (fun d => update d (default ∅ user_input))) ;;
        ret (Await_select_step (Some step_id) None)
      else
        let! user_input := on_store (read options) in
        let! shared := lift (getitem user_input "interfaces") in
        match shared with
        | VList tracked =>
          let selected := tracked in
          let! interfaces :=
            on_store (_async_get_network_interfaces ARBridge configs (Some options)) in
          let lst := tracked_or_found tracked interfaces in
          on_store (mutate options <[ "interfaces" := VList lst ]>) ;;
          let user_input := <[ "interfaces" := VList lst ]> user_input in
          let! schema := on_store (_create_form_interfaces user_input selected) in
          ret (Return (async_show_form step_id schema None))
        | VDict tracked =>
          let! selected := on_store (copy tracked) in
          let! interfaces :=
            on_store (_async_get_network_interfaces ARBridge configs (Some options)) in
          let! d := on_store (read tracked) in
          if forallb (fun interface => contains d interface) interfaces then
            ret (Return (async_show_form step_id
                           [ Field Required CONF_INTERFACES (VDict selected)
                               (multi_select (dom d)) ] None))
          else raise AttributeError
        | _ => raise AttributeError
        end
    else ret (Await_select_step (Some step_id) None).

Definition async_step_confirmation (user_input : option pydict) : OF next :=
  let step_id := "confirmation" in
  let! errors := on_store (new_dict ∅) in
  let! confirmed :=
    (if given user_input then
       let input := default ∅ user_input in
       if contains input CONF_CONFIRM
          && from_option eq_True false (input !! CONF_CONFIRM)
       then ret true
       else on_store (mutate errors <[ "base" := VStr "not_confirmed" ]>) ;;
            ret false
     else ret false) in
  if confirmed then ret (Await_select_step (Some step_id) None)
  else
    let! user_input :=
      (if given user_input then ret (default ∅ user_input)
       else let! options := self_options in on_store (read options)) in
    ret (Return (async_show_form step_id (_create_form_confirmation user_input)
                   (Some errors))).

Definition async_step_finish (user_input : option pydict) : OF next :=
  let! options := self_options in
  fun self => (Ok (Return (async_create_entry (title (config_entry self)) options)),
               self).

(** Calling a bound method of the handler; no step has a parameter named
    [errors]. *)
Definition call_step (f : step) (user_input : option pydict) (errors : option loc)
    : OF next :=
  match errors, f with
  | Some _, _ => raise TypeError
  | None, step_init => async_step_init user_input
  | None, step_options => async_step_options user_input
  | None, step_device => async_step_device user_input
  | None, step_operation_mode => async_step_operation_mode user_input
  | None, step_times => async_step_times user_input
  | None, step_interfaces => async_step_interfaces user_input
  | None, step_confirmation => async_step_confirmation user_input
  | None, step_finish => async_step_finish user_input
  end.

Definition await_next (n : next) : OF next :=
  match n with
  | Return r => ret (Return r)
  | Await_select_step last_step errors => async_select_step last_step errors
  | Await_step f user_input errors => call_step f user_input errors
  end.

(** The result of a call, followed through at most [fuel] awaited calls;
    [None] when more would be needed. *)
Fixpoint run (fuel : nat) (n : next) : OF (option FlowResult) :=
  match n, fuel with
  | Return r, _ => ret (Some r)
  | _, O => ret None
  | _, S fuel' => let! n' := await_next n in run fuel' n'
  end.
End Handler.
End OptionsFlowHandler.

(** The handler once a new dictionary holding [d] exists. *)
Definition with_new_dict (d : pydict) (self : OptionsFlowHandler.handler)
    : OptionsFlowHandler.handler :=
  let s := OptionsFlowHandler.store self in
  OptionsFlowHandler.set_store
    (set_next_loc (Pos.succ (next_loc s)) (set_heap <[next_loc s := d]> s)) self.

(** The steps of the options flow that can be left out, with their names. *)
Definition optional_steps : list (OptionsFlowHandler.step * string) :=
  [ (OptionsFlowHandler.step_device, "device");
    (OptionsFlowHandler.step_operation_mode, "operation_mode");
    (OptionsFlowHandler.step_times, "times");
    (OptionsFlowHandler.step_interfaces, "interfaces") ].

(** [not step_id in self._selection or self._selection[step_id] == False] *)
Definition not_selected (selection : pydict) (step_id : string) : Prop :=
  from_option eq_False true (selection !! step_id) = true.

(** A chain of awaited calls of the options flow that is over after [k] of
    them. *)
Definition options_settles `{Const}
    (ARBridge : pydict → option pydict → outcome ARBridge_instance)
    (k : nat) (n : OptionsFlowHandler.next) : Prop :=
  ∀ self fuel, (k ≤ fuel)%nat →
    OptionsFlowHandler.run ARBridge fuel n self = OptionsFlowHandler.run ARBridge k n self
    ∧ (OptionsFlowHandler.run ARBridge k n self).1 ≠ Ok None.

(** The names under which the steps of the options flow hand over to
    [async_select_step]. *)
Definition options_step_ids : list (OptionsFlowHandler.step * string) :=
  (OptionsFlowHandler.step_options, "options")
  :: optional_steps ++ [ (OptionsFlowHandler.step_confirmation, "confirmation") ].

(** The optional steps and the step that ends them, in the order in which
    the step table chains them. *)
Definition options_order : list (OptionsFlowHandler.step * string) :=
  optional_steps ++ [ (OptionsFlowHandler.step_confirmation, "confirmation") ].

(** Sample data for the options flow: an entry, and a handler whose
    selection is object 5. *)
Definition sample_entry (options : pydict) : OptionsFlowHandler.ConfigEntry := {|
  OptionsFlowHandler.title := VStr "RT-AX88U";
  OptionsFlowHandler.data := complete_configs;
  OptionsFlowHandler.options := options
|}.

Definition sample_handler (selection options : pydict) : OptionsFlowHandler.handler := {|
  OptionsFlowHandler.store :=
    set_next_loc 6%positive
      (set_heap <[5%positive := selection]> (sample_state complete_configs options));
  OptionsFlowHandler.config_entry := sample_entry options;
  OptionsFlowHandler._selection := 5%positive;
  OptionsFlowHandler._host := VStr "router.asus.com";
  OptionsFlowHandler.select_step_errors := 3%positive
|}.

(** * Properties *)

Ltac unfold_monad :=
  unfold bind, ret, lift, raise, modify, get, try_except, try_finally, log in *.

Ltac state_simpl :=
  cbn [heap calls logs next_loc _configs _options unique_id
       async_select_step_errors async_step_device_errors
       add_call add_log set_heap set_next_loc set_unique_id fst snd] in *.

Ltac exec :=
  unfold copy, read, new_dict, mutate, await, log, try_finally, try_except,
    bind, ret, lift, raise, modify;
  cbv beta iota.

(** ** The sensor lists of the bridge *)

Section BridgeSensors.
Context `{Const}.
Implicit Types (self : AsusRouterBridgeHTTP) (lg : list log_entry).

Lemma _get_cpu_sensors_ok self lg l :
  async_get_cpu_labels (_api self) = Ok l →
  _get_cpu_sensors self lg =
    (Ok l, lg ++ [Log DEBUG "Available CPU sensors: {}" [FStrings l]]).
Proof.
  intros Hapi. unfold _get_cpu_sensors, _LOGGER. unfold_monad.
  by rewrite Hapi.
Qed.

Lemma _get_cpu_sensors_raises self lg ex :
  async_get_cpu_labels (_api self) = Raise ex →
  _get_cpu_sensors self lg =
    (Ok ["total"],
     lg ++ [Log WARNING "Cannot get available CPU sensors for {}: {}"
              [FValue (_host self); FExn ex]]).
Proof.
  intros Hapi. unfold _get_cpu_sensors, _LOGGER. unfold_monad.
  by rewrite Hapi.
Qed.

Lemma sensors_append_all {A} (f : A → string) (l : list A) s :
  foldM (fun _ x => sensors_append (f x)) tt l s = (Ok tt, (s.1 ++ (f <$> l), s.2)).
Proof.
  revert s. induction l as [|x l IH]; intros [acc lg]; simpl.
  - by rewrite app_nil_r.
  - unfold bind at 1, sensors_append at 1, modify. simpl.
    rewrite IH. simpl. by rewrite <- app_assoc.
Qed.

Lemma network_stat_labels_all (labels : list string) s :
  foldM (fun _ label =>
      foldM (fun _ el => sensors_append (format2 label el)) tt SENSORS_NETWORK_STAT)
    tt labels s
  = (Ok tt, (s.1 ++ (labels ≫= fun label => format2 label <$> SENSORS_NETWORK_STAT),
             s.2)).
Proof.
  revert s. induction labels as [|label labels IH]; intros [acc lg]; simpl.
  - by rewrite app_nil_r.
  - unfold bind at 1. rewrite sensors_append_all. simpl.
    rewrite IH. simpl. by rewrite <- app_assoc.
Qed.

Lemma _get_network_stat_sensors_ok self lg labels :
  async_get_network_labels (_api self) = Ok labels →
  let sensors := labels ≫= fun label => format2 label <$> SENSORS_NETWORK_STAT in
  _get_network_stat_sensors self lg =
    (Ok sensors,
     lg ++ [Log DEBUG "Available network stat sensors: {}" [FStrings sensors]]).
Proof.
  intros Hapi. unfold _get_network_stat_sensors, with_sensors, sensors_log.
  unfold bind at 1 2 3; unfold lift. rewrite Hapi.
  by rewrite network_stat_labels_all.
Qed.

Lemma _get_network_stat_sensors_raises self lg ex :
  async_get_network_labels (_api self) = Raise ex →
  _get_network_stat_sensors self lg =
    (Ok [],
     lg ++ [Log WARNING "Cannot get available network stat sensors for {}: {}"
              [FValue (_host self); FExn ex]]).
Proof.
  intros Hapi. unfold _get_network_stat_sensors, with_sensors, _LOGGER.
  unfold_monad. by rewrite Hapi.
Qed.

Lemma ports_sensors_cons (raw : raw_ports) (type : string) (types : list string) :
  ports_sensors raw (type :: types)
  = type_sensors raw type ++ ports_sensors raw types.
Proof. reflexivity. Qed.

Lemma ports_types_all (data : raw_ports) (types : list string) s :
  foldM (fun _ type =>
      if contains data type then
        bind (sensors_append type) (fun _ =>
        bind (sensors_append (format2 type "total")) (fun _ =>
        bind (lift (getitem data type)) (fun data_type =>
        foldM (fun _ port => sensors_append (format2 type port)) tt data_type.*1)))
      else ret tt)
    tt types s
  = (Ok tt, (s.1 ++ ports_sensors data types, s.2)).
Proof.
  revert s. induction types as [|type types IH]; intros [acc lg].
  - simpl. by rewrite app_nil_r.
  - rewrite ports_sensors_cons. cbn [foldM]. unfold bind at 1.
    unfold contains, getitem, type_sensors.
    destruct (data !! type) as [d|] eqn:Hd.
    + rewrite bool_decide_true by eauto.
      unfold bind at 1 2 3, sensors_append at 1 2, modify, lift. simpl.
      rewrite sensors_append_all. simpl. rewrite IH. simpl.
      do 2 f_equal. rewrite <- !app_assoc. simpl. done.
    + rewrite bool_decide_false by (intros [? ?]; done).
      unfold ret at 1. rewrite IH. simpl. done.
Qed.

Lemma _get_ports_sensors_ok self lg data :
  async_get_ports (_api self) = Ok data →
  let sensors := ports_sensors data SENSORS_PORTS in
  _get_ports_sensors self lg =
    (Ok sensors, lg ++ [Log DEBUG "Available ports sensors: {}" [FStrings sensors]]).
Proof.
  intros Hapi. unfold _get_ports_sensors, with_sensors, sensors_log.
  unfold bind at 1 2 3; unfold lift at 1. rewrite Hapi.
  by rewrite ports_types_all.
Qed.

Lemma _get_ports_sensors_raises self lg ex :
  async_get_ports (_api self) = Raise ex →
  _get_ports_sensors self lg =
    (Ok [],
     lg ++ [Log WARNING "Cannot get available ports sensors for {}: {}"
              [FValue (_host self); FExn ex]]).
Proof.
  intros Hapi. unfold _get_ports_sensors, with_sensors, _LOGGER.
  unfold_monad. by rewrite Hapi.
Qed.

(** None of the three raises, whatever the SDK does. *)
Lemma _get_cpu_sensors_returns self lg :
  ∃ l lg', _get_cpu_sensors self lg = (Ok l, lg').
Proof.
  destruct (async_get_cpu_labels (_api self)) eqn:Hapi.
  - erewrite _get_cpu_sensors_ok by done. eauto.
  - erewrite _get_cpu_sensors_raises by done. eauto.
Qed.

Lemma _get_network_stat_sensors_returns self lg :
  ∃ l lg', _get_network_stat_sensors self lg = (Ok l, lg').
Proof.
  destruct (async_get_network_labels (_api self)) eqn:Hapi.
  - erewrite _get_network_stat_sensors_ok by done. eauto.
  - erewrite _get_network_stat_sensors_raises by done. eauto.
Qed.

Lemma _get_ports_sensors_returns self lg :
  ∃ l lg', _get_ports_sensors self lg = (Ok l, lg').
Proof.
  destruct (async_get_ports (_api self)) eqn:Hapi.
  - erewrite _get_ports_sensors_ok by done. eauto.
  - erewrite _get_ports_sensors_raises by done. eauto.
Qed.
End BridgeSensors.

Ltac split_NoDup :=
  repeat match goal with
         | Hnd : NoDup (_ :: _) |- _ =>
           let Hx := fresh "Hnotin" in apply NoDup_cons in Hnd as [Hx Hnd]
         end;
  rewrite ?not_elem_of_cons in *;
  destruct_and?.

Section AvailableSensors.
Context `{Const}.

(** C6. [async_get_available_sensors] of the HTTP bridge always returns,
    and what it returns is a dictionary whose keys are exactly the six
    sensor types (CPU, RAM, network statistics, miscellaneous, ports,
    WAN); under each type it holds the sensor list of that type (for CPU,
    network statistics and ports the list that [_get_cpu_sensors],
    [_get_network_stat_sensors] and [_get_ports_sensors] return, in that
    order of calls) and the method that polls it, the six type names of
    [const.py] being distinct. *)
Theorem async_get_available_sensors_six_types
    (self : AsusRouterBridgeHTTP) (lg : list log_entry) :
  ∃ cpu lg1 network_stat lg2 ports lg3 r,
    _get_cpu_sensors self lg = (Ok cpu, lg1)
    ∧ _get_network_stat_sensors self lg1 = (Ok network_stat, lg2)
    ∧ _get_ports_sensors self lg2 = (Ok ports, lg3)
    ∧ async_get_available_sensors self lg = (Ok r, lg3)
    ∧ dom r = list_to_set sensor_types
    ∧ (NoDup sensor_types →
       r !! SENSORS_TYPE_CPU = Some {| sensors := cpu; method := _get_cpu_method |}
       ∧ r !! SENSORS_TYPE_RAM
         = Some {| sensors := SENSORS_RAM; method := _get_ram_method |}
       ∧ r !! SENSORS_TYPE_NETWORK_STAT
         = Some {| sensors := network_stat; method := _get_network_stat_method |}
       ∧ r !! SENSORS_TYPE_MISC
         = Some {| sensors := SENSORS_MISC; method := _get_misc_method |}
       ∧ r !! SENSORS_TYPE_PORTS
         = Some {| sensors := ports; method := _get_ports_method |}
       ∧ r !! SENSORS_TYPE_WAN
         = Some {| sensors := SENSORS_WAN; method := _get_wan_method |}).
Proof.
  destruct (_get_cpu_sensors_returns self lg) as (cpu & lg1 & Hcpu).
  destruct (_get_network_stat_sensors_returns self lg1) as (net & lg2 & Hnet).
  destruct (_get_ports_sensors_returns self lg2) as (ports & lg3 & Hports).
  exists cpu, lg1, net, lg2, ports, lg3. eexists.
  split; [done|]. split; [done|]. split; [done|].
  split.
  { unfold async_get_available_sensors, bind. rewrite Hcpu, Hnet, Hports.
    unfold ret. reflexivity. }
  unfold sensor_types in *. simpl. split.
  { rewrite !dom_insert_L, dom_empty_L. set_unfold. intros x. tauto. }
  intros Hnd. split_NoDup. by simplify_map_eq.
Qed.
End AvailableSensors.

Lemma async_get_available_sensors_six_types_witness :
  ∃ r lg, @async_get_available_sensors sample_const (sample_bridge failing_api) []
          = (Ok r, lg)
          ∧ dom r = {[ "cpu"; "ram"; "network_stat"; "misc"; "ports"; "wan" ]}
          ∧ r !! "cpu" = Some {| sensors := ["total"]; method := _get_cpu_method |}.
Proof.
  destruct (@async_get_available_sensors_six_types sample_const
              (sample_bridge failing_api) [])
    as (cpu & lg1 & net & lg2 & ports & lg3 & r & Hcpu & _ & _ & Hr & Hdom & Hc).
  destruct Hc as (Hc & _).
  { apply (bool_decide_unpack _). vm_compute. exact I. }
  exists r, lg3. split; [exact Hr|]. split.
  - rewrite Hdom. vm_compute. reflexivity.
  - etransitivity; [exact Hc|]. vm_compute in Hcpu. by injection Hcpu as <- _.
Defined.

(** ** The port entries of [_get_ports] *)

Section Ports.
Context `{Const}.

Lemma port_getitem_elem (d : port_dict) (port : string) (v : Z) :
  NoDup d.*1 → (port, v) ∈ d → port_getitem d port = Ok v.
Proof.
  induction d as [|[p w] d IH]; simpl; intros Hnd Hin.
  - by apply elem_of_nil in Hin.
  - apply NoDup_cons in Hnd as [Hp Hnd].
    apply elem_of_cons in Hin as [[= -> ->]|Hin].
    + by rewrite decide_True.
    + rewrite decide_False; [by apply IH|].
      intros ->. apply Hp. apply list_elem_of_fmap. by exists (port, v).
Qed.

Lemma format2_inj (type : string) : Inj (=) (=) (format2 type).
Proof.
  intros p q Heq. unfold format2 in Heq.
  by apply (inj (String.app "_")), (inj (String.app type)).
Qed.

(** The inner loop of [_get_ports] over the ports [l] of a type, started
    with the running total [acc] under the key of the total. *)
Lemma _get_ports_port_loop (raw_type : port_dict) (type : string)
    (l : port_dict) (data : pydict) (acc : Z) :
  (∀ port v, (port, v) ∈ l → port_getitem raw_type port = Ok v) →
  NoDup (format2 type "total" :: (format2 type <$> l.*1)) →
  data !! format2 type "total" = Some (VInt acc) →
  ∃ data',
    ofold (_get_ports_port raw_type type) data l.*1 = Ok data'
    ∧ data' !! format2 type "total" = Some (VInt (acc + ports_total l))
    ∧ (∀ port v, (port, v) ∈ l → data' !! format2 type port = Some (VInt v))
    ∧ (∀ k, k ∉ format2 type "total" :: (format2 type <$> l.*1) →
            data' !! k = data !! k).
Proof.
  revert data acc. induction l as [|[p v] l IH]; intros data acc Hget Hnd Htot.
  - exists data. simpl. unfold ports_total. simpl. rewrite Z.add_0_r.
    split_and!; [done|done| |done].
    intros ?? Hin. by apply elem_of_nil in Hin.
  - csimpl in *.
    apply NoDup_cons in Hnd as [[Htp Htl]%not_elem_of_cons Hnd].
    apply NoDup_cons in Hnd as [Hp Hnd].
    unfold _get_ports_port at 1.
    rewrite (Hget p v) by left. simpl.
    unfold getitem. rewrite lookup_insert_ne by done. rewrite Htot. simpl.
    set (data1 := <[format2 type "total" := VInt (acc + v)]>
                    (<[format2 type p := VInt v]> data)).
    destruct (IH data1 (acc + v)) as (data' & Hrun & Htot' & Hports & Hframe).
    { intros port w Hin. apply Hget. by right. }
    { by apply NoDup_cons. }
    { unfold data1. by rewrite lookup_insert_eq. }
    exists data'. split; [done|]. split.
    { rewrite Htot'. unfold ports_total. csimpl. do 2 f_equal. lia. }
    split.
    + intros port w [[= -> ->]|Hin]%elem_of_cons; [|by apply Hports].
      rewrite Hframe.
      * unfold data1. rewrite lookup_insert_ne by done.
        by rewrite lookup_insert_eq.
      * by apply not_elem_of_cons.
    + intros k Hk. apply not_elem_of_cons in Hk as [Hk1 Hk2].
      apply not_elem_of_cons in Hk2 as [Hk2 Hk3].
      rewrite Hframe by (by apply not_elem_of_cons).
      unfold data1. by rewrite !lookup_insert_ne.
Qed.

Lemma _get_ports_type_present (raw : raw_ports) (data : pydict)
    (type : string) (d : port_dict) :
  raw !! type = Some d →
  NoDup (type :: format2 type "total" :: (format2 type <$> d.*1)) →
  data !! type = None →
  ∃ data',
    _get_ports_type raw data type = Ok data'
    ∧ type_entries type d data'
    ∧ (∀ k, k ∉ type :: format2 type "total" :: (format2 type <$> d.*1) →
            data' !! k = data !! k).
Proof.
  intros Hd Hnd Hnone. apply NoDup_cons in Hnd as [Hty Hnd].
  unfold _get_ports_type, contains, getitem. rewrite Hd.
  rewrite bool_decide_true by eauto. simpl.
  destruct (_get_ports_port_loop d type d
              (<[format2 type "total" := VInt 0]> data) 0)
    as (data1 & Hrun & Htot & Hports & Hframe).
  { intros port v Hin. apply port_getitem_elem; [|done].
    apply NoDup_cons in Hnd as [_ Hnd].
    by apply (NoDup_fmap_1 (format2 type)). }
  { done. }
  { by rewrite lookup_insert_eq. }
  rewrite Hrun. simpl. rewrite Htot. simpl.
  assert (Hbare : data1 !! type = None).
  { apply not_elem_of_cons in Hty as [Hne Hty].
    rewrite Hframe by (apply not_elem_of_cons; done).
    by rewrite lookup_insert_ne. }
  assert (Hne : type ≠ format2 type "total").
  { intros Heq. apply Hty. rewrite <- Heq. by left. }
  eexists. split; [done|]. unfold type_entries.
  case_bool_decide as Hpos.
  - split.
    { split_and!.
      - by rewrite lookup_insert_ne.
      - intros port v Hin. rewrite lookup_insert_ne; [by apply Hports|].
        intros Heq. apply Hty. right.
        apply list_elem_of_fmap. exists port. split; [done|].
        apply list_elem_of_fmap. by exists (port, v).
      - intros _. by rewrite lookup_insert_eq.
      - intros. lia. }
    intros k Hk. apply not_elem_of_cons in Hk as [Hk1 Hk2].
    rewrite lookup_insert_ne by done. rewrite Hframe by done.
    apply not_elem_of_cons in Hk2 as [Hk2 _]. by rewrite lookup_insert_ne.
  - split.
    { split_and!; [done|done|intros; lia|done]. }
    intros k Hk. apply not_elem_of_cons in Hk as [Hk1 Hk2].
    rewrite Hframe by done.
    apply not_elem_of_cons in Hk2 as [Hk2 _]. by rewrite lookup_insert_ne.
Qed.

Lemma _get_ports_type_absent (raw : raw_ports) (data : pydict) (type : string) :
  raw !! type = None → _get_ports_type raw data type = Ok data.
Proof.
  intros Hd. unfold _get_ports_type, contains. rewrite Hd.
  rewrite bool_decide_false; [done|]. by intros [? ?].
Qed.

(** The loop over the port types *)
Lemma _get_ports_types_loop (raw : raw_ports) (types : list string) (data : pydict) :
  NoDup (ports_sensors raw types) →
  (∀ k, k ∈ ports_sensors raw types → data !! k = None) →
  ∃ data',
    ofold (_get_ports_type raw) data types = Ok data'
    ∧ (∀ type d, type ∈ types → raw !! type = Some d → type_entries type d data')
    ∧ (∀ k, k ∉ ports_sensors raw types → data' !! k = data !! k).
Proof.
  revert data. induction types as [|type types IH]; intros data Hnd Hfresh.
  - exists data. split_and!; [done| |done].
    intros ?? Hin. by apply elem_of_nil in Hin.
  - rewrite ports_sensors_cons in Hnd.
    assert (Hfresh' : ∀ k, k ∈ type_sensors raw type ++ ports_sensors raw types →
                           data !! k = None).
    { intros k Hk. apply Hfresh. by rewrite ports_sensors_cons. }
    clear Hfresh. rename Hfresh' into Hfresh.
    apply NoDup_app in Hnd as (Hnd1 & Hdisj & Hnd2).
    cbn [ofold]. unfold type_sensors in *.
    destruct (raw !! type) as [d|] eqn:Hd.
    + destruct (_get_ports_type_present raw data type d)
        as (data1 & Hrun1 & Hent & Hframe1); [done|done| |].
      { apply Hfresh. apply elem_of_app. left. by left. }
      rewrite Hrun1. simpl.
      destruct (IH data1) as (data' & Hrun & Hall & Hframe); [done| |].
      { intros k Hk. rewrite Hframe1.
        - apply Hfresh. apply elem_of_app. by right.
        - intros Hk'. by apply (Hdisj k). }
      exists data'. split; [done|]. split.
      * intros type' d' [->|Hin]%elem_of_cons Hd'; [|by apply Hall].
        assert (d' = d) as -> by congruence.
        destruct Hent as (Ht & Hp & Hpos & Hneg).
        assert (Hkeep : ∀ k, k ∈ type :: format2 type "total"
                                 :: (format2 type <$> d.*1) →
                             data' !! k = data1 !! k).
        { intros k Hk. apply Hframe. intros Hk'. by apply (Hdisj k). }
        split_and!.
        -- rewrite Hkeep; [done|]. right. by left.
        -- intros port v Hin. rewrite Hkeep; [by apply Hp|].
           do 2 right. apply list_elem_of_fmap. exists port. split; [done|].
           apply list_elem_of_fmap. by exists (port, v).
        -- intros. rewrite Hkeep; [by apply Hpos|]. by left.
        -- intros. rewrite Hkeep; [by apply Hneg|]. by left.
      * intros k Hk. rewrite ?ports_sensors_cons in Hk.
        unfold type_sensors in Hk. rewrite Hd in Hk.
        apply not_elem_of_app in Hk as [Hk1 Hk2].
        rewrite Hframe by done. by apply Hframe1.
    + rewrite _get_ports_type_absent by done. simpl.
      destruct (IH data) as (data' & Hrun & Hall & Hframe); [done|done|].
      exists data'. split; [done|]. split.
      * intros type' d' [->|Hin]%elem_of_cons Hd'; [congruence|by apply Hall].
      * intros k Hk. apply Hframe. rewrite ?ports_sensors_cons in Hk.
        unfold type_sensors in Hk. by rewrite Hd in Hk.
Qed.
End Ports.

Section PortsEntries.
Context `{Const}.

(** C9, amended.  When the SDK returns port data and the keys that the
    data gives rise to (for each port type of [SENSORS_PORTS] present in
    the data: the type, '{type}_total' and '{type}_{port}' for each of its
    ports) are pairwise distinct, [_get_ports] returns a dictionary in
    which, for every such type, '{type}_total' is the sum of the values
    of the type's ports, '{type}_{port}' is the value of the port, and
    the bare type is [True] when the sum is positive and absent
    otherwise; every key of the dictionary is one of those, so a type
    that the data lacks contributes nothing. *)
Theorem _get_ports_entries (self : AsusRouterBridgeHTTP) (raw : raw_ports) :
  async_get_ports (_api self) = Ok raw →
  NoDup (ports_sensors raw SENSORS_PORTS) →
  ∃ data,
    _get_ports self = Ok data
    ∧ (∀ type d, type ∈ SENSORS_PORTS → raw !! type = Some d →
         data !! format2 type "total" = Some (VInt (ports_total d))
         ∧ (∀ port v, (port, v) ∈ d → data !! format2 type port = Some (VInt v))
         ∧ (ports_total d > 0 → data !! type = Some (VBool true))
         ∧ (ports_total d ≤ 0 → data !! type = None))
    ∧ (∀ k, is_Some (data !! k) →
         ∃ type d, type ∈ SENSORS_PORTS ∧ raw !! type = Some d
           ∧ (k = type ∨ k = format2 type "total"
              ∨ ∃ port, port ∈ d.*1 ∧ k = format2 type port)).
Proof.
  intros Hapi Hnd.
  destruct (_get_ports_types_loop raw SENSORS_PORTS ∅ Hnd)
    as (data & Hrun & Hall & Hframe); [done|].
  exists data. split.
  { unfold _get_ports. rewrite Hapi. simpl. by rewrite Hrun. }
  split; [exact Hall|].
  intros k Hk.
  destruct (decide (k ∈ ports_sensors raw SENSORS_PORTS)) as [Hin|Hout].
  - apply list_elem_of_bind in Hin as (type & Hin & Hty).
    unfold type_sensors in Hin. destruct (raw !! type) as [d|] eqn:Hd.
    + exists type, d. split_and!; [done|done|].
      apply elem_of_cons in Hin as [->|Hin]; [by left|].
      apply elem_of_cons in Hin as [->|Hin]; [right; by left|].
      do 2 right. apply list_elem_of_fmap in Hin as (port & -> & Hport). eauto.
    + by apply elem_of_nil in Hin.
  - rewrite Hframe in Hk by done. rewrite lookup_empty in Hk.
    by destruct Hk.
Qed.
End PortsEntries.

Lemma _get_ports_entries_witness :
  ∃ data, @_get_ports sample_const (sample_bridge sample_api) = Ok data
          ∧ data !! "LAN_total" = Some (VInt 1100)
          ∧ data !! "LAN" = Some (VBool true)
          ∧ data !! "WAN" = None.
Proof.
  destruct (@_get_ports_entries sample_const (sample_bridge sample_api) sample_ports)
    as (data & Hrun & Hall & _).
  { reflexivity. }
  { apply (bool_decide_unpack _). vm_compute. exact I. }
  exists data. split; [exact Hrun|].
  destruct (Hall "LAN" [("1", 1000); ("2", 0); ("3", 100)]) as (Ht & _ & Hpos & _).
  { apply (bool_decide_unpack _). vm_compute. exact I. }
  { reflexivity. }
  destruct (Hall "WAN" [("0", 0)]) as (_ & _ & _ & Hneg).
  { apply (bool_decide_unpack _). vm_compute. exact I. }
  { reflexivity. }
  split_and!.
  - exact Ht.
  - apply Hpos. vm_compute. reflexivity.
  - apply Hneg. vm_compute. discriminate.
Defined.

(** C9 as stated fails when a port is called "total": for the port data
    [{"LAN": {"total": 5}}] the entry 'LAN_total' is first overwritten with
    the value of the port and then increased by it, so it holds 10 and not
    the sum 5. *)
Lemma _get_ports_total_clash :
  "LAN" ∈ @SENSORS_PORTS sample_const
  ∧ clash_ports !! "LAN" = Some [("total", 5)]
  ∧ ports_total [("total", 5)] = 5
  ∧ ∃ data, @_get_ports sample_const (sample_bridge clash_api) = Ok data
            ∧ data !! format2 "LAN" "total" = Some (VInt 10)
            ∧ data !! format2 "LAN" "total" ≠ Some (VInt (ports_total [("total", 5)])).
Proof.
  split_and!.
  - apply (bool_decide_unpack _). vm_compute. exact I.
  - reflexivity.
  - reflexivity.
  - eexists. split; [reflexivity|]. split; [reflexivity|].
    vm_compute. discriminate.
Qed.

(** ** The connection check *)

Section CheckConnection.
Context `{Const}.
Variable ARBridge : pydict → option pydict → outcome ARBridge_instance.

Lemma truthy_run (v : value) (s : state) : ∃ b, truthy v s = (Ok b, s).
Proof. destruct v; simpl; unfold read, bind, ret; eauto. Qed.

Lemma connection_error_run (host : value) (simple : bool) (ex : exn) (s : state) :
  ∃ entry, connection_error host simple ex s
           = (Ok {[ "errors" := VStr (error_code ex) ]}, add_log entry s).
Proof.
  unfold connection_error, _LOGGER'.
  destruct ex, simple; exec; simpl; eauto.
Qed.

Lemma pop_loop_frame (l : loc) (items : list string) (s : state) r s' :
  foldM (fun _ item => pop l item) tt items s = (r, s') →
  (∀ l', l' ≠ l → heap s' !! l' = heap s !! l')
  ∧ next_loc s' = next_loc s ∧ logs s' = logs s ∧ calls s' = calls s.
Proof.
  revert s. induction items as [|item items IH]; intros s; simpl.
  - by intros [= <- <-].
  - unfold bind at 1, pop at 1, read, bind at 1.
    destruct (contains (heap s !!! l) item); simpl.
    + unfold mutate, modify. simpl. intros Hrun.
      destruct (IH _ Hrun) as (Hh & Hn & Hl & Hc).
      split_and!; try done.
      intros l' Hl'. rewrite Hh by done. simpl. by rewrite lookup_insert_ne.
    + unfold raise. by intros [= <- <-].
Qed.

Lemma _async_check_connection_cases configs options simple s r s' :
  _async_check_connection ARBridge configs options simple s = (r, s') →
  (∀ l, l ≠ next_loc s → heap s' !! l = heap s !! l)
  ∧ ( (r = Ok {[ "errors" := VStr RESULT_ERROR ]}
       ∧ calls s' = calls s ∧ logs s' = logs s)
    ∨ (∃ e, r = Raise e ∧ calls s' = calls s)
    ∨ (∃ c e, ARBridge c None = Raise e ∧ r = Raise e
              ∧ calls s' = calls s ++ [call_ARBridge c None])
    ∨ (∃ c api rest, ARBridge c None = Ok api
         ∧ calls s' = calls s ++ call_ARBridge c None :: call_async_connect
                                  :: call_async_clean :: rest
         ∧ connected api r rest)).
Proof.
  unfold _async_check_connection, _LOGGER'.
  set (o := match options with Some l => read l | None => ret ∅ end).
  assert (Ho : ∀ s0, ∃ d, o s0 = (Ok d, s0)).
  { intros s0. subst o. destruct options; unfold read, ret; eauto. }
  exec. state_simpl.
  destruct (Ho (set_next_loc (Pos.succ (next_loc s))
                  (set_heap <[next_loc s:=heap s !!! configs]> s))) as [d ->].
  clearbody o. clear Ho o. state_simpl. rewrite !lookup_total_insert_eq.
  set (m := update (heap s !!! configs) d).
  destruct (contains m CONF_HOST); cbn [negb].
  2:{ intros [= <- <-]. state_simpl. split.
      - intros l Hl. by rewrite !lookup_insert_ne.
      - left. done. }
  destruct (getitem m CONF_HOST) as [host|e].
  2:{ intros [= <- <-]. state_simpl. split.
      - intros l Hl. by rewrite !lookup_insert_ne.
      - right. left. eauto. }
  match goal with
  | |- context [let (_, _) := ?prep ?s0 in _] =>
    destruct (prep s0) as [o1 s1] eqn:Hprep;
    assert (Hs1 : (∀ l, l ≠ next_loc s → heap s1 !! l = heap s !! l)
                  ∧ calls s1 = calls s)
  end.
  { destruct simple.
    - destruct (getitem m CONF_SSL) as [ssl|e].
      + match type of Hprep with
        | context [truthy ssl ?s0] =>
          destruct (truthy_run ssl s0) as [b Hb]; rewrite Hb in Hprep
        end.
        destruct (getitem SIMPLE_SETUP_PARAMETERS _);
          injection Hprep as <- <-; state_simpl;
          (split; [intros l Hl; by rewrite !lookup_insert_ne|done]).
      + injection Hprep as <- <-. state_simpl.
        split; [intros l Hl; by rewrite !lookup_insert_ne|done].
    - injection Hprep as <- <-. state_simpl.
      split; [intros l Hl; try by rewrite !lookup_insert_ne|done]. }
  clear Hprep. destruct Hs1 as [Hframe Hcalls].
  destruct o1 as [step_type|e].
  2:{ intros [= <- <-]. split; [done|]. right. left. eauto. }
  set (c := heap s1 !!! next_loc s).
  destruct (ARBridge c None) as [api|e] eqn:Hapi.
  2:{ intros [= <- <-]. state_simpl. split; [done|].
      right. right. left. exists c, e. by rewrite Hcalls. }
  assert (Hleaf : ∀ rest s2,
            (∀ l, l ≠ next_loc s → heap s2 !! l = heap s !! l) →
            calls s2 = (calls s1 ++ [call_ARBridge c None; call_async_connect;
                                     call_async_clean]) ++ rest →
            connected api r rest →
            (∀ l, l ≠ next_loc s → heap s2 !! l = heap s !! l)
            ∧ ( (r = Ok {[ "errors" := VStr RESULT_ERROR ]}
                 ∧ calls s2 = calls s ∧ logs s2 = logs s)
              ∨ (∃ e, r = Raise e ∧ calls s2 = calls s)
              ∨ (∃ c e, ARBridge c None = Raise e ∧ r = Raise e
                        ∧ calls s2 = calls s ++ [call_ARBridge c None])
              ∨ (∃ c api rest, ARBridge c None = Ok api
                   ∧ calls s2 = calls s ++ call_ARBridge c None
                                   :: call_async_connect :: call_async_clean :: rest
                   ∧ connected api r rest))).
  { intros rest s2 Hh Hc Hconn. split; [done|]. do 3 right.
    exists c, api, rest. split; [done|]. split; [|done].
    rewrite Hc, Hcalls, <- !app_assoc. done. }
  unfold connected in Hleaf.
  destruct (async_connect api) as [[]|ex] eqn:Hconn.
  - destruct (async_clean api) as [[]|e] eqn:Hclean.
    + destruct (get_serial api) as [serial|e].
      2:{ intros [= <- <-]. apply (Hleaf [call_get_serial]); state_simpl;
            [done|by rewrite <- !app_assoc|eauto]. }
      destruct (async_disconnect api) as [[]|e].
      2:{ intros [= <- <-].
          apply (Hleaf [call_get_serial; call_async_disconnect]); state_simpl;
            [done|by rewrite <- !app_assoc|eauto]. }
      match goal with
      | |- context [foldM ?f ?a ?l ?s0] =>
        destruct (foldM f a l s0) as [o2 s2] eqn:Hpop
      end.
      apply pop_loop_frame in Hpop as (Hh & _ & _ & Hc). state_simpl.
      assert (Hframe2 : ∀ l, l ≠ next_loc s → heap s2 !! l = heap s !! l).
      { intros l Hl. rewrite Hh by done. by apply Hframe. }
      destruct o2 as [[]|e]; intros [= <- <-];
        apply (Hleaf [call_get_serial; call_async_disconnect]); state_simpl;
        [done|by rewrite Hc, <- !app_assoc| |done|by rewrite Hc, <- !app_assoc|eauto].
      right. eexists. split; [done|]. by rewrite !lookup_insert_ne.
    + intros [= <- <-]. apply (Hleaf []); state_simpl;
        [done|by rewrite <- !app_assoc|done].
  - match goal with
    | |- context [connection_error host simple ex ?s0] =>
      destruct (connection_error_run host simple ex s0) as [entry ->]
    end.
    destruct (async_clean api) as [[]|e] eqn:Hclean;
      intros [= <- <-]; apply (Hleaf []); state_simpl;
      [done|by rewrite <- !app_assoc|done|done|by rewrite <- !app_assoc|done].
Qed.
End CheckConnection.

Section CheckConnectionProperties.
Context `{Const}.
Variable ARBridge : pydict → option pydict → outcome ARBridge_instance.

Lemma trace_not_longer (tr rest : list bridge_call) (c : bridge_call) :
  tr ≠ tr ++ c :: rest.
Proof.
  intros Heq. apply (f_equal length) in Heq.
  rewrite length_app in Heq. simpl in Heq. lia.
Qed.

(** C1, amended.  When, in a call of [_async_check_connection], the
    bridge object was created, its [async_connect] was awaited and raised,
    and the clean-up [async_clean] of the [finally] clause returned, the
    call returns a dictionary whose only entry is 'errors', with the code
    that goes with the type of the exception: [RESULT_WRONG_CREDENTIALS]
    for [AsusRouterLoginError], [RESULT_LOGIN_BLOCKED] for
    [AsusRouterLoginBlockError], [RESULT_CONNECTION_REFUSED] for
    [AsusRouterConnectionError] and [RESULT_UNKNOWN] for any other
    exception; the exception does not reach the caller. *)
Theorem _async_check_connection_maps_exception
    (configs : loc) (options : option loc) (simple : bool) (s s' : state)
    (r : outcome pydict) (c : pydict) (api : ARBridge_instance)
    (rest : list bridge_call) (ex : exn) :
  _async_check_connection ARBridge configs options simple s = (r, s') →
  ARBridge c None = Ok api →
  calls s' = calls s ++ call_ARBridge c None :: call_async_connect :: rest →
  async_connect api = Raise ex →
  async_clean api = Ok tt →
  r = Ok {[ "errors" := VStr (error_code ex) ]}
  ∧ error_code AsusRouterLoginError = RESULT_WRONG_CREDENTIALS
  ∧ (∀ timeout, error_code (AsusRouterLoginBlockError timeout) = RESULT_LOGIN_BLOCKED)
  ∧ error_code AsusRouterConnectionError = RESULT_CONNECTION_REFUSED
  ∧ (∀ other, other ≠ AsusRouterLoginError →
              (∀ timeout, other ≠ AsusRouterLoginBlockError timeout) →
              other ≠ AsusRouterConnectionError →
              error_code other = RESULT_UNKNOWN).
Proof.
  intros Hrun Hapi Htr Hconn Hclean. split_and!; try done.
  - apply _async_check_connection_cases in Hrun
      as [_ [(_ & Hc & _)|[(e & _ & Hc)|[(c' & e & _ & _ & Hc)
             |(c' & api' & rest' & Hapi' & Hc & Hres)]]]];
      rewrite Hc in Htr.
    + by apply trace_not_longer in Htr.
    + by apply trace_not_longer in Htr.
    + by apply app_inv_head in Htr.
    + apply app_inv_head in Htr. injection Htr as -> _.
      assert (api' = api) as -> by congruence.
      unfold connected in Hres. rewrite Hconn, Hclean in Hres. by destruct Hres.
  - intros other H1 H2 H3. destruct other; try done. by destruct (H2 timeout).
Qed.

(** C8.  When [CONF_HOST] is not a key of the configs updated with the
    options, [_async_check_connection] returns [{"errors": RESULT_ERROR}];
    it has asked nothing of the bridge (no object created, no connection
    tried) and logged nothing. *)
Theorem _async_check_connection_no_host
    (configs : loc) (options : option loc) (simple : bool) (s : state) :
  (∀ o, options = Some o → allocated s o) →
  merged configs options s !! CONF_HOST = None →
  ∃ s', _async_check_connection ARBridge configs options simple s
        = (Ok {[ "errors" := VStr RESULT_ERROR ]}, s')
        ∧ calls s' = calls s ∧ logs s' = logs s.
Proof.
  intros Halloc Hhost. unfold _async_check_connection, merged in *.
  assert (Hread : ∀ o, options = Some o →
            <[next_loc s:=heap s !!! configs]> (heap s) !!! o = heap s !!! o).
  { intros o Ho. apply lookup_total_insert_ne.
    specialize (Halloc o Ho). unfold allocated in Halloc. lia. }
  destruct options as [o|]; exec; state_simpl;
    rewrite ?lookup_total_insert_eq, ?(Hread o eq_refl);
    unfold contains; rewrite Hhost;
    (rewrite bool_decide_false by (by intros [? ?])); cbn [negb]; eauto.
Qed.

(** C10.  [_async_check_connection] leaves the dictionaries it is given
    as they were: after the call, whatever its outcome, the object
    [configs] and the object [options] hold the entries they held before. *)
Theorem _async_check_connection_keeps_arguments
    (configs : loc) (options : option loc) (simple : bool) (s s' : state)
    (r : outcome pydict) :
  allocated s configs →
  (∀ o, options = Some o → allocated s o) →
  _async_check_connection ARBridge configs options simple s = (r, s') →
  heap s' !! configs = heap s !! configs
  ∧ (∀ o, options = Some o → heap s' !! o = heap s !! o).
Proof.
  intros Hc Ho Hrun. apply _async_check_connection_cases in Hrun as [Hframe _].
  unfold allocated in *. split.
  - apply Hframe. lia.
  - intros o Heq. apply Hframe. specialize (Ho o Heq). lia.
Qed.
End CheckConnectionProperties.

Lemma _async_check_connection_maps_exception_witness :
  (@_async_check_connection sample_const
     (bridge_class (failing_instance AsusRouterLoginError (Ok tt)))
     1%positive (Some 2%positive) true (sample_state sample_configs sample_options)).1
  = Ok {[ "errors" := VStr "wrong_credentials" ]}.
Proof.
  set (api := failing_instance AsusRouterLoginError (Ok tt)).
  set (s := sample_state sample_configs sample_options).
  set (run := @_async_check_connection sample_const (bridge_class api)
                1%positive (Some 2%positive) true s).
  refine (proj1 (@_async_check_connection_maps_exception sample_const
                   (bridge_class api) 1%positive (Some 2%positive) true s run.2 run.1
                   (update (update sample_configs sample_options)
                      {[ CONF_PORT := VInt 8443; CONF_VERIFY_SSL := VBool false ]})
                   api [call_async_clean] AsusRouterLoginError _ _ _ _ _)).
  - apply surjective_pairing.
  - reflexivity.
  - vm_compute. reflexivity.
  - reflexivity.
  - reflexivity.
Defined.

(** C1 as stated fails when the clean-up of the [finally] clause raises:
    [async_connect] raised [AsusRouterLoginError] and was caught, but the
    call ends with the exception of [async_clean] and returns no error
    code. *)
Lemma _async_check_connection_cleanup_raises :
  let api := failing_instance AsusRouterLoginError (Raise AttributeError) in
  let s := sample_state sample_configs sample_options in
  let run := @_async_check_connection sample_const (bridge_class api)
               1%positive (Some 2%positive) true s in
  async_connect api = Raise AsusRouterLoginError
  ∧ (∃ c, calls run.2 = [call_ARBridge c None; call_async_connect; call_async_clean])
  ∧ run.1 = Raise AttributeError
  ∧ run.1 ≠ Ok {[ "errors" := VStr (@RESULT_WRONG_CREDENTIALS sample_const) ]}.
Proof.
  intros api s run. split_and!.
  - reflexivity.
  - eexists. vm_compute. reflexivity.
  - vm_compute. reflexivity.
  - vm_compute. discriminate.
Qed.

Lemma _async_check_connection_no_host_witness :
  ∃ s', @_async_check_connection sample_const (bridge_class sample_instance)
          1%positive (Some 2%positive) true (sample_state ∅ sample_options)
        = (Ok {[ "errors" := VStr "error" ]}, s')
        ∧ calls s' = [] ∧ logs s' = [].
Proof.
  apply (@_async_check_connection_no_host sample_const (bridge_class sample_instance)
           1%positive (Some 2%positive) true (sample_state ∅ sample_options)).
  - intros o [= <-]. reflexivity.
  - vm_compute. reflexivity.
Defined.

Lemma _async_check_connection_keeps_arguments_witness :
  let s := sample_state sample_configs sample_options in
  let run := @_async_check_connection sample_const (bridge_class sample_instance)
               1%positive (Some 2%positive) true s in
  heap run.2 !! 1%positive = Some sample_configs
  ∧ heap run.2 !! 2%positive = Some sample_options.
Proof.
  intros s run.
  destruct (@_async_check_connection_keeps_arguments sample_const
              (bridge_class sample_instance) 1%positive (Some 2%positive) true
              s run.2 run.1) as [Hc Ho].
  - reflexivity.
  - intros o [= <-]. reflexivity.
  - apply surjective_pairing.
  - split; [exact Hc|]. exact (Ho 2%positive eq_refl).
Defined.

(** ** The steps of the setup wizard *)

Section FlowProperties.
Context `{Const}.
Variable ARBridge : pydict → option pydict → outcome ARBridge_instance.
Variable gethostbyname : value → outcome value.

Lemma _steps_no_empty_name : _steps !! "" = None.
Proof. reflexivity. Qed.

Lemma async_select_step_next (last_step : string) (f : step)
    (errors : option loc) (s : state) :
  _steps !! last_step = Some f →
  _check_errors (heap s !!! default (async_select_step_errors s) errors) = false →
  async_select_step (Some last_step) errors s = (Ok (Await_step f None None), s).
Proof.
  intros Hf He. unfold async_select_step.
  assert (last_step ≠ "") by (intros ->; by rewrite _steps_no_empty_name in Hf).
  destruct errors as [l|]; exec; simpl in He;
    (rewrite bool_decide_true by done); unfold contains, getitem;
    rewrite Hf; (rewrite bool_decide_true by eauto); by rewrite He.
Qed.

Lemma async_select_step_on_error (last_step : string) (f g : step)
    (errors : loc) (s : state) :
  _steps !! last_step = Some f →
  _steps !! (last_step +:+ "_error") = Some g →
  _check_errors (heap s !!! errors) = true →
  async_select_step (Some last_step) (Some errors) s
  = (Ok (Await_step g None (Some errors)), s).
Proof.
  intros Hf Hg He. unfold async_select_step.
  assert (last_step ≠ "") by (intros ->; by rewrite _steps_no_empty_name in Hf).
  exec. (rewrite bool_decide_true by done). unfold contains, getitem.
  rewrite Hf, Hg. (rewrite bool_decide_true by eauto). by rewrite He.
Qed.

Lemma async_select_step_unknown (last_step : option string)
    (errors : option loc) (s : state) :
  last_step ≫= (_steps !!.) = None →
  ∃ msg, async_select_step last_step errors s = (Raise (ValueError msg), s).
Proof.
  intros Hf. unfold async_select_step.
  destruct last_step as [last_step|], errors as [l|]; exec; simpl in Hf; eauto;
    case_bool_decide; eauto; unfold contains; rewrite Hf;
    (rewrite bool_decide_false by (by intros [? ?])); eauto.
Qed.

(** C7.  A step that completed without form errors is followed by its
    successor in the step table: 'discovery' by 'credentials',
    'credentials' and 'device' by 'operation_mode', 'operation_mode' by
    'times', 'times' by 'interfaces', 'interfaces' by 'name' and 'name' by
    'finish'; [async_select_step] awaits that coroutine, without
    arguments.  When [last_step] is [None] or is not a key of the table,
    [async_select_step] raises [ValueError]. *)
Theorem async_select_step_successor (errors : option loc) (s : state) :
  (_check_errors (heap s !!! default (async_select_step_errors s) errors) = false →
   ∀ last_step f, (last_step, f) ∈ successors →
     _steps !! last_step = Some f
     ∧ async_select_step (Some last_step) errors s = (Ok (Await_step f None None), s))
  ∧ (∃ msg, async_select_step None errors s = (Raise (ValueError msg), s))
  ∧ (∀ last_step, _steps !! last_step = None →
       ∃ msg, async_select_step (Some last_step) errors s
              = (Raise (ValueError msg), s)).
Proof.
  split_and!.
  - intros He last_step f Hin.
    assert (Hf : _steps !! last_step = Some f).
    { unfold successors in Hin.
      repeat (apply elem_of_cons in Hin as [[= -> ->]|Hin]; [reflexivity|]).
      by apply elem_of_nil in Hin. }
    split; [done|]. by apply async_select_step_next.
  - by apply async_select_step_unknown.
  - intros last_step Hf. by apply async_select_step_unknown.
Qed.

Lemma _async_check_connection_code configs options simple s s2 result v :
  _async_check_connection ARBridge configs options simple s = (Ok result, s2) →
  result !! "errors" = Some v →
  ∃ code, v = VStr code ∧ code ∈ error_codes.
Proof.
  intros Hrun Herr.
  apply _async_check_connection_cases in Hrun
    as [_ [([= ->] & _)|[(e & [=] & _)|[(c & e & _ & [=] & _)
           |(c & api & rest & _ & _ & Hres)]]]].
  - rewrite lookup_singleton_eq in Herr. injection Herr as <-.
    eexists. split; [done|]. unfold error_codes.
    apply list_elem_of_In. simpl. tauto.
  - unfold connected in Hres.
    destruct (async_connect api) as [[]|ex], (async_clean api) as [[]|e];
      try (by destruct Hres).
    + destruct Hres as [[e [=]]|(result' & [= <-] & Hnone)]. congruence.
    + destruct Hres as [[= ->] _]. rewrite lookup_singleton_eq in Herr.
      injection Herr as <-. eexists. split; [done|].
      unfold error_codes. apply list_elem_of_In. destruct ex; simpl; tauto.
Qed.

Lemma credentials_errors_fresh user_input s r s2 :
  allocated s (_options s) →
  _async_check_connection ARBridge (_configs s) (Some (_options s)) true
    (credentials_submitted user_input s) = (r, s2) →
  heap s2 !!! next_loc s = (∅ : pydict).
Proof.
  intros Halloc Hrun. unfold allocated in Halloc.
  apply _async_check_connection_cases in Hrun as [Hframe _].
  unfold lookup_total, map_lookup_total. rewrite Hframe.
  - unfold credentials_submitted, options_updated. state_simpl.
    rewrite lookup_insert_ne by lia. by rewrite lookup_insert_eq.
  - unfold credentials_submitted, options_updated. state_simpl. lia.
Qed.

(** C3.  When the 'credentials' step is given an input and its
    connection check returns an error code, the local [errors] dictionary
    holds that code under 'base'.  If the code is neither
    [RESULT_WRONG_CREDENTIALS] nor [RESULT_LOGIN_BLOCKED], the step hands
    over to [async_select_step], which takes the entry 'credentials_error'
    of the step table, that is [async_step_device], and the flow shows the
    'device' form with these errors.  If the code is one of the two, the
    step shows the 'credentials' form again with these errors.  The codes
    [RESULT_ERROR], [RESULT_CONNECTION_REFUSED] and [RESULT_UNKNOWN] of
    [const.py] are taken to differ from [RESULT_SUCCESS] and from the
    empty string. *)
Theorem async_step_credentials_on_error
    (user_input : pydict) (s s2 : state) (result : pydict) (code : string) :
  failure_codes_distinct →
  user_input ≠ ∅ →
  allocated s (_options s) →
  _async_check_connection ARBridge (_configs s) (Some (_options s)) true
    (credentials_submitted user_input s) = (Ok result, s2) →
  result !! "errors" = Some (VStr code) →
  let errors := next_loc s in
  let s3 := set_heap <[errors := {[ "base" := VStr code ]}]> s2 in
  let device_form :=
    async_show_form "device" (_create_form_device (heap s3 !!! _options s3))
      (Some errors) in
  let credentials_form :=
    async_show_form "credentials" (_create_form_credentials user_input)
      (Some errors) in
  heap s3 !! errors = Some {[ "base" := VStr code ]}
  ∧ (code ≠ RESULT_WRONG_CREDENTIALS → code ≠ RESULT_LOGIN_BLOCKED →
       async_step_credentials ARBridge (Some user_input) s
       = (Ok (Await_select_step (Some "credentials") (Some errors)), s3)
       ∧ _steps !! "credentials_error" = Some step_device
       ∧ async_select_step (Some "credentials") (Some errors) s3
         = (Ok (Await_step step_device None (Some errors)), s3)
       ∧ async_step_device ARBridge None (Some errors) s3
         = (Ok (Return device_form), s3)
       ∧ run ARBridge gethostbyname 3
           (Await_step step_credentials (Some user_input) None) s
         = (Ok (Some device_form), s3))
  ∧ (code = RESULT_WRONG_CREDENTIALS ∨ code = RESULT_LOGIN_BLOCKED →
       async_step_credentials ARBridge (Some user_input) s
       = (Ok (Return credentials_form), s3)
       ∧ run ARBridge gethostbyname 3
           (Await_step step_credentials (Some user_input) None) s
         = (Ok (Some credentials_form), s3)).
Proof.
  intros Hcodes Hgiven Halloc Hcheck Herr errors s3 device_form credentials_form.
  assert (Hstep : async_step_credentials ARBridge (Some user_input) s
                  = (Ok (if bool_decide (code ≠ RESULT_WRONG_CREDENTIALS)
                            && bool_decide (code ≠ RESULT_LOGIN_BLOCKED)
                         then Await_select_step (Some "credentials") (Some errors)
                         else Return credentials_form), s3)).
  { unfold async_step_credentials, given, self_configs, self_options.
    rewrite bool_decide_true by done.
    unfold bind at 1. unfold new_dict at 1.
    do 3 unfold bind at 1. state_simpl.
    do 2 unfold bind at 1. unfold mutate at 1, modify. state_simpl.
    unfold bind at 1.
    match goal with
    | |- context [_async_check_connection _ _ _ _ ?st] =>
      change st with (credentials_submitted user_input s)
    end.
    rewrite Hcheck. unfold contains, getitem. rewrite Herr.
    rewrite bool_decide_true by eauto. exec. state_simpl.
    rewrite (credentials_errors_fresh _ _ _ _ Halloc Hcheck).
    rewrite lookup_total_insert_eq, insert_empty.
    rewrite !(lookup_singleton_eq (M:=gmap string)).
    fold errors. fold s3.
    assert (Hne : ∀ c, bool_decide (Some (VStr code) ≠ Some (VStr c))
                       = bool_decide (code ≠ c)).
    { intros c. apply bool_decide_ext. split; intros Hn; congruence. }
    rewrite !Hne.
    by destruct (bool_decide (code ≠ RESULT_WRONG_CREDENTIALS)
                 && bool_decide (code ≠ RESULT_LOGIN_BLOCKED)). }
  assert (Hs3 : heap s3 !! errors = Some {[ "base" := VStr code ]}).
  { subst s3. state_simpl. by rewrite lookup_insert_eq. }
  split; [done|]. split.
  - intros Hw Hb.
    rewrite !bool_decide_true in Hstep by done. cbn [andb] in Hstep.
    assert (Hselect : async_select_step (Some "credentials") (Some errors) s3
                      = (Ok (Await_step step_device None (Some errors)), s3)).
    { apply (async_select_step_on_error _ step_operation_mode); [done|done|].
      rewrite (lookup_total_correct _ _ _ Hs3).
      destruct (_async_check_connection_code _ _ _ _ _ _ _ Hcheck Herr)
        as (code' & [= <-] & Hin).
      unfold error_codes in Hin. unfold failure_codes_distinct in Hcodes.
      rewrite !Forall_cons in Hcodes.
      destruct Hcodes as (He & Hr & Hu & _).
      assert (Hok : code ≠ RESULT_SUCCESS ∧ code ≠ "").
      { repeat (apply elem_of_cons in Hin as [->|Hin]); try done.
        by apply elem_of_nil in Hin. }
      destruct Hok as [Hok1 Hok2].
      unfold _check_errors, contains.
      rewrite !(lookup_singleton_eq (M:=gmap string)).
      rewrite !bool_decide_true; [done|congruence|congruence|eauto]. }
    assert (Hdevice : async_step_device ARBridge None (Some errors) s3
                      = (Ok (Return device_form), s3)).
    { unfold async_step_device, given, self_options. exec. done. }
    split_and!; try done.
    cbn [run]. unfold bind at 1. cbn [await_next call_step]. rewrite Hstep.
    cbn [run]. unfold bind at 1. cbn [await_next]. rewrite Hselect.
    cbn [run]. unfold bind at 1. cbn [await_next call_step]. rewrite Hdevice.
    done.
  - intros Hcode.
    assert (Hb : bool_decide (code ≠ RESULT_WRONG_CREDENTIALS)
                 && bool_decide (code ≠ RESULT_LOGIN_BLOCKED) = false).
    { destruct Hcode as [->| ->].
      - by rewrite bool_decide_false by (by intros ?).
      - rewrite (bool_decide_false (_ ≠ RESULT_LOGIN_BLOCKED)) by (by intros ?).
        apply andb_false_r. }
    rewrite Hb in Hstep. split; [done|].
    cbn [run]. unfold bind at 1. cbn [await_next call_step]. rewrite Hstep.
    done.
Qed.
End FlowProperties.

Lemma async_select_step_successor_witness :
  let s := sample_state sample_configs sample_options in
  @async_select_step sample_const (Some "times") None s
  = (Ok (Await_step step_interfaces None None), s).
Proof.
  intros s.
  destruct (@async_select_step_successor sample_const None s) as [Hnext _].
  apply Hnext.
  - vm_compute. reflexivity.
  - apply (bool_decide_unpack _). vm_compute. exact I.
Defined.

Lemma async_step_credentials_on_error_witness :
  let s := sample_state sample_configs ∅ in
  ∃ schema s',
    @run sample_const
      (bridge_class (failing_instance AsusRouterConnectionError (Ok tt)))
      sample_gethostbyname 3
      (Await_step step_credentials (Some sample_options) None) s
    = (Ok (Some (async_show_form "device" schema (Some 5%positive))), s')
    ∧ heap s' !! 5%positive = Some {[ "base" := VStr "connection_refused" ]}.
Proof.
  intros s.
  set (ARBridge := bridge_class (failing_instance AsusRouterConnectionError (Ok tt))).
  set (check := @_async_check_connection sample_const ARBridge 1%positive
                  (Some 2%positive) true (credentials_submitted sample_options s)).
  destruct (@async_step_credentials_on_error sample_const ARBridge
              sample_gethostbyname sample_options s check.2
              {[ "errors" := VStr "connection_refused" ]} "connection_refused")
    as (Herrors & Hdevice & _).
  - apply (bool_decide_unpack _). vm_compute. exact I.
  - apply (bool_decide_unpack _). vm_compute. exact I.
  - reflexivity.
  - vm_compute. reflexivity.
  - reflexivity.
  - destruct Hdevice as (_ & _ & _ & _ & Hrun); [discriminate|discriminate|].
    eexists _, _. split; [exact Hrun|exact Herrors].
Defined.

(** ** The forms of the wizard *)

Section FormsShown.
Context `{Const}.
Variable ARBridge : pydict → option pydict → outcome ARBridge_instance.
Variable gethostbyname : value → outcome value.

Lemma call_step_form (f : step) (user_input : option pydict) (errors : option loc)
    (s s' : state) (step_id : string) (schema : Schema) (shown : option loc) :
  call_step ARBridge gethostbyname f user_input errors s
  = (Ok (Return (async_show_form step_id schema shown)), s') →
  ∃ user_input interfaces dflt, schema ∈ wizard_forms user_input interfaces dflt.
Proof.
  intros Hrun.
  destruct f, errors as [e|]; cbn [call_step] in Hrun;
    unfold async_step_user, async_step_discovery, async_step_credentials,
      async_step_device, async_step_operation_mode, async_step_times,
      async_step_interfaces, async_step_name, async_step_finish,
      _create_form_interfaces, self_configs, self_options, async_set_unique_id in Hrun;
    revert Hrun; exec.
  all: try discriminate.
  all: intros Hrun.
  all: repeat (case_match; simplify_eq).
  all: first
    [ by (eexists _, ∅, []; unfold wizard_forms; apply list_elem_of_In; simpl;
          eauto 10)
    | by (exists ∅; eexists _, _; unfold wizard_forms; apply list_elem_of_In;
          simpl; eauto 10) ].
Qed.

(** The form that a step shows is its own: it has the name of the step and
    asks for the keys of the step. *)
Lemma call_step_form_keys (f : step) (user_input : option pydict)
    (errors : option loc) (s s' : state) (step_id : string) (schema : Schema)
    (shown : option loc) :
  call_step ARBridge gethostbyname f user_input errors s
  = (Ok (Return (async_show_form step_id schema shown)), s') →
  (f, step_id, field_key <$> schema)
  ∈ [ (step_discovery, "discovery", [CONF_HOST]);
      (step_credentials, "credentials", [CONF_USERNAME; CONF_PASSWORD; CONF_SSL]);
      (step_device, "device",
       [CONF_USERNAME; CONF_PASSWORD; CONF_PORT; CONF_SSL; CONF_VERIFY_SSL;
        CONF_CERT_PATH]);
      (step_operation_mode, "operation_mode", [CONF_ENABLE_CONTROL]);
      (step_times, "times", [CONF_CACHE_TIME; CONF_SCAN_INTERVAL; CONF_CONSIDER_HOME]);
      (step_interfaces, "interfaces", [CONF_INTERFACES]);
      (step_name, "name", [CONF_NAME]) ].
Proof.
  intros Hrun.
  destruct f, errors as [e|]; cbn [call_step] in Hrun;
    unfold async_step_user, async_step_discovery, async_step_credentials,
      async_step_device, async_step_operation_mode, async_step_times,
      async_step_interfaces, async_step_name, async_step_finish,
      _create_form_interfaces, self_configs, self_options, async_set_unique_id in Hrun;
    revert Hrun; exec.
  all: try discriminate.
  all: intros Hrun.
  all: repeat (case_match; simplify_eq).
  all: apply list_elem_of_In; simpl; tauto.
Qed.

(** C5, amended.  The configuration keys that the forms of the setup
    wizard ask for are exactly: host (discovery); username, password and
    SSL (credentials); these with port, verify-SSL and the certificate
    path (device); the control toggle (operation mode); cache time, scan
    interval and consider-home timeout (times); the interfaces
    (interfaces); and the device name (name).  The form of the operation
    mode asks for the control toggle only.  Every form that a step of the
    handler shows is the form of that step: it has the name of the step and
    asks for the keys given here for it, so that the keys asked for are
    those and no others. *)
Theorem wizard_keys_collected :
  (∀ user_input, field_key <$> _create_form_discovery user_input = [CONF_HOST])
  ∧ (∀ user_input,
       field_key <$> _create_form_credentials user_input
       = [CONF_USERNAME; CONF_PASSWORD; CONF_SSL])
  ∧ (∀ user_input,
       field_key <$> _create_form_device user_input
       = [CONF_USERNAME; CONF_PASSWORD; CONF_PORT; CONF_SSL; CONF_VERIFY_SSL;
          CONF_CERT_PATH])
  ∧ (∀ user_input,
       field_key <$> _create_form_operation_mode user_input = [CONF_ENABLE_CONTROL])
  ∧ (∀ user_input,
       field_key <$> _create_form_times user_input
       = [CONF_CACHE_TIME; CONF_SCAN_INTERVAL; CONF_CONSIDER_HOME])
  ∧ (∀ dflt choices,
       field_key <$> interfaces_schema dflt choices = [CONF_INTERFACES])
  ∧ (∀ user_input, field_key <$> _create_form_name user_input = [CONF_NAME])
  ∧ (∀ user_input interfaces dflt k,
       k ∈ wizard_keys user_input interfaces dflt ↔ k ∈ collected_keys)
  ∧ (∀ f user_input errors s s' step_id schema shown,
       call_step ARBridge gethostbyname f user_input errors s
       = (Ok (Return (async_show_form step_id schema shown)), s') →
       (f, step_id, field_key <$> schema)
       ∈ [ (step_discovery, "discovery", [CONF_HOST]);
           (step_credentials, "credentials",
            [CONF_USERNAME; CONF_PASSWORD; CONF_SSL]);
           (step_device, "device",
            [CONF_USERNAME; CONF_PASSWORD; CONF_PORT; CONF_SSL; CONF_VERIFY_SSL;
             CONF_CERT_PATH]);
           (step_operation_mode, "operation_mode", [CONF_ENABLE_CONTROL]);
           (step_times, "times",
            [CONF_CACHE_TIME; CONF_SCAN_INTERVAL; CONF_CONSIDER_HOME]);
           (step_interfaces, "interfaces", [CONF_INTERFACES]);
           (step_name, "name", [CONF_NAME]) ]
       ∧ ∀ fld, fld ∈ schema → field_key fld ∈ collected_keys).
Proof.
  assert (Hkeys : ∀ user_input interfaces dflt k,
            k ∈ wizard_keys user_input interfaces dflt ↔ k ∈ collected_keys).
  { intros ui ifs dflt k. unfold wizard_keys, wizard_forms, collected_keys.
    rewrite !list_elem_of_In. simpl. tauto. }
  split_and!; try done.
  intros f ui e s s' step_id schema shown Hrun.
  split; [by apply (call_step_form_keys f ui e s s' step_id schema shown)|].
  intros fld Hfld.
  apply call_step_form in Hrun as (ui' & ifs & dflt & Hin).
  apply (Hkeys ui' ifs dflt). unfold wizard_keys.
  apply list_elem_of_fmap. exists fld. split; [done|].
  apply list_elem_of_In, in_concat. exists schema.
  split; by apply list_elem_of_In.
Qed.
End FormsShown.

(** C5 as stated fails: no form asks for the monitor toggle, and the form
    of the 'name' step asks for a key that the list lacks. *)
Lemma wizard_keys_not_as_listed :
  ("enable_monitor" ∈ @listed_keys sample_const)
  ∧ ("enable_monitor" ∉ @wizard_keys sample_const ∅ ∅ [])
  ∧ ("name" ∈ @wizard_keys sample_const ∅ ∅ [])
  ∧ ("name" ∉ @listed_keys sample_const)
  ∧ ¬ (∀ k, k ∈ @wizard_keys sample_const ∅ ∅ [] ↔ k ∈ @listed_keys sample_const).
Proof.
  assert (Hin : "enable_monitor" ∈ @listed_keys sample_const).
  { apply (bool_decide_unpack _). vm_compute. exact I. }
  assert (Hout : "enable_monitor" ∉ @wizard_keys sample_const ∅ ∅ []).
  { apply (bool_decide_unpack _). vm_compute. exact I. }
  split_and!; [done|done| | |].
  - apply (bool_decide_unpack _). vm_compute. exact I.
  - apply (bool_decide_unpack _). vm_compute. exact I.
  - intros Hall. apply Hout, Hall, Hin.
Qed.

(** ** The import of the bridge *)

(** C2 fails on the code: [config_flow.py] imports the name [ARBridge] from
    [bridge.py], which binds [AsusRouterBridge] and [AsusRouterBridgeHTTP]
    and no [ARBridge]; the import raises [ImportError]. *)
Theorem config_flow_import_bridge_fails :
  config_flow_import_bridge = Raise (ImportError "ARBridge")
  ∧ ("ARBridge" ∉ bridge_globals)
  ∧ ("AsusRouterBridge" ∈ bridge_globals)
  ∧ ("AsusRouterBridgeHTTP" ∈ bridge_globals).
Proof.
  split_and!.
  - reflexivity.
  - apply (bool_decide_unpack _). vm_compute. exact I.
  - apply (bool_decide_unpack _). vm_compute. exact I.
  - apply (bool_decide_unpack _). vm_compute. exact I.
Qed.

(** ** The network interfaces of the wizard *)

Section NetworkInterfaces.
Context `{Const}.
Variable ARBridge : pydict → option pydict → outcome ARBridge_instance.

(** With the host among the configs, an exception of the SDK call is
    logged and replaced with the default interfaces. *)
Lemma _async_get_network_interfaces_default
    (configs : loc) (options : option loc) (s : state)
    (api : ARBridge_instance) (ex : exn) (host : value) :
  let c := heap s !!! configs in
  let o := match options with Some l => heap s !!! l | None => ∅ end in
  ARBridge c (Some o) = Ok api →
  async_get_network_interfaces api = Raise ex →
  c !! CONF_HOST = Some host →
  ∃ s', _async_get_network_interfaces ARBridge configs options s
        = (Ok DELAULT_INTERFACES, s')
        ∧ logs s' = logs s ++
            [Log DEBUG "Cannot get available network stat sensors for {}: {}"
               [FValue host; FExn ex]]
        ∧ heap s' = heap s.
Proof.
  intros c o Hapi Hex Hhost. unfold _async_get_network_interfaces, _LOGGER'.
  destruct options as [l|]; exec; state_simpl; fold c; fold o;
    rewrite Hapi, Hex; cbv beta iota; state_simpl; fold c;
    unfold getitem; rewrite Hhost; state_simpl; eauto.
Qed.

(** Without it, the handler itself raises. *)
Lemma _async_get_network_interfaces_no_host
    (configs : loc) (options : option loc) (s : state)
    (api : ARBridge_instance) (ex : exn) :
  let c := heap s !!! configs in
  let o := match options with Some l => heap s !!! l | None => ∅ end in
  ARBridge c (Some o) = Ok api →
  async_get_network_interfaces api = Raise ex →
  c !! CONF_HOST = None →
  ∃ s', _async_get_network_interfaces ARBridge configs options s
        = (Raise (KeyError CONF_HOST), s')
        ∧ logs s' = logs s.
Proof.
  intros c o Hapi Hex Hhost. unfold _async_get_network_interfaces, _LOGGER'.
  destruct options as [l|]; exec; state_simpl; fold c; fold o;
    rewrite Hapi, Hex; cbv beta iota; state_simpl; fold c;
    unfold getitem; rewrite Hhost; state_simpl; eauto.
Qed.
End NetworkInterfaces.

Section SensorDiscovery.
Context `{Const}.
Variable ARBridge : pydict → option pydict → outcome ARBridge_instance.

(** C4.  An exception of the SDK call behind a sensor-discovery operation
    is caught and logged, and the operation returns its default:
    [_get_cpu_sensors] returns ['total'], [_get_network_stat_sensors] and
    [_get_ports_sensors] return the empty list, each with a warning that
    names the host and the exception.  [_async_get_network_interfaces],
    called as both flows call it, on configs that hold the host, returns
    the default interfaces with a debug message that names the host and the
    exception, whether the exception came from reading the interfaces or
    from disconnecting, and changes no dictionary.  None of the four
    raises. *)
Theorem sensor_discovery_falls_back
    (self : AsusRouterBridgeHTTP) (lg : list log_entry)
    (configs : loc) (options : option loc) (s : state) (ex : exn) :
  let c : pydict := heap s !!! configs in
  let o : pydict := match options with Some l => heap s !!! l | None => ∅ end in
  (async_get_cpu_labels (_api self) = Raise ex →
   _get_cpu_sensors self lg
   = (Ok ["total"],
      lg ++ [Log WARNING "Cannot get available CPU sensors for {}: {}"
               [FValue (_host self); FExn ex]]))
  ∧ (async_get_network_labels (_api self) = Raise ex →
     _get_network_stat_sensors self lg
     = (Ok [],
        lg ++ [Log WARNING "Cannot get available network stat sensors for {}: {}"
                 [FValue (_host self); FExn ex]]))
  ∧ (async_get_ports (_api self) = Raise ex →
     _get_ports_sensors self lg
     = (Ok [],
        lg ++ [Log WARNING "Cannot get available ports sensors for {}: {}"
                 [FValue (_host self); FExn ex]]))
  ∧ (∀ api host,
       c !! CONF_HOST = Some host →
       ARBridge c (Some o) = Ok api →
       async_get_network_interfaces api = Raise ex
       ∨ (∃ labels, async_get_network_interfaces api = Ok labels)
         ∧ async_disconnect api = Raise ex →
       ∃ s', _async_get_network_interfaces ARBridge configs options s
             = (Ok DELAULT_INTERFACES, s')
             ∧ logs s' = logs s ++
                 [Log DEBUG "Cannot get available network stat sensors for {}: {}"
                    [FValue host; FExn ex]]
             ∧ heap s' = heap s).
Proof.
  intros c o. split_and!.
  - apply _get_cpu_sensors_raises.
  - apply _get_network_stat_sensors_raises.
  - apply _get_ports_sensors_raises.
  - intros api host Hhost Hapi [Hex|[[labels Hlabels] Hex]].
    + by apply (_async_get_network_interfaces_default ARBridge configs options s api).
    + unfold _async_get_network_interfaces, _LOGGER'.
      destruct options as [l|]; exec; state_simpl; fold c; fold o;
        rewrite Hapi, Hlabels, Hex; cbv beta iota; state_simpl; fold c;
        unfold getitem; rewrite Hhost; state_simpl; eauto.
Qed.
End SensorDiscovery.

Lemma sensor_discovery_falls_back_witness :
  (_get_cpu_sensors (sample_bridge failing_api) []).1 = Ok ["total"]
  ∧ (@_async_get_network_interfaces sample_const
       (bridge_class (failing_instance OSError (Ok tt)))
       1%positive (Some 2%positive) (sample_state sample_configs sample_options)).1
    = Ok ["WAN"; "USB"; "WIRED"; "BRIDGE"].
Proof.
  pose proof (@sensor_discovery_falls_back sample_const
                (bridge_class (failing_instance OSError (Ok tt)))
                (sample_bridge failing_api) [] 1%positive (Some 2%positive)
                (sample_state sample_configs sample_options) OSError) as Hfalls.
  cbv zeta in Hfalls. destruct Hfalls as (Hcpu & _ & _ & Hinterfaces). split.
  - rewrite Hcpu; reflexivity.
  - destruct (Hinterfaces (failing_instance OSError (Ok tt)) (VStr "router.asus.com"))
      as (s' & Hrun & _).
    + reflexivity.
    + reflexivity.
    + left. reflexivity.
    + rewrite Hrun. reflexivity.
Defined.

(** * Further properties *)

(** ** The bridge: ports *)

Section PortsAlways.
Context `{Const}.

Lemma port_getitem_key (d : port_dict) (port : string) :
  port ∈ d.*1 → ∃ v, port_getitem d port = Ok v.
Proof.
  induction d as [|[p w] d IH]; csimpl; intros Hin.
  - by apply elem_of_nil in Hin.
  - destruct (decide (p = port)) as [->|Hne]; [eauto|].
    apply elem_of_cons in Hin as [->|Hin]; [done|by apply IH].
Qed.

Lemma _get_ports_port_dom (raw_type : port_dict) (type : string) (data : pydict)
    (port : string) (acc : Z) :
  port ∈ raw_type.*1 →
  data !! format2 type "total" = Some (VInt acc) →
  ∃ data' acc',
    _get_ports_port raw_type type data port = Ok data'
    ∧ data' !! format2 type "total" = Some (VInt acc')
    ∧ dom data' = {[ format2 type port ]} ∪ dom data.
Proof.
  intros Hin Htot. destruct (port_getitem_key _ _ Hin) as [v Hv].
  unfold _get_ports_port. rewrite Hv. simpl. unfold getitem.
  assert (Hcur : ∃ cur, <[format2 type port:=VInt v]> data !! format2 type "total"
                        = Some (VInt cur)).
  { destruct (decide (format2 type port = format2 type "total")) as [->|Hne].
    - rewrite lookup_insert_eq. eauto.
    - rewrite lookup_insert_ne by done. eauto. }
  destruct Hcur as [cur ->]. simpl.
  eexists _, _. split; [done|]. split; [by rewrite lookup_insert_eq|].
  rewrite !dom_insert_L. apply elem_of_dom_2 in Htot. set_solver.
Qed.

Lemma _get_ports_port_loop_dom (raw_type : port_dict) (type : string)
    (l : list string) (data : pydict) (acc : Z) :
  (∀ port, port ∈ l → port ∈ raw_type.*1) →
  data !! format2 type "total" = Some (VInt acc) →
  ∃ data' acc',
    ofold (_get_ports_port raw_type type) data l = Ok data'
    ∧ data' !! format2 type "total" = Some (VInt acc')
    ∧ dom data' = list_to_set (format2 type <$> l) ∪ dom data.
Proof.
  revert data acc. induction l as [|port l IH]; intros data acc Hl Htot.
  - exists data, acc. csimpl. split_and!; [done|done|set_solver].
  - destruct (_get_ports_port_dom raw_type type data port acc)
      as (data1 & acc1 & Hrun1 & Htot1 & Hdom1); [apply Hl; by left|done|].
    destruct (IH data1 acc1) as (data' & acc' & Hrun & Htot' & Hdom);
      [intros p Hp; apply Hl; by right|done|].
    exists data', acc'. csimpl. rewrite Hrun1. simpl.
    split_and!; [done|done|]. rewrite Hdom, Hdom1. set_solver.
Qed.

(** One round of the loop over the port types never raises; it adds the
    keys of the type, the bare type at most, and keeps the others. *)
Lemma _get_ports_type_dom (raw : raw_ports) (data : pydict) (type : string) :
  ∃ data',
    _get_ports_type raw data type = Ok data'
    ∧ dom data' ⊆ dom data ∪ list_to_set (type_sensors raw type)
    ∧ dom data ∪ list_to_set (tail (type_sensors raw type)) ⊆ dom data'.
Proof.
  unfold _get_ports_type, type_sensors, contains, getitem.
  destruct (raw !! type) as [d|] eqn:Hd.
  - rewrite bool_decide_true by eauto. simpl.
    destruct (_get_ports_port_loop_dom d type d.*1
                (<[format2 type "total" := VInt 0]> data) 0)
      as (data1 & acc & Hrun & Htot & Hdom); [done|by rewrite lookup_insert_eq|].
    rewrite Hrun. simpl. rewrite Htot. simpl.
    rewrite dom_insert_L in Hdom.
    eexists. split; [done|].
    destruct (bool_decide (acc > 0)); rewrite ?dom_insert_L, Hdom; set_solver.
  - rewrite bool_decide_false by (by intros [? ?]).
    exists data. split; [done|]. set_solver.
Qed.

Lemma _get_ports_types_dom (raw : raw_ports) (types : list string) (data : pydict) :
  ∃ data',
    ofold (_get_ports_type raw) data types = Ok data'
    ∧ dom data' ⊆ dom data ∪ list_to_set (ports_sensors raw types)
    ∧ (∀ type k, type ∈ types → k ∈ tail (type_sensors raw type) → k ∈ dom data').
Proof.
  revert data. induction types as [|type types IH]; intros data.
  - exists data. split_and!; [done|set_solver|].
    intros ?? Hin. by apply elem_of_nil in Hin.
  - destruct (_get_ports_type_dom raw data type) as (data1 & Hrun1 & Hsub1 & Hsup1).
    destruct (IH data1) as (data' & Hrun & Hsub & Hsup).
    exists data'. rewrite ports_sensors_cons. cbn [ofold]. rewrite Hrun1.
    split; [done|]. split.
    + rewrite list_to_set_app_L. set_solver.
    + assert (Hmono : dom data1 ⊆ dom data').
      { clear -Hrun. revert data1 data' Hrun.
        induction types as [|t ts IHt]; intros d1 d' Hrun.
        - by injection Hrun as ->.
        - cbn [ofold] in Hrun.
          destruct (_get_ports_type_dom raw d1 t) as (d2 & Hr2 & _ & Hs2).
          rewrite Hr2 in Hrun. simpl in Hrun.
          specialize (IHt _ _ Hrun). set_solver. }
      intros type' k [->|Hin]%elem_of_cons Hk; [|by eapply Hsup].
      apply Hmono, Hsup1. set_solver.
Qed.
End PortsAlways.

Section PortsData.
Context `{Const}.

(** X1.  Whenever the SDK returns port data, [_get_ports] returns (its
    loops raise neither [KeyError] nor [TypeError], whatever the names of
    the types and ports), every key of the dictionary it returns is among
    the sensors that [_get_ports_sensors] lists for the same data, and
    every sensor listed has an entry, the bare port types apart. *)
Theorem _get_ports_matches_sensors
    (self : AsusRouterBridgeHTTP) (raw : raw_ports) (lg : list log_entry) :
  async_get_ports (_api self) = Ok raw →
  ∃ data sensors lg',
    _get_ports self = Ok data
    ∧ _get_ports_sensors self lg = (Ok sensors, lg')
    ∧ (∀ k, is_Some (data !! k) → k ∈ sensors)
    ∧ (∀ k, k ∈ sensors → is_Some (data !! k) ∨ k ∈ SENSORS_PORTS).
Proof.
  intros Hapi.
  destruct (_get_ports_types_dom raw SENSORS_PORTS ∅) as (data & Hrun & Hsub & Hsup).
  exists data. eexists _, _. split.
  { unfold _get_ports. rewrite Hapi. simpl. by rewrite Hrun. }
  split; [by apply _get_ports_sensors_ok|]. split.
  - intros k Hk. apply elem_of_dom in Hk. apply Hsub in Hk.
    rewrite dom_empty_L in Hk. set_solver.
  - intros k Hk. apply list_elem_of_bind in Hk as (type & Hk & Htype).
    unfold type_sensors in *. specialize (Hsup type k Htype).
    destruct (raw !! type) as [d|]; [|by apply elem_of_nil in Hk].
    apply elem_of_cons in Hk as [->|Hk]; [by right|].
    left. apply elem_of_dom. by apply Hsup.
Qed.

(** X6.  The methods that poll the router for data never raise an
    instance of [OSError] or of [ValueError]: [_get_cpu], [_get_ram],
    [_get_network_stat], [_get_wan] and [_get_ports] return what the SDK
    returns (for the ports, the dictionary built from it), raise
    [UpdateFailed] in place of every exception of the SDK that is an
    instance of one of the two classes, [socket.gaierror] among them, and
    pass every other exception of the SDK on unchanged;
    [async_get_connected_devices] raises nothing but [UpdateFailed]. *)
Theorem polling_exceptions (api : SDK.calls) (self : AsusRouterBridgeHTTP) :
  let polls (derives : exn → bool) {A B} (sdk : outcome A) (polled : outcome B) :=
    (∀ cause, sdk = Raise cause →
       polled = Raise (if isinstance_OSError_ValueError derives cause
                       then UpdateFailed cause else cause))
    ∧ (∀ ex, polled = Raise ex →
         isinstance_OSError_ValueError derives ex = false ∧ ∃ cause, sdk = Raise cause)
    ∧ (sdk = Raise gaierror → polled = Raise (UpdateFailed gaierror)) in
  let derives := SDK.derives_from_OSError_or_ValueError api in
  (polls derives (SDK.async_get_cpu api) (_get_cpu api)
   ∧ ∀ data, SDK.async_get_cpu api = Ok data → _get_cpu api = Ok data)
  ∧ (polls derives (SDK.async_get_ram api) (_get_ram api)
     ∧ ∀ data, SDK.async_get_ram api = Ok data → _get_ram api = Ok data)
  ∧ (polls derives (SDK.async_get_network api) (_get_network_stat api)
     ∧ ∀ data, SDK.async_get_network api = Ok data → _get_network_stat api = Ok data)
  ∧ (polls derives (SDK.async_get_wan api) (_get_wan api)
     ∧ ∀ data, SDK.async_get_wan api = Ok data → _get_wan api = Ok data)
  ∧ (polls (derives_from_OSError_or_ValueError (_api self))
       (async_get_ports (_api self)) (_get_ports self)
     ∧ ∀ raw, async_get_ports (_api self) = Ok raw → ∃ data, _get_ports self = Ok data)
  ∧ (∀ ex, async_get_connected_devices api = Raise ex →
       ∃ cause, ex = UpdateFailed cause ∧ SDK.async_get_devices api = Raise cause).
Proof.
  assert (Hwrap : ∀ derives A (sdk : outcome A),
            (∀ cause, sdk = Raise cause →
               update_failed derives sdk
               = Raise (if isinstance_OSError_ValueError derives cause
                        then UpdateFailed cause else cause))
            ∧ (∀ ex, update_failed derives sdk = Raise ex →
                 isinstance_OSError_ValueError derives ex = false
                 ∧ ∃ cause, sdk = Raise cause)
            ∧ (sdk = Raise gaierror
               → update_failed derives sdk = Raise (UpdateFailed gaierror))).
  { intros derives A sdk. split_and!.
    - intros cause ->. unfold update_failed.
      by destruct (isinstance_OSError_ValueError derives cause).
    - destruct sdk as [a|cause]; [discriminate|]. unfold update_failed.
      destruct (isinstance_OSError_ValueError derives cause) eqn:Hcause;
        intros ex [= <-]; eauto.
    - by intros ->. }
  assert (Hok : ∀ derives A (sdk : outcome A) a,
            sdk = Ok a → update_failed derives sdk = Ok a) by (by intros ? ? ? ? ->).
  intros polls derives. subst polls. cbv beta.
  split_and!; try (by apply Hwrap); try (by apply Hok).
  - intros cause Hapi. unfold _get_ports. rewrite Hapi. by apply Hwrap.
  - intros ex. unfold _get_ports.
    destruct (async_get_ports (_api self)) as [raw|cause] eqn:Hapi.
    + destruct (_get_ports_types_dom raw SENSORS_PORTS ∅) as (data & Hrun & _).
      cbn [obind]. rewrite Hrun. discriminate.
    + cbn [obind]. intros Hrun.
      destruct (Hwrap (derives_from_OSError_or_ValueError (_api self)) pydict
                  (Raise cause)) as (_ & Hraised & _).
      destruct (Hraised _ Hrun) as [Hex _]. eauto.
  - intros Hapi. unfold _get_ports. rewrite Hapi. by apply Hwrap.
  - intros raw Hapi. unfold _get_ports. rewrite Hapi.
    destruct (_get_ports_types_dom raw SENSORS_PORTS ∅) as (data & Hrun & _).
    cbn [obind]. rewrite Hrun. eauto.
  - intros ex. unfold async_get_connected_devices.
    destruct (SDK.async_get_devices api); [discriminate|]. intros [= <-]. eauto.
Qed.
End PortsData.

Lemma _get_ports_matches_sensors_witness :
  ∃ data sensors lg',
    @_get_ports sample_const (sample_bridge clash_api) = Ok data
    ∧ @_get_ports_sensors sample_const (sample_bridge clash_api) [] = (Ok sensors, lg')
    ∧ sensors = ["LAN"; "LAN_total"; "LAN_total"]
    ∧ dom data = {[ "LAN"; "LAN_total" ]}.
Proof.
  destruct (@_get_ports_matches_sensors sample_const (sample_bridge clash_api)
              clash_ports []) as (data & sensors & lg' & Hdata & Hsensors & _).
  { reflexivity. }
  exists data, sensors, lg'. split; [exact Hdata|]. split; [exact Hsensors|].
  vm_compute in Hdata, Hsensors.
  injection Hdata as <-. injection Hsensors as <- _.
  split; vm_compute; reflexivity.
Defined.

(** ** The bridge: sensor lists *)

Section SensorLists.
Context `{Const}.

(** X2.  When the SDK call behind a list of available sensors raises, the
    list is a fixed one (["total"] for the CPU, the empty list for the
    network statistics and for the ports), one warning that names the host
    and the exception is logged, and nothing is raised. *)
Theorem sensor_lists_when_sdk_raises
    (self : AsusRouterBridgeHTTP) (lg : list log_entry) (ex : exn) :
  (async_get_cpu_labels (_api self) = Raise ex →
   _get_cpu_sensors self lg
   = (Ok ["total"],
      lg ++ [Log WARNING "Cannot get available CPU sensors for {}: {}"
               [FValue (_host self); FExn ex]]))
  ∧ (async_get_network_labels (_api self) = Raise ex →
     _get_network_stat_sensors self lg
     = (Ok [],
        lg ++ [Log WARNING "Cannot get available network stat sensors for {}: {}"
                 [FValue (_host self); FExn ex]]))
  ∧ (async_get_ports (_api self) = Raise ex →
     _get_ports_sensors self lg
     = (Ok [],
        lg ++ [Log WARNING "Cannot get available ports sensors for {}: {}"
                 [FValue (_host self); FExn ex]])).
Proof.
  split_and!.
  - apply _get_cpu_sensors_raises.
  - apply _get_network_stat_sensors_raises.
  - apply _get_ports_sensors_raises.
Qed.

(** X3.  When the SDK returns the network labels, the network statistics
    sensors are the names '{label}_{el}' for every label and every element
    of [SENSORS_NETWORK_STAT], label by label, as many as there are labels
    times elements; when it returns port data, the port sensors are, for
    each type of [SENSORS_PORTS] that the data has, the type, '{type}_total'
    and '{type}_{port}' for each port of the type. *)
Theorem sensor_lists_when_sdk_returns
    (self : AsusRouterBridgeHTTP) (lg : list log_entry) :
  (∀ labels, async_get_network_labels (_api self) = Ok labels →
     ∃ sensors lg',
       _get_network_stat_sensors self lg = (Ok sensors, lg')
       ∧ sensors = labels ≫= (fun label => format2 label <$> SENSORS_NETWORK_STAT)
       ∧ length sensors = (length labels * length SENSORS_NETWORK_STAT)%nat
       ∧ (∀ k, k ∈ sensors ↔
               ∃ label el, label ∈ labels ∧ el ∈ SENSORS_NETWORK_STAT
                           ∧ k = format2 label el))
  ∧ (∀ data, async_get_ports (_api self) = Ok data →
     ∃ sensors lg',
       _get_ports_sensors self lg = (Ok sensors, lg')
       ∧ (∀ k, k ∈ sensors ↔
               ∃ type ports, type ∈ SENSORS_PORTS ∧ data !! type = Some ports
                 ∧ (k = type ∨ k = format2 type "total"
                    ∨ ∃ port, port ∈ ports.*1 ∧ k = format2 type port))).
Proof.
  split.
  - intros labels Hapi. eexists _, _.
    split; [by apply _get_network_stat_sensors_ok|]. split; [done|]. split.
    + clear Hapi. induction labels as [|label labels IH]; [done|].
      csimpl. rewrite length_app, length_fmap, IH. done.
    + intros k. rewrite list_elem_of_bind. split.
      * intros (label & Hk & Hl). apply list_elem_of_fmap in Hk as (el & -> & Hel).
        eauto.
      * intros (label & el & Hl & Hel & ->). exists label. split; [|done].
        apply list_elem_of_fmap. eauto.
  - intros data Hapi. eexists _, _.
    split; [by apply _get_ports_sensors_ok|].
    intros k. unfold ports_sensors. rewrite list_elem_of_bind. split.
    + intros (type & Hk & Ht). unfold type_sensors in Hk.
      destruct (data !! type) as [ports|] eqn:Hd; [|by apply elem_of_nil in Hk].
      exists type, ports. split_and!; [done|done|].
      apply elem_of_cons in Hk as [->|Hk]; [by left|].
      apply elem_of_cons in Hk as [->|Hk]; [right; by left|].
      do 2 right. apply list_elem_of_fmap in Hk as (port & -> & Hp). eauto.
    + intros (type & ports & Ht & Hd & Hk). exists type. split; [|done].
      unfold type_sensors. rewrite Hd.
      destruct Hk as [->|[->|(port & Hp & ->)]].
      * by left.
      * right. by left.
      * do 2 right. apply list_elem_of_fmap. eauto.
Qed.
End SensorLists.

Lemma sensor_lists_when_sdk_raises_witness :
  (_get_cpu_sensors (sample_bridge failing_api) []).1 = Ok ["total"]
  ∧ (@_get_network_stat_sensors sample_const (sample_bridge failing_api) []).1 = Ok []
  ∧ (@_get_ports_sensors sample_const (sample_bridge failing_api) []).1 = Ok [].
Proof.
  destruct (@sensor_lists_when_sdk_raises sample_const (sample_bridge failing_api) []
              OSError) as (Hcpu & _).
  destruct (@sensor_lists_when_sdk_raises sample_const (sample_bridge failing_api) []
              AsusRouterConnectionError) as (_ & Hnet & _).
  destruct (@sensor_lists_when_sdk_raises sample_const (sample_bridge failing_api) []
              (ValueError "no data")) as (_ & _ & Hports).
  rewrite Hcpu, Hnet, Hports by reflexivity. done.
Defined.

Lemma sensor_lists_when_sdk_returns_witness :
  ∃ sensors lg',
    @_get_network_stat_sensors sample_const (sample_bridge sample_api) []
    = (Ok sensors, lg')
    ∧ length sensors = 8%nat.
Proof.
  destruct (@sensor_lists_when_sdk_returns sample_const (sample_bridge sample_api) [])
    as (Hnet & _).
  destruct (Hnet ["WAN"; "WIRED"]) as (sensors & lg' & Hrun & _ & Hlen & _).
  { reflexivity. }
  exists sensors, lg'. split; [exact Hrun|exact Hlen].
Defined.

(** ** The bridge: creation and connection *)

Section BridgeCreation.
Context `{Const}.

Lemma getitem_Ok {V} (d : gmap string V) (k : string) (v : V) :
  getitem d k = Ok v ↔ d !! k = Some v.
Proof. unfold getitem. destruct (d !! k); split; intros; simplify_eq; done. Qed.

(** X4.  An HTTP bridge is created exactly when host, username, password,
    port, SSL flag and verify-SSL flag are keys of the configs updated with
    the options.  It is then created on the merged dictionary, in which the
    options win, with the certificate path defaulting to the empty string
    and the cache time to 3; otherwise the creation raises [KeyError] for
    the first of these keys that is missing. *)
Theorem AsusRouterBridgeHTTP_init_required_keys (configs options : pydict) :
  let merged := options ∪ configs in
  ((∃ bridge, AsusRouterBridgeHTTP_init configs options = Ok bridge)
   ↔ Forall (fun k => is_Some (merged !! k)) required_keys)
  ∧ (∀ _configs api host,
       AsusRouterBridgeHTTP_init configs options = Ok (_configs, api, host) →
       _configs = merged
       ∧ merged !! CONF_HOST = Some host
       ∧ arg_host api = host
       ∧ merged !! CONF_USERNAME = Some (arg_username api)
       ∧ merged !! CONF_PASSWORD = Some (arg_password api)
       ∧ arg_cert_path api = default (VStr "") (merged !! CONF_CERT_PATH)
       ∧ arg_cache_time api = default (VInt 3) (merged !! CONF_CACHE_TIME))
  ∧ (∀ ex, AsusRouterBridgeHTTP_init configs options = Raise ex →
       ∃ before k after,
         required_keys = before ++ k :: after
         ∧ ex = KeyError k
         ∧ merged !! k = None
         ∧ Forall (fun k' => is_Some (merged !! k')) before).
Proof.
  intros merged.
  unfold AsusRouterBridgeHTTP_init, _get_api, update, required_keys. fold merged.
  unfold getitem, dict_get.
  destruct (merged !! CONF_HOST) as [host|] eqn:Hhost; simpl.
  2:{ split_and!.
      - split; [by intros [? [=]]|]. intros Hall. apply Forall_cons in Hall as [Hh _].
        rewrite Hhost in Hh. by destruct Hh.
      - by intros ??? [=].
      - intros ex [= <-]. by exists [], CONF_HOST, (tail required_keys). }
  destruct (merged !! CONF_USERNAME) as [username|] eqn:Huser; simpl.
  2:{ split_and!.
      - split; [by intros [? [=]]|]. intros Hall.
        rewrite !Forall_cons in Hall. destruct Hall as (_ & Hh & _).
        rewrite Huser in Hh. by destruct Hh.
      - by intros ??? [=].
      - intros ex [= <-].
        exists [CONF_HOST], CONF_USERNAME, (drop 2 required_keys).
        split_and!; try done. repeat constructor. by rewrite Hhost. }
  destruct (merged !! CONF_PASSWORD) as [password|] eqn:Hpass; simpl.
  2:{ split_and!.
      - split; [by intros [? [=]]|]. intros Hall.
        rewrite !Forall_cons in Hall. destruct Hall as (_ & _ & Hh & _).
        rewrite Hpass in Hh. by destruct Hh.
      - by intros ??? [=].
      - intros ex [= <-].
        exists [CONF_HOST; CONF_USERNAME], CONF_PASSWORD, (drop 3 required_keys).
        split_and!; try done. repeat constructor; by rewrite ?Hhost, ?Huser. }
  destruct (merged !! CONF_PORT) as [port|] eqn:Hport; simpl.
  2:{ split_and!.
      - split; [by intros [? [=]]|]. intros Hall.
        rewrite !Forall_cons in Hall. destruct Hall as (_ & _ & _ & Hh & _).
        rewrite Hport in Hh. by destruct Hh.
      - by intros ??? [=].
      - intros ex [= <-].
        exists [CONF_HOST; CONF_USERNAME; CONF_PASSWORD], CONF_PORT,
          (drop 4 required_keys).
        split_and!; try done.
        repeat constructor; by rewrite ?Hhost, ?Huser, ?Hpass. }
  destruct (merged !! CONF_SSL) as [ssl|] eqn:Hssl; simpl.
  2:{ split_and!.
      - split; [by intros [? [=]]|]. intros Hall.
        rewrite !Forall_cons in Hall. destruct Hall as (_ & _ & _ & _ & Hh & _).
        rewrite Hssl in Hh. by destruct Hh.
      - by intros ??? [=].
      - intros ex [= <-].
        exists [CONF_HOST; CONF_USERNAME; CONF_PASSWORD; CONF_PORT], CONF_SSL,
          (drop 5 required_keys).
        split_and!; try done.
        repeat constructor; by rewrite ?Hhost, ?Huser, ?Hpass, ?Hport. }
  destruct (merged !! CONF_VERIFY_SSL) as [verify|] eqn:Hverify; simpl.
  2:{ split_and!.
      - split; [by intros [? [=]]|]. intros Hall.
        rewrite !Forall_cons in Hall. destruct Hall as (_ & _ & _ & _ & _ & Hh & _).
        rewrite Hverify in Hh. by destruct Hh.
      - by intros ??? [=].
      - intros ex [= <-].
        exists [CONF_HOST; CONF_USERNAME; CONF_PASSWORD; CONF_PORT; CONF_SSL],
          CONF_VERIFY_SSL, [].
        split_and!; try done.
        repeat constructor; by rewrite ?Hhost, ?Huser, ?Hpass, ?Hport, ?Hssl. }
  split_and!.
  - split; [|eauto]. intros _.
    repeat constructor; by rewrite ?Hhost, ?Huser, ?Hpass, ?Hport, ?Hssl, ?Hverify.
  - intros c api h [= <- <- <-]. simpl. done.
  - by intros ex [=].
Qed.
End BridgeCreation.

Lemma AsusRouterBridgeHTTP_init_required_keys_witness :
  (∃ bridge, @AsusRouterBridgeHTTP_init sample_const hostless_configs complete_configs
             = Ok bridge)
  ∧ @AsusRouterBridgeHTTP_init sample_const hostless_configs host_options
    = Raise (KeyError "password").
Proof.
  split.
  - apply (@AsusRouterBridgeHTTP_init_required_keys sample_const
             hostless_configs complete_configs).
    apply (bool_decide_unpack _). vm_compute. exact I.
  - destruct (@AsusRouterBridgeHTTP_init sample_const hostless_configs host_options)
      as [bridge|ex] eqn:Hinit; [vm_compute in Hinit; discriminate|].
    destruct (@AsusRouterBridgeHTTP_init_required_keys sample_const
                hostless_configs host_options) as (_ & _ & Hraise).
    destruct (Hraise ex Hinit) as (before & k & after & _ & -> & _).
    vm_compute in Hinit. injection Hinit as <-. reflexivity.
Defined.

(** X5.  [async_connect] of the HTTP bridge returns exactly when the SDK
    connects and reports the identity, which it then keeps; otherwise it
    leaves [_identity] as it was and raises the SDK's own exception
    unchanged, or [ConfigEntryNotReady] in place of any other exception.
    The attributes that only exist once connected follow: on a bridge that
    never connected, [get_serial] and the like raise [AttributeError];
    after a connection they return what the SDK reported. *)
Theorem bridge_async_connect_outcomes
    (api : SDK.calls) (_identity : option SDK.AsusDevice) :
  let run := bridge_async_connect api _identity in
  (run.1 = Ok tt ↔
   SDK.async_connect api = Ok tt ∧ ∃ device, SDK.async_get_identity api = Ok device)
  ∧ (∀ device, SDK.async_connect api = Ok tt →
       SDK.async_get_identity api = Ok device →
       run.2 = Some device
       ∧ bridge_get_serial run.2 = Ok (SDK.serial device)
       ∧ bridge_get_mac run.2 = Ok (SDK.mac device)
       ∧ bridge_get_model run.2 = Ok (SDK.model device)
       ∧ bridge_get_vendor run.2 = Ok (SDK.brand device)
       ∧ bridge_get_firmware run.2 = Ok (SDK.firmware device))
  ∧ (∀ ex, run.1 = Raise ex →
       run.2 = _identity
       ∧ (_identity = None → bridge_get_serial run.2 = Raise AttributeError)
       ∧ ∃ cause,
           (SDK.async_connect api = Raise cause
            ∨ SDK.async_connect api = Ok tt ∧ SDK.async_get_identity api = Raise cause)
           ∧ ex = if is_AsusRouterError cause then cause else ConfigEntryNotReady).
Proof.
  intros run. subst run. unfold bridge_async_connect.
  destruct (SDK.async_connect api) as [[]|cause] eqn:Hconn;
    [destruct (SDK.async_get_identity api) as [device|cause] eqn:Hid|]; simpl.
  - split_and!; [split; eauto|by intros ? _ [= <-]|by intros ? [=]].
  - split_and!.
    + split; [done|]. by intros (_ & ? & [=]).
    + by intros ? _ [=].
    + intros ex [= <-]. split_and!; [done|by intros ->|eauto].
  - split_and!.
    + split; [done|]. by intros ([=] & _).
    + by intros ? [=].
    + intros ex [= <-]. split_and!; [done|by intros ->|eauto].
Qed.

Lemma bridge_async_connect_outcomes_witness :
  (bridge_async_connect (sample_sdk (Ok tt) (Ok ∅)) None).2 = Some sample_device
  ∧ (bridge_async_connect (sample_sdk (Raise OSError) (Ok ∅)) None).1
    = Raise ConfigEntryNotReady.
Proof.
  destruct (bridge_async_connect_outcomes (sample_sdk (Ok tt) (Ok ∅)) None)
    as (_ & Hok & _).
  destruct (bridge_async_connect_outcomes (sample_sdk (Raise OSError) (Ok ∅)) None)
    as (_ & _ & Hraise).
  split.
  - apply (Hok sample_device); reflexivity.
  - destruct (Hraise ConfigEntryNotReady) as (_ & _ & _); reflexivity.
Defined.

Section BridgeAndFlow.
Context `{Const}.
Variable ARBridge : pydict → option pydict → outcome ARBridge_instance.

(** X7.  Where the bridge that [_async_check_connection] creates and
    connects is the HTTP bridge, the SDK fails to connect or to report the
    identity, and the clean-up returns, the call returns the form error
    code that follows from the exception of the SDK: the login error, the
    login block and the connection error of the SDK keep their codes, any
    other error of the SDK gets [RESULT_UNKNOWN], and every exception that
    is not the SDK's own (a timeout, an [OSError]) reaches the flow as
    [ConfigEntryNotReady] and gets [RESULT_UNKNOWN] as well. *)
Theorem bridge_async_connect_error_code
    (configs : loc) (options : option loc) (simple : bool) (s s' : state)
    (r : outcome pydict) (c : pydict) (bridge : ARBridge_instance)
    (rest : list bridge_call) (api : SDK.calls)
    (_identity : option SDK.AsusDevice) (cause : exn) :
  _async_check_connection ARBridge configs options simple s = (r, s') →
  ARBridge c None = Ok bridge →
  calls s' = calls s ++ call_ARBridge c None :: call_async_connect :: rest →
  async_connect bridge = (bridge_async_connect api _identity).1 →
  SDK.async_connect api = Raise cause
  ∨ SDK.async_connect api = Ok tt ∧ SDK.async_get_identity api = Raise cause →
  async_clean bridge = Ok tt →
  ∃ code,
    r = Ok {[ "errors" := VStr code ]}
    ∧ (cause = AsusRouterLoginError → code = RESULT_WRONG_CREDENTIALS)
    ∧ (∀ timeout, cause = AsusRouterLoginBlockError timeout →
                  code = RESULT_LOGIN_BLOCKED)
    ∧ (cause = AsusRouterConnectionError → code = RESULT_CONNECTION_REFUSED)
    ∧ (cause = AsusRouterError → code = RESULT_UNKNOWN)
    ∧ (is_AsusRouterError cause = false →
       async_connect bridge = Raise ConfigEntryNotReady ∧ code = RESULT_UNKNOWN).
Proof.
  intros Hrun Hbridge Htr Hconn Hsdk Hclean.
  assert (Hraised : async_connect bridge
                    = Raise (if is_AsusRouterError cause then cause
                             else ConfigEntryNotReady)).
  { rewrite Hconn. unfold bridge_async_connect.
    destruct Hsdk as [->|[-> ->]]; done. }
  exists (error_code (if is_AsusRouterError cause then cause else ConfigEntryNotReady)).
  split.
  - apply _async_check_connection_cases in Hrun
      as [_ [(_ & Hc & _)|[(e & _ & Hc)|[(c' & e & _ & _ & Hc)
             |(c' & bridge' & rest' & Hbridge' & Hc & Hres)]]]];
      rewrite Hc in Htr.
    + by apply trace_not_longer in Htr.
    + by apply trace_not_longer in Htr.
    + by apply app_inv_head in Htr.
    + apply app_inv_head in Htr. injection Htr as -> _.
      assert (bridge' = bridge) as -> by congruence.
      unfold connected in Hres. rewrite Hraised, Hclean in Hres. by destruct Hres.
  - split_and!.
    + by intros ->.
    + by intros timeout ->.
    + by intros ->.
    + by intros ->.
    + intros Hother. rewrite Hraised, Hother. done.
Qed.
End BridgeAndFlow.

Lemma bridge_async_connect_error_code_witness :
  let api := sample_sdk (Raise OSError) (Ok ∅) in
  (@_async_check_connection sample_const (bridge_class (http_instance api))
     1%positive (Some 2%positive) false
     (sample_state sample_configs sample_options)).1
  = Ok {[ "errors" := VStr "unknown" ]}.
Proof.
  intros api.
  set (s := sample_state sample_configs sample_options).
  set (run := @_async_check_connection sample_const (bridge_class (http_instance api))
                1%positive (Some 2%positive) false s).
  destruct (@bridge_async_connect_error_code sample_const
              (bridge_class (http_instance api)) 1%positive (Some 2%positive) false
              s run.2 run.1 (merged 1%positive (Some 2%positive) s)
              (http_instance api) [call_async_clean] api None OSError)
    as (code & Hrun & _ & _ & _ & _ & Hother).
  - apply surjective_pairing.
  - reflexivity.
  - vm_compute. reflexivity.
  - reflexivity.
  - left. reflexivity.
  - reflexivity.
  - destruct (Hother eq_refl) as [_ ->]. exact Hrun.
Defined.

Lemma polling_exceptions_witness :
  _get_cpu (sample_sdk (Ok tt) (Raise gaierror)) = Raise (UpdateFailed gaierror)
  ∧ _get_wan (sample_sdk (Ok tt) (Raise AsusRouterError))
    = Raise (UpdateFailed AsusRouterError)
  ∧ _get_ram (sample_sdk (Ok tt) (Raise AsusRouterConnectionError))
    = Raise AsusRouterConnectionError
  ∧ @_get_ports sample_const (sample_bridge failing_api)
    = Raise (UpdateFailed (ValueError "no data")).
Proof.
  pose proof (@polling_exceptions sample_const
                (sample_sdk (Ok tt) (Raise gaierror)) (sample_bridge failing_api))
    as Hfirst.
  pose proof (@polling_exceptions sample_const
                (sample_sdk (Ok tt) (Raise AsusRouterError)) (sample_bridge failing_api))
    as Hsecond.
  pose proof (@polling_exceptions sample_const
                (sample_sdk (Ok tt) (Raise AsusRouterConnectionError))
                (sample_bridge failing_api))
    as Hthird.
  cbv zeta in Hfirst, Hsecond, Hthird.
  destruct Hfirst as (((_ & _ & Hcpu) & _) & _ & _ & _ & (((Hports & _) & _) & _)).
  destruct Hsecond as (_ & _ & _ & (((Hwan & _) & _) & _)).
  destruct Hthird as (_ & (((Hram & _) & _) & _)).
  split_and!.
  - apply Hcpu. reflexivity.
  - apply (Hwan AsusRouterError). reflexivity.
  - apply (Hram AsusRouterConnectionError). reflexivity.
  - apply (Hports (ValueError "no data")). reflexivity.
Defined.

(** ** The connection check, when it succeeds *)

Section CheckConnectionSuccess.
Context `{Const}.
Variable ARBridge : pydict → option pydict → outcome ARBridge_instance.

Lemma elem_of_keys (d : pydict) (k : string) :
  k ∈ (map_to_list d).*1 ↔ is_Some (d !! k).
Proof.
  rewrite list_elem_of_fmap. split.
  - intros ([k' v] & -> & Hin). apply elem_of_map_to_list in Hin. eauto.
  - intros [v Hv]. exists (k, v). split; [done|]. by apply elem_of_map_to_list.
Qed.

(** Popping keys that are there, each once, removes them and nothing else. *)
Lemma pop_loop_deletes (l : loc) (items : list string) (s : state) :
  NoDup items →
  (∀ k, k ∈ items → is_Some ((heap s !!! l : pydict) !! k)) →
  ∃ s', foldM (fun _ item => pop l item) tt items s = (Ok tt, s')
        ∧ ∀ k, (heap s' !!! l : pydict) !! k
               = if decide (k ∈ items) then None else (heap s !!! l : pydict) !! k.
Proof.
  revert s. induction items as [|item items IH]; intros s Hnd Hin.
  - exists s. split; [done|]. intros k. rewrite decide_False; [done|].
    apply not_elem_of_nil.
  - apply NoDup_cons in Hnd as [Hitem Hnd].
    cbn [foldM]. unfold bind at 1, pop at 1, read, bind at 1, contains.
    rewrite bool_decide_true by (apply Hin; by left).
    unfold mutate, modify. cbv beta iota.
    destruct (IH (set_heap <[l:=delete item (heap s !!! l)]> s) Hnd)
      as (s' & Hrun & Hlook).
    { intros k Hk. state_simpl. rewrite lookup_total_insert_eq.
      rewrite lookup_delete_ne by (intros ->; done). apply Hin. by right. }
    exists s'. split; [done|]. intros k. rewrite Hlook. state_simpl.
    rewrite lookup_total_insert_eq.
    destruct (decide (k = item)) as [->|Hne].
    + rewrite lookup_delete_eq. rewrite (decide_True (P:=item ∈ item :: items)) by left.
      by destruct (decide (item ∈ items)).
    + rewrite lookup_delete_ne by done.
      destruct (decide (k ∈ items)) as [Hk|Hk].
      * rewrite decide_True; [done|by right].
      * rewrite decide_False; [done|]. by intros [?|?]%elem_of_cons.
Qed.

Lemma pop_loop_fields (l : loc) (items : list string) (s : state) r s' :
  foldM (fun _ item => pop l item) tt items s = (r, s') →
  s' = set_heap (fun _ => heap s') s.
Proof.
  revert s. induction items as [|item items IH]; intros s; cbn [foldM].
  - intros [= <- <-]. by destruct s.
  - unfold bind at 1, pop at 1, read, bind at 1.
    destruct (contains (heap s !!! l) item); cbv beta iota.
    + unfold mutate, modify. intros Hrun. apply IH in Hrun.
      rewrite Hrun at 1. by destruct s.
    + unfold raise. intros [= <- <-]. by destruct s.
Qed.

(** The run of [_async_check_connection] with a bridge that answers every
    call. *)
Lemma _async_check_connection_returns_copy
    (configs o : loc) (simple b : bool) (s : state) (host serial : value)
    (parameters : pydict) (api : ARBridge_instance) :
  let settings :=
    if simple then update (merged configs (Some o) s) parameters
    else merged configs (Some o) s in
  allocated s configs → allocated s o →
  merged configs (Some o) s !! CONF_HOST = Some host →
  (simple = true →
   merged configs (Some o) s !! CONF_SSL = Some (VBool b)
   ∧ SIMPLE_SETUP_PARAMETERS !! (if b then "ssl" else "no_ssl") = Some parameters) →
  ARBridge settings None = Ok api →
  async_connect api = Ok tt → async_clean api = Ok tt →
  get_serial api = Ok serial → async_disconnect api = Ok tt →
  ∃ s', _async_check_connection ARBridge configs (Some o) simple s
        = (Ok (<[ "configs" := VDict (next_loc s) ]> {[ "unique_id" := serial ]}), s')
        ∧ (∀ k, (heap s' !!! next_loc s : pydict) !! k
                = match (heap s !!! configs : pydict) !! k with
                  | Some _ => None
                  | None => settings !! k
                  end)
        ∧ calls s' = calls s ++ [ call_ARBridge settings None; call_async_connect;
                                   call_async_clean; call_get_serial;
                                   call_async_disconnect ]
        ∧ (∀ l, l ≠ next_loc s → heap s' !! l = heap s !! l)
        ∧ _configs s' = _configs s ∧ _options s' = _options s
        ∧ unique_id s' = unique_id s.
Proof.
  intros settings Hc Ho Hhost Hsimple Hapi Hconn Hclean Hserial Hdisc.
  unfold allocated in *. unfold merged in *.
  unfold _async_check_connection, _LOGGER'. exec. state_simpl.
  rewrite !lookup_total_insert_eq.
  rewrite (lookup_total_insert_ne (heap s)) by lia.
  set (m := update (heap s !!! configs) (heap s !!! o)) in *.
  unfold contains. rewrite Hhost. rewrite bool_decide_true by eauto. cbn [negb].
  unfold getitem at 1. rewrite Hhost. cbv beta iota.
  match goal with
  | |- context [let (_, _) := ?prep ?s0 in _] =>
    assert (Hprep : ∃ step_type s1,
              prep s0 = (Ok step_type, s1)
              ∧ heap s1 = <[next_loc s := settings]> (heap s)
              ∧ calls s1 = calls s
              ∧ s1 = set_next_loc (next_loc s1)
                       (set_heap (fun _ => heap s1)
                          (State (heap s) (next_loc s) (logs s1) (calls s) (_configs s)
                             (_options s) (unique_id s) (async_select_step_errors s)
                             (async_step_device_errors s))))
  end.
  { destruct simple.
    - destruct (Hsimple eq_refl) as [Hssl Hparams].
      unfold getitem. rewrite Hssl. cbn [truthy]. unfold ret. rewrite Hparams.
      eexists _, _. split; [done|]. state_simpl.
      rewrite lookup_total_insert_eq. rewrite !insert_insert_eq.
      split_and!; [done|done|].
      unfold add_log, set_heap, set_next_loc. simpl. by rewrite !insert_insert_eq.
    - eexists _, _. split; [done|]. state_simpl. rewrite !insert_insert_eq.
      split_and!; [done|done|].
      unfold set_heap, set_next_loc. simpl. by rewrite !insert_insert_eq. }
  destruct Hprep as (step_type & s1 & -> & Hheap1 & Hcalls1 & Hs1).
  assert (Hn1 : heap s1 !!! next_loc s = settings).
  { by rewrite Hheap1, lookup_total_insert_eq. }
  rewrite Hn1, Hapi, Hconn, Hclean, Hserial, Hdisc. state_simpl.
  assert (Hcfg1 : heap s1 !!! configs = heap s !!! configs).
  { rewrite Hheap1. apply lookup_total_insert_ne. lia. }
  rewrite Hcfg1.
  match goal with
  | |- context [foldM ?f ?a ?l ?s0] =>
    destruct (pop_loop_deletes (next_loc s) l s0) as (s2 & Hpop & Hlook);
      [apply NoDup_fst_map_to_list| |
       pose proof (pop_loop_frame _ _ _ _ _ Hpop) as (Hframe & _ & _ & Hcalls2);
       pose proof (pop_loop_fields _ _ _ _ _ Hpop) as Hfields;
       rewrite Hpop]
  end.
  { intros k Hk. apply elem_of_keys in Hk. state_simpl. rewrite Hn1.
    subst settings m. unfold update.
    destruct simple; rewrite ?lookup_union_is_Some; eauto. }
  state_simpl. rewrite Hn1 in Hlook.
  eexists. split; [by rewrite insert_empty|]. state_simpl.
  split_and!.
  - intros k. rewrite Hlook.
    destruct (decide (k ∈ _)) as [Hk|Hk]; rewrite elem_of_keys in Hk.
    + by destruct Hk as [? ->].
    + apply eq_None_not_Some in Hk. by rewrite Hk.
  - rewrite Hcalls2, Hcalls1, <- !app_assoc. done.
  - intros l Hl. rewrite Hframe by done. rewrite Hheap1.
    by rewrite lookup_insert_ne.
  - rewrite Hfields. state_simpl. rewrite Hs1. done.
  - rewrite Hfields. state_simpl. rewrite Hs1. done.
  - rewrite Hfields. state_simpl. rewrite Hs1. done.
Qed.

(** X8.  When the bridge connects, cleans up, reports its serial and
    disconnects, [_async_check_connection] returns the serial under
    'unique_id' and, under 'configs', its working copy, which then holds
    the entries of the options (and, in the simplified mode, of the
    parameters of [SIMPLE_SETUP_PARAMETERS] chosen by the SSL flag) whose
    keys are not keys of the configs: a key of the configs is dropped even
    when the options gave it a new value.  The bridge was asked for exactly
    these five calls, in this order, and was created on the merged
    settings. *)
Theorem _async_check_connection_success
    (configs o : loc) (simple b : bool) (s : state) (host serial : value)
    (parameters : pydict) (api : ARBridge_instance) :
  let settings :=
    if simple then update (merged configs (Some o) s) parameters
    else merged configs (Some o) s in
  allocated s configs → allocated s o →
  merged configs (Some o) s !! CONF_HOST = Some host →
  (simple = true →
   merged configs (Some o) s !! CONF_SSL = Some (VBool b)
   ∧ SIMPLE_SETUP_PARAMETERS !! (if b then "ssl" else "no_ssl") = Some parameters) →
  ARBridge settings None = Ok api →
  async_connect api = Ok tt → async_clean api = Ok tt →
  get_serial api = Ok serial → async_disconnect api = Ok tt →
  ∃ s', _async_check_connection ARBridge configs (Some o) simple s
        = (Ok (<[ "configs" := VDict (next_loc s) ]> {[ "unique_id" := serial ]}), s')
        ∧ (∀ k, (heap s' !!! next_loc s : pydict) !! k
                = match (heap s !!! configs : pydict) !! k with
                  | Some _ => None
                  | None => settings !! k
                  end)
        ∧ calls s' = calls s ++ [ call_ARBridge settings None; call_async_connect;
                                   call_async_clean; call_get_serial;
                                   call_async_disconnect ]
        ∧ (∀ l, l ≠ next_loc s → heap s' !! l = heap s !! l)
        ∧ _configs s' = _configs s ∧ _options s' = _options s
        ∧ unique_id s' = unique_id s.
Proof. apply _async_check_connection_returns_copy. Qed.
End CheckConnectionSuccess.

Lemma _async_check_connection_success_witness :
  ∃ s', @_async_check_connection sample_const (bridge_class sample_instance)
          1%positive (Some 2%positive) true
          (sample_state sample_configs sample_options)
        = (Ok (<[ "configs" := VDict 5%positive ]> {[ "unique_id" := VStr "SN0001" ]}),
           s')
        ∧ (heap s' !!! 5%positive : pydict) !! "host" = None
        ∧ (heap s' !!! 5%positive : pydict) !! "username" = Some (VStr "admin")
        ∧ (heap s' !!! 5%positive : pydict) !! "port" = Some (VInt 8443).
Proof.
  destruct (@_async_check_connection_success sample_const
              (bridge_class sample_instance) 1%positive 2%positive true true
              (sample_state sample_configs sample_options)
              (VStr "router.asus.com") (VStr "SN0001")
              {[ CONF_PORT := VInt 8443; CONF_VERIFY_SSL := VBool false ]}
              sample_instance)
    as (s' & Hrun & Hfound & _); try reflexivity.
  { intros _. split; vm_compute; reflexivity. }
  exists s'. split; [exact Hrun|].
  split_and!; (etransitivity; [apply Hfound|]); vm_compute; reflexivity.
Defined.

(** ** The connection check, before and around the connection *)

Section CheckConnectionEdges.
Context `{Const}.
Variable ARBridge : pydict → option pydict → outcome ARBridge_instance.

(** X9.  What goes wrong before the connection is tried is not turned into
    a form error.  In the simplified mode, a missing SSL flag, or a missing
    'ssl' or 'no_ssl' entry of [SIMPLE_SETUP_PARAMETERS], raises [KeyError]
    before any bridge is created; an exception of the creation of the
    bridge reaches the caller as it is, and no clean-up is awaited. *)
Theorem _async_check_connection_before_connect
    (configs o : loc) (s : state) (host : value) :
  allocated s configs → allocated s o →
  merged configs (Some o) s !! CONF_HOST = Some host →
  (merged configs (Some o) s !! CONF_SSL = None →
   ∃ s', _async_check_connection ARBridge configs (Some o) true s
         = (Raise (KeyError CONF_SSL), s')
         ∧ calls s' = calls s)
  ∧ (∀ b key, merged configs (Some o) s !! CONF_SSL = Some (VBool b) →
       key = (if b then "ssl" else "no_ssl") →
       SIMPLE_SETUP_PARAMETERS !! key = None →
       ∃ s', _async_check_connection ARBridge configs (Some o) true s
             = (Raise (KeyError key), s')
             ∧ calls s' = calls s)
  ∧ (∀ ex, ARBridge (merged configs (Some o) s) None = Raise ex →
       ∃ s', _async_check_connection ARBridge configs (Some o) false s
             = (Raise ex, s')
             ∧ calls s' = calls s ++ [call_ARBridge (merged configs (Some o) s) None]).
Proof.
  intros Hc Ho Hhost. unfold allocated in *. unfold merged in *.
  split_and!.
  - intros Hssl. unfold _async_check_connection, _LOGGER'. exec. state_simpl.
    rewrite !lookup_total_insert_eq.
    rewrite (lookup_total_insert_ne (heap s)) by lia.
    unfold contains, getitem. rewrite Hhost, Hssl.
    rewrite bool_decide_true by eauto. cbn [negb]. eauto.
  - intros b key Hssl -> Hparams.
    unfold _async_check_connection, _LOGGER'. exec. state_simpl.
    rewrite !lookup_total_insert_eq.
    rewrite (lookup_total_insert_ne (heap s)) by lia.
    unfold contains, getitem. rewrite Hhost, Hssl.
    rewrite bool_decide_true by eauto. cbn [negb truthy]. unfold ret.
    rewrite Hparams. eauto.
  - intros ex Hapi. unfold _async_check_connection, _LOGGER'. exec. state_simpl.
    rewrite !lookup_total_insert_eq.
    rewrite (lookup_total_insert_ne (heap s)) by lia.
    unfold contains, getitem. rewrite Hhost.
    rewrite bool_decide_true by eauto. cbn [negb]. state_simpl.
    rewrite lookup_total_insert_eq, Hapi. eauto.
Qed.

(** X10.  In every call of [_async_check_connection] the bridge is asked
    for nothing, or its creation fails and that is all, or it is created,
    [async_connect] is awaited and [async_clean] is awaited right after it
    whatever the connection gave; [get_serial] and [async_disconnect] are
    only awaited when both the connection and the clean-up returned. *)
Theorem _async_check_connection_trace
    (configs : loc) (options : option loc) (simple : bool) (s s' : state)
    (r : outcome pydict) :
  _async_check_connection ARBridge configs options simple s = (r, s') →
  ∃ trace,
    calls s' = calls s ++ trace
    ∧ (trace = []
       ∨ (∃ c ex, trace = [call_ARBridge c None]
                  ∧ ARBridge c None = Raise ex ∧ r = Raise ex)
       ∨ (∃ c api rest,
            trace = call_ARBridge c None :: call_async_connect
                      :: call_async_clean :: rest
            ∧ ARBridge c None = Ok api
            ∧ (rest ≠ [] → async_connect api = Ok tt ∧ async_clean api = Ok tt)
            ∧ (∀ ex, async_clean api = Raise ex → r = Raise ex))).
Proof.
  intros Hrun.
  apply _async_check_connection_cases in Hrun
    as [_ [(_ & Hc & _)|[(e & _ & Hc)|[(c & e & Hapi & -> & Hc)
           |(c & api & rest & Hapi & Hc & Hres)]]]].
  - exists []. rewrite app_nil_r. eauto.
  - exists []. rewrite app_nil_r. eauto.
  - eexists. split; [exact Hc|]. right. left. eauto.
  - eexists. split; [exact Hc|]. do 2 right. exists c, api, rest.
    split_and!; [done|done| |].
    + intros Hrest. unfold connected in Hres.
      destruct (async_connect api) as [[]|?], (async_clean api) as [[]|?];
        try done; by destruct Hres.
    + intros ex Hclean. unfold connected in Hres. rewrite Hclean in Hres.
      destruct (async_connect api); by destruct Hres.
Qed.
End CheckConnectionEdges.

Lemma _async_check_connection_before_connect_witness :
  ∃ s', @_async_check_connection sample_const (bridge_class sample_instance)
          1%positive (Some 2%positive) true
          (sample_state sample_configs {[ "username" := VStr "admin" ]})
        = (Raise (KeyError "ssl"), s')
        ∧ calls s' = [].
Proof.
  destruct (@_async_check_connection_before_connect sample_const
              (bridge_class sample_instance) 1%positive 2%positive
              (sample_state sample_configs {[ "username" := VStr "admin" ]})
              (VStr "router.asus.com")) as (Hssl & _); try reflexivity.
  apply Hssl. vm_compute. reflexivity.
Defined.

Lemma _async_check_connection_trace_witness :
  let run := @_async_check_connection sample_const
               (bridge_class (failing_instance AsusRouterLoginError (Ok tt)))
               1%positive (Some 2%positive) true
               (sample_state sample_configs sample_options) in
  ∃ trace, calls run.2 = [] ++ trace.
Proof.
  intros run.
  destruct (@_async_check_connection_trace sample_const
              (bridge_class (failing_instance AsusRouterLoginError (Ok tt)))
              1%positive (Some 2%positive) true
              (sample_state sample_configs sample_options) run.2 run.1)
    as (trace & Htrace & _).
  { apply surjective_pairing. }
  exists trace. exact Htrace.
Defined.

(** ** Relations that coroutines preserve *)

Section Preserves.
Variable R : state → state → Prop.
Hypothesis R_refl : ∀ s, R s s.
Hypothesis R_trans : ∀ s1 s2 s3, R s1 s2 → R s2 s3 → R s1 s3.

Lemma preserves_ret {A} (a : A) : preserves R (ret a).
Proof. intros s. apply R_refl. Qed.

Lemma preserves_raise {A} (e : exn) : preserves R (raise e : F A).
Proof. intros s. apply R_refl. Qed.

Lemma preserves_lift {A} (o : outcome A) : preserves R (lift o).
Proof. intros s. apply R_refl. Qed.

Lemma preserves_modify (f : state → state) :
  (∀ s, R s (f s)) → preserves R (modify f).
Proof. intros Hf s. apply Hf. Qed.

Lemma preserves_bind {A B} (c : F A) (k : A → F B) :
  preserves R c → (∀ a, preserves R (k a)) → preserves R (bind c k).
Proof.
  intros Hc Hk s. unfold bind. specialize (Hc s).
  destruct (c s) as [[a|e] s1]; [|done].
  eapply R_trans; [exact Hc|apply Hk].
Qed.

Lemma preserves_try_except {A} (body : F A) (handler : exn → F A) :
  preserves R body → (∀ e, preserves R (handler e)) →
  preserves R (try_except body handler).
Proof.
  intros Hb Hh s. unfold try_except. specialize (Hb s).
  destruct (body s) as [[a|e] s1]; [done|].
  eapply R_trans; [exact Hb|apply Hh].
Qed.

Lemma preserves_try_finally {A} (body : F A) (cleanup : F unit) :
  preserves R body → preserves R cleanup → preserves R (try_finally body cleanup).
Proof.
  intros Hb Hc s. unfold try_finally. specialize (Hb s).
  destruct (body s) as [r s1]. specialize (Hc s1).
  destruct (cleanup s1) as [[u|e] s2]; eapply R_trans; eauto.
Qed.

Lemma preserves_foldM {A B} (f : A → B → F A) (a : A) (l : list B) :
  (∀ a b, preserves R (f a b)) → preserves R (foldM f a l).
Proof.
  intros Hf. revert a. induction l as [|b l IH]; intros a.
  - apply preserves_ret.
  - cbn [foldM]. apply preserves_bind; [apply Hf|apply IH].
Qed.

Lemma preserves_read (l : loc) : preserves R (read l).
Proof. intros s. apply R_refl. Qed.

Lemma preserves_truthy (v : value) : preserves R (truthy v).
Proof.
  destruct v; cbn [truthy]; try apply preserves_ret.
  apply preserves_bind; [apply preserves_read|intros; apply preserves_ret].
Qed.
End Preserves.

Lemma same_self_refl (s : state) : same_self s s.
Proof. by repeat split. Qed.

Lemma same_self_trans (s1 s2 s3 : state) :
  same_self s1 s2 → same_self s2 s3 → same_self s1 s3.
Proof.
  unfold same_self. intros (? & ? & ? & ? & ?) (? & ? & ? & ? & ?).
  split_and!; congruence.
Qed.

Ltac preserves_step R_refl R_trans :=
  first
    [ apply (preserves_ret _ R_refl)
    | apply (preserves_raise _ R_refl)
    | apply (preserves_lift _ R_refl)
    | apply (preserves_read _ R_refl)
    | apply (preserves_truthy _ R_refl R_trans)
    | apply (preserves_bind _ R_trans); [|intros ?]
    | apply (preserves_try_except _ R_trans); [|intros ?]
    | apply (preserves_try_finally _ R_trans)
    | apply (preserves_foldM _ R_refl R_trans); intros ? ?
    | apply preserves_modify; intros ?; by repeat split
    | match goal with
      | |- preserves _ (match ?x with _ => _ end) => destruct x
      end ].

Section SameSelf.
Context `{Const}.
Variable ARBridge : pydict → option pydict → outcome ARBridge_instance.

Ltac same_self := repeat preserves_step same_self_refl same_self_trans.

(** The module's functions do not touch the attributes of the handler. *)
Lemma _async_check_connection_same_self configs options simple :
  preserves same_self (_async_check_connection ARBridge configs options simple).
Proof.
  unfold _async_check_connection, connection_error, copy, new_dict, mutate, pop,
    await, _LOGGER', log.
  same_self.
  all: try (intros s; by repeat split).
Qed.

Lemma _async_get_network_interfaces_same_self configs options :
  preserves same_self (_async_get_network_interfaces ARBridge configs options).
Proof.
  unfold _async_get_network_interfaces, mutate, await, _LOGGER', log.
  same_self.
Qed.
End SameSelf.

(** ** The steps of the wizard, one by one *)

Section WizardSteps.
Context `{Const}.
Variable ARBridge : pydict → option pydict → outcome ARBridge_instance.
Variable gethostbyname : value → outcome value.

Lemma _check_errors_empty : _check_errors ∅ = false.
Proof. reflexivity. Qed.

Ltac run_step Hstep :=
  cbn [run]; unfold bind at 1; cbn [await_next call_step]; rewrite Hstep.

(** X11.  The 'discovery' step.  Without input it shows its form with no
    error; an input without the host raises [KeyError].  When the name of
    the host cannot be resolved the form is shown again with the error
    'cannot_resolve_host' and [self._configs] is left alone; an exception of
    the resolver other than [socket.gaierror] is not caught.  When the name
    resolves, [self._configs] is updated with the input and the flow goes on
    to the form of the 'credentials' step, with a new and empty [errors]. *)
Theorem async_step_discovery_outcomes (user_input : pydict) (s : state) :
  allocated s (_configs s) → allocated s (_options s) →
  let errors := next_loc s in
  (∃ s', async_step_discovery gethostbyname None s
         = (Ok (Return (async_show_form "discovery" (_create_form_discovery ∅)
                          (Some errors))), s')
         ∧ heap s' !! errors = Some ∅)
  ∧ (user_input ≠ ∅ → user_input !! CONF_HOST = None →
     ∃ s', async_step_discovery gethostbyname (Some user_input) s
           = (Raise (KeyError CONF_HOST), s'))
  ∧ (∀ host, user_input ≠ ∅ → user_input !! CONF_HOST = Some host →
     (gethostbyname host = Raise gaierror →
      ∃ s', async_step_discovery gethostbyname (Some user_input) s
            = (Ok (Return (async_show_form "discovery"
                             (_create_form_discovery user_input) (Some errors))), s')
            ∧ heap s' !! errors = Some {[ "base" := VStr "cannot_resolve_host" ]}
            ∧ heap s' !! _configs s = heap s !! _configs s)
     ∧ (∀ ex, gethostbyname host = Raise ex → ex ≠ gaierror →
        ∃ s', async_step_discovery gethostbyname (Some user_input) s = (Raise ex, s'))
     ∧ (∀ ip, gethostbyname host = Ok (VStr ip) → ip ≠ "" →
        ∃ s', run ARBridge gethostbyname 3
                (Await_step step_discovery (Some user_input) None) s
              = (Ok (Some (async_show_form "credentials"
                             (_create_form_credentials (heap s' !!! _options s))
                             (Some (Pos.succ errors)))), s')
              ∧ heap s' !! _configs s
                = Some (update (heap s !!! _configs s) user_input)
              ∧ heap s' !! Pos.succ errors = Some ∅)).
Proof.
  intros Hc Ho errors. unfold allocated in *. split_and!.
  - unfold async_step_discovery, given. exec. state_simpl.
    eexists. split; [done|]. state_simpl. by rewrite lookup_insert_eq.
  - intros Hgiven Hhost.
    unfold async_step_discovery, given. rewrite bool_decide_true by done.
    exec. state_simpl. change (default ∅ (Some user_input)) with user_input.
    unfold getitem. rewrite Hhost. eauto.
  - intros host Hgiven Hhost.
    split_and!.
    + intros Hip. unfold async_step_discovery, given, _check_host.
      rewrite bool_decide_true by done. exec. state_simpl.
      change (default ∅ (Some user_input)) with user_input.
      unfold getitem. rewrite Hhost, Hip. cbn [truthy]. unfold ret. state_simpl.
      rewrite !lookup_total_insert_eq, insert_empty.
      rewrite bool_decide_false by (intros Heq; by apply (f_equal (lookup "base")) in Heq).
      eexists. split; [done|]. state_simpl.
      rewrite lookup_insert_eq. split; [done|].
      rewrite !lookup_insert_ne by lia. done.
    + intros ex Hip Hne. unfold async_step_discovery, given, _check_host.
      rewrite bool_decide_true by done. exec. state_simpl.
      change (default ∅ (Some user_input)) with user_input.
      unfold getitem. rewrite Hhost, Hip. destruct ex; try done; eauto.
    + intros ip Hip Hne.
      assert (Hstep : ∃ s1,
                async_step_discovery gethostbyname (Some user_input) s
                = (Ok (Await_select_step (Some "discovery") (Some errors)), s1)
                ∧ heap s1 = <[_configs s := update (heap s !!! _configs s) user_input]>
                              (<[errors := ∅]> (heap s))
                ∧ next_loc s1 = Pos.succ errors
                ∧ _options s1 = _options s).
      { unfold async_step_discovery, given, self_configs, _check_host.
        rewrite bool_decide_true by done. exec. state_simpl.
        change (default ∅ (Some user_input)) with user_input.
        unfold getitem. rewrite Hhost, Hip. cbn [truthy]. unfold ret.
        rewrite bool_decide_true by done. state_simpl.
        rewrite lookup_total_insert_eq.
        rewrite bool_decide_true by done.
        eexists. split; [done|]. state_simpl.
        rewrite (lookup_total_insert_ne (heap s)) by lia. done. }
      destruct Hstep as (s1 & Hstep & Hheap1 & Hnext1 & Hopt1).
      assert (Hselect : async_select_step (Some "discovery") (Some errors) s1
                        = (Ok (Await_step step_credentials None None), s1)).
      { apply async_select_step_next; [done|]. cbn [default from_option id].
        rewrite Hheap1. rewrite lookup_total_insert_ne by lia.
        by rewrite lookup_total_insert_eq. }
      exists (set_next_loc (Pos.succ (Pos.succ errors))
                (set_heap <[Pos.succ errors:=∅]> s1)).
      split.
      { run_step Hstep. run_step Hselect.
        cbn [run]. unfold bind at 1. cbn [await_next call_step].
        unfold async_step_credentials, given, self_options. exec. state_simpl.
        rewrite Hnext1, Hopt1. reflexivity. }
      state_simpl. rewrite Hheap1. split.
      * rewrite lookup_insert_ne by lia. by rewrite lookup_insert_eq.
      * by rewrite lookup_insert_eq.
Qed.

Lemma _steps_entries (last_step : string) (f : step) :
  _steps !! last_step = Some f →
  (last_step, f) ∈ [ ("discovery", step_credentials);
                     ("credentials", step_operation_mode);
                     ("credentials_error", step_device);
                     ("device", step_operation_mode);
                     ("operation_mode", step_times);
                     ("times", step_interfaces);
                     ("interfaces", step_name);
                     ("name", step_finish) ].
Proof.
  intros Hf. apply elem_of_list_to_map_2 in Hf. by apply elem_of_reverse in Hf.
Qed.

Lemma async_select_step_no_entry (last_step : string) (f : step)
    (errors : option loc) (s : state) :
  _steps !! last_step = Some f →
  last_step ≠ "credentials" →
  _check_errors (heap s !!! default (async_select_step_errors s) errors) = true →
  async_select_step (Some last_step) errors s
  = (Raise (KeyError (last_step +:+ "_error")), s).
Proof.
  intros Hf Hne He.
  assert (Hnone : _steps !! (last_step +:+ "_error") = None).
  { apply _steps_entries in Hf.
    repeat (apply elem_of_cons in Hf as [[= -> ->]|Hf]; [done|]).
    by apply elem_of_nil in Hf. }
  assert (last_step ≠ "") by (intros ->; by rewrite _steps_no_empty_name in Hf).
  unfold async_select_step.
  destruct errors as [l|]; exec; cbn [default from_option id] in He;
    (rewrite bool_decide_true by done); unfold contains, getitem;
    rewrite Hf, Hnone; (rewrite bool_decide_true by eauto); by rewrite He.
Qed.

(** X12.  [async_select_step] with form errors has somewhere to go only
    after the 'credentials' step: for every other key of the step table the
    entry '{last_step}_error' is missing, and the call raises [KeyError]
    for it. *)
Theorem async_select_step_with_errors
    (last_step : string) (f : step) (errors : loc) (s : state) :
  _steps !! last_step = Some f →
  _check_errors (heap s !!! errors) = true →
  (last_step = "credentials" →
   async_select_step (Some last_step) (Some errors) s
   = (Ok (Await_step step_device None (Some errors)), s))
  ∧ (last_step ≠ "credentials" →
     async_select_step (Some last_step) (Some errors) s
     = (Raise (KeyError (last_step +:+ "_error")), s)).
Proof.
  intros Hf He. split.
  - intros ->. by apply (async_select_step_on_error _ step_operation_mode).
  - intros Hne. by apply (async_select_step_no_entry _ f).
Qed.

(** X13.  The [errors] dictionary of [async_step_device] is the one object
    created for its default value.  A submission of the 'device' form whose
    connection check reports an error writes the code into that object,
    where it stays; a later submission whose check succeeds then hands the
    same object to [async_select_step], which finds the old error in it,
    looks for the missing entry 'device_error' and raises [KeyError]. *)
Theorem async_step_device_default_errors (user_input : pydict) (s : state) :
  let shared := async_step_device_errors s in
  let checked := _async_check_connection ARBridge (_configs s) (Some (_options s))
                   false (options_updated user_input s) in
  user_input ≠ ∅ →
  allocated s (_options s) → allocated s shared → _options s ≠ shared →
  (∀ result code, checked.1 = Ok result → result !! "errors" = Some code →
     ∃ s', async_step_device ARBridge (Some user_input) None s
           = (Ok (Return (async_show_form "device" (_create_form_device user_input)
                            (Some shared))), s')
           ∧ heap s' !! shared = Some (<[ "base" := code ]> (heap s !!! shared))
           ∧ async_step_device_errors s' = shared)
  ∧ (∀ result found serial,
       checked.1 = Ok result → result !! "errors" = None →
       result !! "configs" = Some (VDict found) →
       result !! "unique_id" = Some serial →
       _check_errors (heap s !!! shared) = true →
       ∃ s', run ARBridge gethostbyname 2
               (Await_step step_device (Some user_input) None) s
             = (Raise (KeyError "device_error"), s')).
Proof.
  intros shared checked Hgiven Ho Hd Hne. unfold allocated in *.
  destruct checked as [r s2] eqn:Hcheck. subst checked. cbn [fst].
  pose proof Hcheck as Hcases.
  apply _async_check_connection_cases in Hcases as [Hframe _].
  assert (Hshared2 : heap s2 !!! shared = heap s !!! shared).
  { unfold lookup_total, map_lookup_total. rewrite Hframe.
    - unfold options_updated. state_simpl. by rewrite lookup_insert_ne.
    - unfold options_updated. state_simpl. fold shared. lia. }
  pose proof (_async_check_connection_same_self ARBridge (_configs s)
                (Some (_options s)) false (options_updated user_input s)) as Hself.
  rewrite Hcheck in Hself. destruct Hself as (_ & _ & _ & _ & Hself).
  unfold options_updated in Hself. state_simpl.
  split.
  - intros result code -> Hcode.
    unfold async_step_device, given, self_configs, self_options.
    rewrite bool_decide_true by done.
    do 4 unfold bind at 1. unfold mutate at 1, modify. state_simpl.
    do 2 unfold bind at 1.
    match goal with
    | |- context [_async_check_connection _ _ _ _ ?st] =>
      change st with (options_updated user_input s)
    end.
    rewrite Hcheck. unfold contains, getitem. rewrite Hcode.
    rewrite bool_decide_true by eauto. exec. state_simpl.
    change (default ∅ (Some user_input)) with user_input.
    fold shared. rewrite Hshared2.
    eexists. split; [done|]. state_simpl. by rewrite lookup_insert_eq.
  - intros result found serial -> Hnone Hfound Hserial He.
    assert (Hstep : ∃ s3,
              async_step_device ARBridge (Some user_input) None s
              = (Ok (Await_select_step (Some "device") (Some shared)), s3)
              ∧ heap s3 !!! shared = heap s !!! shared).
    { unfold async_step_device, given, self_configs, self_options.
      rewrite bool_decide_true by done.
      do 4 unfold bind at 1. unfold mutate at 1, modify. state_simpl.
      do 2 unfold bind at 1.
      match goal with
      | |- context [_async_check_connection _ _ _ _ ?st] =>
        change st with (options_updated user_input s)
      end.
      rewrite Hcheck. unfold contains, getitem. rewrite Hnone, Hfound, Hserial.
      rewrite bool_decide_false by (by intros [? ?]).
      unfold async_set_unique_id. exec. state_simpl.
      eexists. split; [done|]. state_simpl.
      rewrite lookup_total_insert_ne by done. done. }
    destruct Hstep as (s3 & Hstep & Hshared3).
    exists s3. run_step Hstep.
    cbn [run]. unfold bind at 1. cbn [await_next].
    rewrite (async_select_step_no_entry "device" step_operation_mode); try done.
    cbn [default from_option id]. by rewrite Hshared3.
Qed.

Lemma truthy_falsy (v : value) (s : state) :
  v ∈ [VNone; VBool false; VInt 0; VStr ""; VList []] →
  truthy v s = (Ok false, s).
Proof.
  intros Hv. repeat (apply elem_of_cons in Hv as [->|Hv]; [done|]).
  by apply elem_of_nil in Hv.
Qed.

(** X15.  With monitoring disabled in the options, the 'interfaces' step
    does nothing whatever it is given: it asks nothing of the bridge, leaves
    [self._options] as it is (an input is dropped) and hands over to
    [async_select_step], so that the flow shows the form of the 'name'
    step. *)
Theorem async_step_interfaces_monitor_disabled
    (user_input : option pydict) (s : state) :
  dict_get (heap s !!! _options s) CONF_ENABLE_MONITOR DEFAULT_ENABLE_MONITOR
    ∈ [VNone; VBool false; VInt 0; VStr ""; VList []] →
  async_step_interfaces ARBridge user_input s
  = (Ok (Await_select_step (Some "interfaces") None), s)
  ∧ (_check_errors (heap s !!! async_select_step_errors s) = false →
     run ARBridge gethostbyname 3 (Await_step step_interfaces user_input None) s
     = (Ok (Some (async_show_form "name" (_create_form_name ∅) None)), s)).
Proof.
  intros Hoff.
  assert (Hstep : async_step_interfaces ARBridge user_input s
                  = (Ok (Await_select_step (Some "interfaces") None), s)).
  { unfold async_step_interfaces, self_configs, self_options.
    do 4 unfold bind at 1. unfold read at 1. cbv beta iota.
    unfold bind at 1. rewrite (truthy_falsy _ _ Hoff). done. }
  split; [done|]. intros He.
  run_step Hstep. cbn [run]. unfold bind at 1. cbn [await_next].
  rewrite (async_select_step_next "interfaces" step_name) by done.
  cbn [run]. unfold bind at 1. cbn [await_next call_step].
  unfold async_step_name, given, self_options. exec. done.
Qed.

(** X18.  The last step.  A name given to the 'name' step goes into
    [self._options], and the flow ends by creating the entry: its title is
    the host of [self._configs], its data [self._configs] and its options
    [self._options].  Without a host in [self._configs] the flow ends with
    [KeyError] instead. *)
Theorem async_step_name_finishes (user_input : pydict) (s : state) :
  user_input ≠ ∅ →
  _configs s ≠ _options s →
  async_select_step_errors s ≠ _options s →
  _check_errors (heap s !!! async_select_step_errors s) = false →
  ∃ s',
    heap s' = <[_options s := update (heap s !!! _options s) user_input]> (heap s)
    ∧ (∀ host, (heap s !!! _configs s : pydict) !! CONF_HOST = Some host →
         run ARBridge gethostbyname 3 (Await_step step_name (Some user_input) None) s
         = (Ok (Some (async_create_entry host (_configs s) (_options s))), s'))
    ∧ ((heap s !!! _configs s : pydict) !! CONF_HOST = None →
         run ARBridge gethostbyname 3 (Await_step step_name (Some user_input) None) s
         = (Raise (KeyError CONF_HOST), s')).
Proof.
  intros Hgiven Hne Hneq He.
  set (s1 := set_heap <[_options s := update (heap s !!! _options s) user_input]> s).
  assert (Hstep : async_step_name (Some user_input) s
                  = (Ok (Await_select_step (Some "name") None), s1)).
  { unfold async_step_name, given, self_options.
    rewrite bool_decide_true by done. exec. done. }
  assert (Hselect : async_select_step (Some "name") None s1
                    = (Ok (Await_step step_finish None None), s1)).
  { apply async_select_step_next; [done|]. cbn [default from_option id].
    subst s1. state_simpl. by rewrite lookup_total_insert_ne. }
  assert (Hc : (heap s1 !!! _configs s1 : pydict) = heap s !!! _configs s).
  { subst s1. state_simpl. by rewrite lookup_total_insert_ne. }
  exists s1. split; [done|]. split.
  - intros host Hhost. run_step Hstep.
    cbn [run]. unfold bind at 1. cbn [await_next]. rewrite Hselect.
    cbn [run]. unfold bind at 1. cbn [await_next call_step].
    unfold async_step_finish, self_configs, self_options, read, getitem.
    exec. rewrite Hc, Hhost. done.
  - intros Hhost. run_step Hstep.
    cbn [run]. unfold bind at 1. cbn [await_next]. rewrite Hselect.
    cbn [run]. unfold bind at 1. cbn [await_next call_step].
    unfold async_step_finish, self_configs, self_options, read, getitem.
    exec. rewrite Hc, Hhost. done.
Qed.
End WizardSteps.

Lemma async_step_discovery_outcomes_witness :
  ∃ s', @run sample_const (bridge_class sample_instance) sample_gethostbyname 3
          (Await_step step_discovery (Some host_options) None)
          (sample_state ∅ sample_options)
        = (Ok (Some (async_show_form "credentials"
                       (@_create_form_credentials sample_const (heap s' !!! 2%positive))
                       (Some 6%positive))), s')
        ∧ heap s' !! 1%positive = Some host_options.
Proof.
  destruct (@async_step_discovery_outcomes sample_const (bridge_class sample_instance)
              sample_gethostbyname host_options (sample_state ∅ sample_options))
    as (_ & _ & Hhost); [reflexivity|reflexivity|].
  destruct (Hhost (VStr "router.asus.com")) as (_ & _ & Hresolved).
  - apply (bool_decide_unpack _). vm_compute. exact I.
  - reflexivity.
  - destruct (Hresolved "192.168.1.1") as (s' & Hrun & Hconfigs & _);
      [reflexivity|discriminate|].
    exists s'. split; [exact Hrun|]. etransitivity; [exact Hconfigs|].
    vm_compute. reflexivity.
Defined.

Lemma async_select_step_with_errors_witness :
  let s := set_heap <[3%positive := {[ "base" := VStr "unknown" ]}]>
             (sample_state sample_configs sample_options) in
  @async_select_step sample_const (Some "discovery") (Some 3%positive) s
  = (Raise (KeyError "discovery_error"), s).
Proof.
  intros s.
  apply (@async_select_step_with_errors sample_const "discovery" step_credentials
           3%positive s); [reflexivity|reflexivity|discriminate].
Defined.

Lemma async_step_device_default_errors_witness :
  let s := set_heap <[4%positive := {[ "base" := VStr "connection_refused" ]}]>
             (sample_state sample_configs ∅) in
  ∃ s', @run sample_const (bridge_class sample_instance) sample_gethostbyname 2
          (Await_step step_device (Some sample_options) None) s
        = (Raise (KeyError "device_error"), s').
Proof.
  intros s.
  destruct (@async_step_device_default_errors sample_const
              (bridge_class sample_instance) sample_gethostbyname sample_options s)
    as [_ Hlater].
  - apply (bool_decide_unpack _). vm_compute. exact I.
  - reflexivity.
  - reflexivity.
  - discriminate.
  - apply (Hlater (<[ "configs" := VDict 5%positive ]>
                     {[ "unique_id" := VStr "SN0001" ]})
             5%positive (VStr "SN0001")); vm_compute; reflexivity.
Defined.

Lemma async_step_interfaces_monitor_disabled_witness :
  let s := sample_state sample_configs {[ "enable_monitor" := VBool false ]} in
  @run sample_const (bridge_class sample_instance) sample_gethostbyname 3
    (Await_step step_interfaces (Some {[ "interfaces" := VList ["WAN"] ]}) None) s
  = (Ok (Some (async_show_form "name" (_create_form_name ∅) None)), s).
Proof.
  intros s.
  apply (@async_step_interfaces_monitor_disabled sample_const
           (bridge_class sample_instance) sample_gethostbyname).
  - apply list_elem_of_In. right. left. vm_compute. reflexivity.
  - vm_compute. reflexivity.
Defined.

Lemma async_step_name_finishes_witness :
  ∃ s', @run sample_const (bridge_class sample_instance) sample_gethostbyname 3
          (Await_step step_name (Some {[ "name" := VStr "Router" ]}) None)
          (sample_state sample_configs sample_options)
        = (Ok (Some (async_create_entry (VStr "router.asus.com")
                       1%positive 2%positive)), s').
Proof.
  destruct (@async_step_name_finishes sample_const (bridge_class sample_instance)
              sample_gethostbyname {[ "name" := VStr "Router" ]}
              (sample_state sample_configs sample_options))
    as (s' & _ & Hrun & _).
  - apply (bool_decide_unpack _). vm_compute. exact I.
  - discriminate.
  - discriminate.
  - vm_compute. reflexivity.
  - exists s'. apply Hrun. vm_compute. reflexivity.
Defined.

(** ** The interfaces offered by the wizard *)

Section InterfacesStep.
Context `{Const}.
Variable ARBridge : pydict → option pydict → outcome ARBridge_instance.

(** X16.  What [_async_get_network_interfaces] answers.  An exception of the
    constructor of the bridge is raised before the [try] and so propagates,
    with nothing logged.  When the bridge returns its labels and disconnects,
    the labels are the result, after exactly three calls.  When the labels
    were read but disconnecting raises, they are thrown away: the result is
    the default list, with the exception logged at debug level.  In no case
    is a dictionary object changed. *)
Theorem _async_get_network_interfaces_outcomes
    (configs : loc) (options : option loc) (s : state) :
  let c := heap s !!! configs in
  let o := match options with Some l => heap s !!! l | None => ∅ end in
  let after := _async_get_network_interfaces ARBridge configs options s in
  (∀ ex, ARBridge c (Some o) = Raise ex →
     after.1 = Raise ex ∧ logs after.2 = logs s
     ∧ calls after.2 = calls s ++ [call_ARBridge c (Some o)])
  ∧ (∀ api labels,
       ARBridge c (Some o) = Ok api →
       async_get_network_interfaces api = Ok labels →
       async_disconnect api = Ok tt →
       after.1 = Ok labels ∧ logs after.2 = logs s
       ∧ calls after.2 = calls s ++ [call_ARBridge c (Some o);
                                      call_async_get_network_interfaces;
                                      call_async_disconnect])
  ∧ (∀ api labels ex host,
       ARBridge c (Some o) = Ok api →
       async_get_network_interfaces api = Ok labels →
       async_disconnect api = Raise ex →
       c !! CONF_HOST = Some host →
       after.1 = Ok DELAULT_INTERFACES
       ∧ logs after.2 = logs s ++
           [Log DEBUG "Cannot get available network stat sensors for {}: {}"
              [FValue host; FExn ex]])
  ∧ heap after.2 = heap s.
Proof.
  intros c o after. subst after.
  unfold _async_get_network_interfaces, _LOGGER'.
  split; [|split; [|split]].
  - intros ex Hex. destruct options; exec; state_simpl; fold c; fold o;
      by rewrite Hex.
  - intros api labels Hapi Hget Hdis.
    destruct options; exec; state_simpl; fold c; fold o;
      rewrite Hapi, Hget, Hdis; state_simpl; by rewrite <- !app_assoc.
  - intros api labels ex host Hapi Hget Hdis Hhost.
    destruct options; exec; state_simpl; fold c; fold o;
      rewrite Hapi, Hget, Hdis; cbv beta iota; state_simpl; fold c;
      unfold getitem; by rewrite Hhost.
  - destruct options; exec; state_simpl; fold c; fold o.
    all: destruct (ARBridge c (Some o)) as [api|ex]; [|done].
    all: cbv beta iota; state_simpl.
    all: destruct (async_get_network_interfaces api) as [labels|ex];
      cbv beta iota; state_simpl.
    all: try (destruct (async_disconnect api) as [[]|ex']; cbv beta iota; state_simpl;
              [done|]).
    all: fold c; unfold getitem; destruct (c !! CONF_HOST); by state_simpl.
Qed.

(** X19.  With monitoring enabled, the 'interfaces' step given an input
    stores it into [self._options] and goes on.  Without an input it shows
    its form: the choices are exactly what [_async_get_network_interfaces]
    returned, taken as a set, and nothing is preselected; an exception of
    that coroutine is the exception of the step. *)
Theorem async_step_interfaces_monitor_enabled (s : state) :
  dict_get (heap s !!! _options s) CONF_ENABLE_MONITOR DEFAULT_ENABLE_MONITOR
  = VBool true →
  (∀ user_input, user_input ≠ ∅ →
     async_step_interfaces ARBridge (Some user_input) s
     = (Ok (Await_select_step (Some "interfaces") None),
        set_heap <[_options s := update (heap s !!! _options s) user_input]> s))
  ∧ (∀ user_input interfaces s',
       given user_input = false →
       _async_get_network_interfaces ARBridge (_configs s) (Some (_options s)) s
       = (Ok interfaces, s') →
       async_step_interfaces ARBridge user_input s
       = (Ok (Return (async_show_form "interfaces"
                        (interfaces_schema [] (list_to_set interfaces)) None)), s'))
  ∧ (∀ user_input ex s',
       given user_input = false →
       _async_get_network_interfaces ARBridge (_configs s) (Some (_options s)) s
       = (Raise ex, s') →
       async_step_interfaces ARBridge user_input s = (Raise ex, s')).
Proof.
  intros Hon. split; [|split].
  - intros user_input Hgiven.
    unfold async_step_interfaces, self_configs, self_options, given.
    rewrite bool_decide_true by done.
    do 4 unfold bind at 1. unfold read at 1. cbv beta iota.
    unfold bind at 1. rewrite Hon. unfold truthy at 1. exec. done.
  - intros user_input interfaces s' Hgiven Hget.
    unfold async_step_interfaces, self_configs, self_options. rewrite Hgiven.
    do 4 unfold bind at 1. unfold read at 1. cbv beta iota.
    unfold bind at 1. rewrite Hon. unfold truthy at 1, ret at 1. cbv beta iota.
    unfold bind at 1, read at 1. cbv beta iota.
    unfold bind at 1. rewrite Hget. cbv beta iota.
    unfold _create_form_interfaces, getitem, iterate.
    rewrite (lookup_insert_eq (M:=gmap string)). exec. done.
  - intros user_input ex s' Hgiven Hget.
    unfold async_step_interfaces, self_configs, self_options. rewrite Hgiven.
    do 4 unfold bind at 1. unfold read at 1. cbv beta iota.
    unfold bind at 1. rewrite Hon. unfold truthy at 1, ret at 1. cbv beta iota.
    unfold bind at 1, read at 1. cbv beta iota.
    unfold bind at 1. rewrite Hget. done.
Qed.
End InterfacesStep.

Lemma _async_get_network_interfaces_outcomes_witness :
  (@_async_get_network_interfaces sample_const (bridge_class sample_instance)
     1%positive (Some 2%positive) (sample_state sample_configs sample_options)).1
  = Ok ["WAN"; "WIRED"].
Proof.
  destruct (@_async_get_network_interfaces_outcomes sample_const
              (bridge_class sample_instance) 1%positive (Some 2%positive)
              (sample_state sample_configs sample_options))
    as (_ & Hlabels & _).
  destruct (Hlabels sample_instance ["WAN"; "WIRED"]) as [Hrun _];
    [reflexivity|reflexivity|reflexivity|exact Hrun].
Defined.

Lemma async_step_interfaces_monitor_enabled_witness :
  (@async_step_interfaces sample_const (bridge_class sample_instance) None
     (sample_state sample_configs sample_options)).1
  = Ok (Return (async_show_form "interfaces"
                  (@interfaces_schema sample_const [] {[ "WAN"; "WIRED" ]}) None)).
Proof.
  set (s := sample_state sample_configs sample_options).
  set (r := @_async_get_network_interfaces sample_const (bridge_class sample_instance)
              1%positive (Some 2%positive) s).
  destruct (@async_step_interfaces_monitor_enabled sample_const
              (bridge_class sample_instance) s) as (_ & Hform & _).
  - vm_compute. reflexivity.
  - rewrite (Hform None ["WAN"; "WIRED"] r.2); [|reflexivity|vm_compute; reflexivity].
    vm_compute. reflexivity.
Defined.

(** ** The chains of calls of the wizard are short *)

Section Chains.
Context `{Const}.
Variable ARBridge : pydict → option pydict → outcome ARBridge_instance.
Variable gethostbyname : value → outcome value.

Implicit Types (n : next) (k : nat).

Lemma settles_Return (r : FlowResult) (k : nat) : settles ARBridge gethostbyname k (Return r).
Proof. intros s fuel _. by destruct fuel, k. Qed.

Lemma settles_await (k : nat) (n : next) :
  (∀ r, n ≠ Return r) →
  (∀ s n' s', await_next ARBridge gethostbyname n s = (Ok n', s') → settles ARBridge gethostbyname k n') →
  settles ARBridge gethostbyname (S k) n.
Proof.
  intros Hn Hnext s fuel Hfuel.
  destruct fuel as [|fuel]; [lia|].
  assert (Hrun : ∀ fuel', run ARBridge gethostbyname (S fuel') n s
                 = bind (await_next ARBridge gethostbyname n)
                     (run ARBridge gethostbyname fuel') s).
  { intros fuel'. destruct n as [r| |]; [by destruct (Hn r)|done|done]. }
  rewrite !Hrun. unfold bind. specialize (Hnext s).
  destruct (await_next ARBridge gethostbyname n s) as [[n'|ex] s']; [|done].
  apply (Hnext n' s' eq_refl s'). lia.
Qed.

Lemma settles_mono (k k' : nat) (n : next) :
  settles ARBridge gethostbyname k n → (k ≤ k')%nat → settles ARBridge gethostbyname k' n.
Proof.
  intros Hk Hle s fuel Hfuel.
  destruct (Hk s k' Hle) as [-> Hnone].
  split; [|done]. apply Hk. lia.
Qed.

(** What a step hands over to. *)
Lemma call_step_shape (f : step) (user_input : option pydict) (errors : option loc)
    (s s' : state) (n : next) :
  call_step ARBridge gethostbyname f user_input errors s = (Ok n, s') →
  (∃ r, n = Return r)
  ∨ (f = step_user ∧ n = Await_step step_discovery user_input None)
  ∨ (∃ id e, n = Await_select_step (Some id) e
       ∧ (f, id) ∈ [ (step_discovery, "discovery"); (step_credentials, "credentials");
                     (step_device, "device");
                     (step_operation_mode, "operation_mode");
                     (step_times, "times"); (step_interfaces, "interfaces");
                     (step_name, "name") ]
       ∧ (given user_input = false → f = step_interfaces)).
Proof.
  intros Hrun.
  destruct f, errors as [e|]; cbn [call_step] in Hrun;
    unfold async_step_user, async_step_discovery, async_step_credentials,
      async_step_device, async_step_operation_mode, async_step_times,
      async_step_interfaces, async_step_name, async_step_finish,
      _create_form_interfaces, self_configs, self_options, async_set_unique_id in Hrun;
    revert Hrun; exec.
  all: try discriminate.
  all: intros Hrun.
  all: repeat (case_match; simplify_eq).
  all: simplify_eq.
  all: first
    [ by (left; eauto)
    | by (right; left)
    | right; right; eexists _, _; split; [reflexivity|]; split;
      [ apply list_elem_of_In; simpl; tauto
      | first [done | congruence | by intros Hg; rewrite Hg in *] ] ].
Qed.

(** What [async_select_step] hands over to. *)
Lemma async_select_step_shape (last_step : option string) (errors : option loc)
    (s s' : state) (n : next) :
  async_select_step last_step errors s = (Ok n, s') →
  ∃ id f e, last_step = Some id ∧ n = Await_step f None e
            ∧ (_steps !! id = Some f ∨ _steps !! (id +:+ "_error") = Some f).
Proof.
  unfold async_select_step, getitem. intros Hrun.
  destruct last_step as [id|], errors as [l|]; revert Hrun; exec; try done.
  all: intros Hrun; repeat (case_match; simplify_eq); eauto 10.
Qed.

Lemma _steps_values (id : string) (f : step) :
  _steps !! id = Some f ∨ _steps !! (id +:+ "_error") = Some f →
  f ≠ step_user ∧ f ≠ step_discovery
  ∧ (id = "interfaces" → f = step_name)
  ∧ (id = "discovery" → f = step_credentials).
Proof.
  intros [Hf|Hf]; apply _steps_entries in Hf;
    repeat (apply elem_of_cons in Hf as [[= Hid ->]|Hf];
            [repeat split; try done; intros ->; try done;
             by apply (f_equal String.length) in Hid|]);
    by apply elem_of_nil in Hf.
Qed.

Lemma settles_step_without_input (f : step) (errors : option loc) :
  f ≠ step_user → f ≠ step_interfaces →
  settles ARBridge gethostbyname 1 (Await_step f None errors).
Proof.
  intros Hu Hi. apply settles_await; [done|].
  intros s n' s' Hstep. cbn [await_next] in Hstep.
  apply call_step_shape in Hstep as [[r ->]|[[-> _]|(id & e & -> & _ & Hf)]].
  - apply settles_Return.
  - done.
  - by destruct Hi, Hf.
Qed.

Lemma settles_select_own (f : step) (id : string) (errors : option loc) :
  f = step_interfaces ∧ id = "interfaces" ∨ f = step_discovery ∧ id = "discovery" →
  settles ARBridge gethostbyname 2 (Await_select_step (Some id) errors).
Proof.
  intros Hid. apply settles_await; [done|].
  intros s n' s' Hstep. cbn [await_next] in Hstep.
  apply async_select_step_shape in Hstep as (id' & g & e & [= <-] & -> & Hg).
  apply _steps_values in Hg as (_ & _ & Hname & Hcredentials).
  apply settles_step_without_input.
  - destruct Hid as [[_ Hid]|[_ Hid]];
      [rewrite (Hname Hid)|rewrite (Hcredentials Hid)]; done.
  - destruct Hid as [[_ Hid]|[_ Hid]];
      [rewrite (Hname Hid)|rewrite (Hcredentials Hid)]; done.
Qed.

Lemma settles_step_own (f : step) (user_input : option pydict)
    (errors : option loc) :
  f = step_interfaces ∨ f = step_discovery →
  settles ARBridge gethostbyname 3 (Await_step f user_input errors).
Proof.
  intros Hf. apply settles_await; [done|].
  intros s n' s' Hstep. cbn [await_next] in Hstep.
  apply call_step_shape in Hstep as [[r ->]|[[-> _]|(id & e & -> & Hid & _)]].
  - apply settles_Return.
  - by destruct Hf.
  - apply (settles_select_own f).
    destruct Hf as [-> | ->]; [left|right]; split; try done.
    all: repeat (apply elem_of_cons in Hid as [Heq|Hid]; [by simplify_eq|]).
    all: by apply elem_of_nil in Hid.
Qed.

Lemma settles_select (last_step : option string) (errors : option loc) :
  settles ARBridge gethostbyname 4 (Await_select_step last_step errors).
Proof.
  apply settles_await; [done|].
  intros s n' s' Hstep. cbn [await_next] in Hstep.
  apply async_select_step_shape in Hstep as (id & g & e & -> & -> & Hg).
  apply _steps_values in Hg as (Huser & _ & _ & _).
  destruct (decide (g = step_interfaces)) as [->|Hi].
  - apply settles_step_own. by left.
  - apply (settles_mono 1%nat); [by apply settles_step_without_input|lia].
Qed.

(** X14.  A call of a step by the platform is answered after at most five
    awaited calls of the handler's own coroutines, whatever the bridge and
    the resolver answer: with five or more, the result is the same, and it
    is a form, an entry or an exception. *)
Theorem run_settles_within_five (n : next) (s : state) (fuel : nat) :
  (5 ≤ fuel)%nat →
  run ARBridge gethostbyname fuel n s = run ARBridge gethostbyname 5 n s
  ∧ (run ARBridge gethostbyname 5 n s).1 ≠ Ok None.
Proof.
  revert s fuel. change (settles ARBridge gethostbyname 5 n).
  destruct n as [r|last_step errors|f user_input errors].
  - apply settles_Return.
  - apply (settles_mono 4%nat); [apply settles_select|lia].
  - apply settles_await; [done|].
    intros s n' s' Hstep. cbn [await_next] in Hstep.
    apply call_step_shape in Hstep as [[r ->]|[[-> ->]|(id & e & -> & _)]].
    + apply settles_Return.
    + apply (settles_mono 3%nat); [apply settles_step_own; by right|lia].
    + apply settles_select.
Qed.
End Chains.

Lemma run_settles_within_five_witness :
  let n := Await_step step_user (Some host_options) None in
  let s := sample_state ∅ sample_options in
  @run sample_const (bridge_class sample_instance) sample_gethostbyname 7 n s
  = @run sample_const (bridge_class sample_instance) sample_gethostbyname 5 n s
  ∧ (@run sample_const (bridge_class sample_instance) sample_gethostbyname 5 n s).1
    ≠ Ok None.
Proof.
  intros n s.
  apply (@run_settles_within_five sample_const (bridge_class sample_instance)
           sample_gethostbyname n s 7). lia.
Defined.

(** ** The 'credentials' step with a router that answers *)

Section CredentialsSuccess.
Context `{Const}.
Variable ARBridge : pydict → option pydict → outcome ARBridge_instance.
Variable gethostbyname : value → outcome value.

(** X17.  Credentials that work.  When the bridge created on the merged
    settings with the parameters of the simplified setup connects, cleans
    up, reports its serial and disconnects, the 'credentials' step given an
    input ends in the form of the 'operation_mode' step, with the serial as
    the unique id of the flow.  [self._options] then holds the input over
    the old options and, for every key that is not a key of
    [self._configs], the parameters of the simplified setup over these;
    [self._configs] itself is unchanged. *)
Theorem async_step_credentials_success
    (user_input : pydict) (s : state) (b : bool) (host serial : value)
    (parameters : pydict) (api : ARBridge_instance) :
  let c : pydict := heap s !!! _configs s in
  let o : pydict := update (heap s !!! _options s) user_input in
  user_input ≠ ∅ →
  allocated s (_configs s) → allocated s (_options s) →
  _configs s ≠ _options s →
  update c o !! CONF_HOST = Some host →
  update c o !! CONF_SSL = Some (VBool b) →
  SIMPLE_SETUP_PARAMETERS !! (if b then "ssl" else "no_ssl") = Some parameters →
  ARBridge (update (update c o) parameters) None = Ok api →
  async_connect api = Ok tt → async_clean api = Ok tt →
  get_serial api = Ok serial → async_disconnect api = Ok tt →
  ∃ s',
    run ARBridge gethostbyname 3
      (Await_step step_credentials (Some user_input) None) s
    = (Ok (Some (async_show_form "operation_mode"
                   (_create_form_operation_mode (heap s' !!! _options s)) None)), s')
    ∧ unique_id s' = Some serial
    ∧ (∀ k, (heap s' !!! _options s : pydict) !! k
            = match c !! k with
              | Some _ => o !! k
              | None => update o parameters !! k
              end)
    ∧ heap s' !! _configs s = heap s !! _configs s.
Proof.
  intros c o Hgiven Hac Hao Hne Hhost Hssl Hparams Hapi Hconn Hclean Hserial Hdisc.
  unfold allocated in Hac, Hao.
  set (s0 := credentials_submitted user_input s).
  assert (Hnext0 : next_loc s0 = Pos.succ (next_loc s)) by done.
  assert (Hc0 : heap s0 !!! _configs s = c).
  { subst s0. unfold credentials_submitted, options_updated. state_simpl.
    rewrite lookup_total_insert_ne by done.
    rewrite lookup_total_insert_ne by lia. done. }
  assert (Ho0 : heap s0 !!! _options s = o).
  { subst s0. unfold credentials_submitted, options_updated. state_simpl.
    rewrite lookup_total_insert_eq.
    rewrite lookup_total_insert_ne by lia. done. }
  destruct (_async_check_connection_returns_copy ARBridge (_configs s) (_options s)
              true b s0 host serial parameters api)
    as (s1 & Hcheck & Hcopy & _ & Hframe & Hcfg1 & Hopt1 & _).
  { unfold allocated. rewrite Hnext0. lia. }
  { unfold allocated. rewrite Hnext0. lia. }
  { unfold merged. by rewrite Hc0, Ho0. }
  { intros _. unfold merged. by rewrite Hc0, Ho0. }
  { unfold merged. by rewrite Hc0, Ho0. }
  all: try done.
  unfold merged in Hcopy. rewrite Hc0, Ho0 in Hcopy.
  set (result := <[ "configs" := VDict (next_loc s0) ]> {[ "unique_id" := serial ]})
    in Hcheck.
  assert (Hr_err : (result : pydict) !! "errors" = None) by done.
  assert (Hr_cfg : (result : pydict) !! "configs" = Some (VDict (next_loc s0))).
  { apply lookup_insert_eq. }
  assert (Hr_id : (result : pydict) !! "unique_id" = Some serial).
  { subst result. rewrite lookup_insert_ne by done.
    apply (lookup_singleton_eq (M:=gmap string)). }
  clearbody result.
  assert (Ho1 : heap s1 !!! _options s = o).
  { unfold lookup_total, map_lookup_total. rewrite Hframe by (rewrite Hnext0; lia).
    exact Ho0. }
  set (found := heap s1 !!! next_loc s0 : pydict) in *.
  set (s3 := set_unique_id serial
               (set_heap <[_options s := update o found]> s1)).
  assert (Hstep : async_step_credentials ARBridge (Some user_input) s
                  = (Ok (Await_select_step (Some "credentials")
                           (Some (next_loc s))), s3)).
  { unfold async_step_credentials, given, self_configs, self_options,
      async_set_unique_id.
    rewrite bool_decide_true by done.
    unfold bind at 1. unfold new_dict at 1.
    do 3 unfold bind at 1. state_simpl.
    do 2 unfold bind at 1. unfold mutate at 1, modify. state_simpl.
    unfold bind at 1.
    match goal with
    | |- context [_async_check_connection _ _ _ _ ?st] =>
      change st with s0
    end.
    rewrite Hcheck. unfold contains, getitem. rewrite Hr_err, Hr_cfg, Hr_id.
    rewrite bool_decide_false by (by intros [? ?]).
    exec. state_simpl. rewrite ?Hopt1. fold found. rewrite Ho1. done. }
  assert (Herrors : heap s3 !!! next_loc s = (∅ : pydict)).
  { subst s3. state_simpl. rewrite lookup_total_insert_ne by lia.
    apply (credentials_errors_fresh ARBridge user_input s (Ok result) s1);
      [exact Hao|exact Hcheck]. }
  assert (Hselect : async_select_step (Some "credentials") (Some (next_loc s)) s3
                    = (Ok (Await_step step_operation_mode None None), s3)).
  { apply async_select_step_next; [done|]. cbn [default from_option id].
    by rewrite Herrors. }
  exists s3. split_and!.
  - cbn [run]. unfold bind at 1. cbn [await_next call_step]. rewrite Hstep.
    cbn [run]. unfold bind at 1. cbn [await_next].
    rewrite Hselect. cbn [run]. unfold bind at 1. cbn [await_next call_step].
    unfold async_step_operation_mode, given, self_options. exec.
    subst s3. state_simpl. by rewrite Hopt1.
  - done.
  - intros k. subst s3. state_simpl. rewrite lookup_total_insert_eq.
    unfold update at 1. rewrite lookup_union. subst found. rewrite Hcopy.
    unfold update. rewrite !lookup_union.
    destruct (c !! k), (o !! k), (parameters !! k); done.
  - subst s3. state_simpl. rewrite lookup_insert_ne by done.
    rewrite Hframe by (rewrite Hnext0; lia).
    subst s0. unfold credentials_submitted, options_updated. state_simpl.
    rewrite lookup_insert_ne by done. rewrite lookup_insert_ne by lia. done.
Qed.
End CredentialsSuccess.

Lemma async_step_credentials_success_witness :
  ∃ s', @run sample_const (bridge_class sample_instance) sample_gethostbyname 3
          (Await_step step_credentials (Some sample_options) None)
          (sample_state sample_configs ∅)
        = (Ok (Some (async_show_form "operation_mode"
                       (@_create_form_operation_mode sample_const
                          (heap s' !!! 2%positive)) None)), s')
        ∧ unique_id s' = Some (VStr "SN0001")
        ∧ (heap s' !!! 2%positive : pydict) !! "port" = Some (VInt 8443)
        ∧ (heap s' !!! 2%positive : pydict) !! "host" = None.
Proof.
  destruct (@async_step_credentials_success sample_const
              (bridge_class sample_instance) sample_gethostbyname sample_options
              (sample_state sample_configs ∅) true (VStr "router.asus.com")
              (VStr "SN0001")
              {[ CONF_PORT := VInt 8443; CONF_VERIFY_SSL := VBool false ]}
              sample_instance)
    as (s' & Hrun & Hid & Hoptions & _).
  - apply (bool_decide_unpack _). vm_compute. exact I.
  - reflexivity.
  - reflexivity.
  - discriminate.
  - vm_compute. reflexivity.
  - vm_compute. reflexivity.
  - vm_compute. reflexivity.
  - reflexivity.
  - reflexivity.
  - reflexivity.
  - reflexivity.
  - reflexivity.
  - exists s'. split; [exact Hrun|]. split; [exact Hid|].
    split; (etransitivity; [apply Hoptions|]); vm_compute; reflexivity.
Defined.

(** ** The options flow *)

Ltac handler_simpl :=
  cbn [OptionsFlowHandler.store OptionsFlowHandler.config_entry
       OptionsFlowHandler._selection OptionsFlowHandler._host
       OptionsFlowHandler.select_step_errors OptionsFlowHandler.set_store] in *;
  state_simpl.

Ltac handler_exec :=
  unfold OptionsFlowHandler.on_store, OptionsFlowHandler.self_selection,
    OptionsFlowHandler.self_configs, OptionsFlowHandler.self_options;
  exec; handler_simpl.

Section OptionsFlow.
Context `{Const}.
Variable ARBridge : pydict → option pydict → outcome ARBridge_instance.
Implicit Types (self : OptionsFlowHandler.handler) (user_input : option pydict).

(** A new and empty dictionary, for [errors = dict()]. *)
Lemma options_steps_entries (last_step : string) (f : OptionsFlowHandler.step) :
  OptionsFlowHandler.steps_table !! last_step = Some f →
  (last_step, f) ∈ OptionsFlowHandler._steps.
Proof. intros Hf. by apply elem_of_list_to_map_2 in Hf. Qed.

Lemma options_select_step_next (last_step : string) (f : OptionsFlowHandler.step)
    (errors : option loc) self :
  OptionsFlowHandler.steps_table !! last_step = Some f →
  _check_errors (heap (OptionsFlowHandler.store self)
                   !!! default (OptionsFlowHandler.select_step_errors self) errors)
  = false →
  OptionsFlowHandler.async_select_step (Some last_step) errors self
  = (Ok (OptionsFlowHandler.Await_step f None None), self).
Proof.
  intros Hf He. unfold OptionsFlowHandler.async_select_step.
  assert (last_step ≠ "") by (by intros ->).
  destruct self as [s entry sel host dflt].
  destruct errors as [l|]; handler_exec; simpl in He;
    (rewrite bool_decide_true by done); unfold contains, getitem;
    rewrite Hf; (rewrite bool_decide_true by eauto); cbv beta iota;
    handler_simpl; by rewrite He.
Qed.

Lemma options_selected_false (step_id : string) self :
  not_selected (heap (OptionsFlowHandler.store self)
                  !!! OptionsFlowHandler._selection self) step_id →
  OptionsFlowHandler.selected step_id self = (Ok false, self).
Proof.
  unfold not_selected. intros Hsel. unfold OptionsFlowHandler.selected.
  destruct self as [s entry sel host dflt]. handler_exec.
  destruct ((heap s !!! sel : pydict) !! step_id) as [v|]; [|done].
  simpl in Hsel. by rewrite Hsel.
Qed.

Lemma with_new_dict_lookup (d : pydict) self (l : loc) :
  allocated (OptionsFlowHandler.store self) l →
  heap (OptionsFlowHandler.store (with_new_dict d self)) !!! l
  = (heap (OptionsFlowHandler.store self) !!! l : pydict).
Proof.
  unfold allocated. intros Hl. destruct self as [s entry sel host dflt].
  unfold with_new_dict. handler_simpl. apply lookup_total_insert_ne. lia.
Qed.

Lemma options_step_skipped (f : OptionsFlowHandler.step) (step_id : string)
    user_input self :
  (f, step_id) ∈ optional_steps →
  allocated (OptionsFlowHandler.store self) (OptionsFlowHandler._selection self) →
  not_selected (heap (OptionsFlowHandler.store self)
                  !!! OptionsFlowHandler._selection self) step_id →
  OptionsFlowHandler.call_step ARBridge f user_input None self
  = (Ok (OptionsFlowHandler.Await_select_step (Some step_id) None),
     if decide (f = OptionsFlowHandler.step_device) then with_new_dict ∅ self
     else self).
Proof.
  intros Hf Halloc Hsel. unfold optional_steps in Hf.
  repeat (apply elem_of_cons in Hf as [[= -> ->]|Hf]);
    [| | | |by apply elem_of_nil in Hf]; cbn [OptionsFlowHandler.call_step].
  - unfold OptionsFlowHandler.async_step_device.
    unfold bind at 1.
    assert (Hnew : OptionsFlowHandler.on_store (new_dict ∅) self
                   = (Ok (next_loc (OptionsFlowHandler.store self)),
                      with_new_dict ∅ self)) by (by destruct self).
    rewrite Hnew. unfold bind at 1.
    rewrite options_selected_false; [done|].
    by rewrite with_new_dict_lookup.
  - unfold OptionsFlowHandler.async_step_operation_mode. unfold bind at 1.
    by rewrite options_selected_false.
  - unfold OptionsFlowHandler.async_step_times. unfold bind at 1.
    by rewrite options_selected_false.
  - unfold OptionsFlowHandler.async_step_interfaces. unfold bind at 1.
    by rewrite options_selected_false.
Qed.

(** X20.  A step of the options flow that was not selected in the 'options'
    form (its name is missing from [self._selection], or is there with
    [False]) is left out whatever it is given: it hands over to
    [async_select_step] with its own name, asks nothing of the bridge, logs
    nothing and changes no dictionary that exists; an input is dropped. *)
Theorem options_step_not_selected (f : OptionsFlowHandler.step) (step_id : string)
    user_input self :
  (f, step_id) ∈ optional_steps →
  allocated (OptionsFlowHandler.store self) (OptionsFlowHandler._selection self) →
  not_selected (heap (OptionsFlowHandler.store self)
                  !!! OptionsFlowHandler._selection self) step_id →
  ∃ self',
    OptionsFlowHandler.call_step ARBridge f user_input None self
    = (Ok (OptionsFlowHandler.Await_select_step (Some step_id) None), self')
    ∧ (∀ l, allocated (OptionsFlowHandler.store self) l →
         heap (OptionsFlowHandler.store self') !! l
         = heap (OptionsFlowHandler.store self) !! l)
    ∧ calls (OptionsFlowHandler.store self') = calls (OptionsFlowHandler.store self)
    ∧ logs (OptionsFlowHandler.store self') = logs (OptionsFlowHandler.store self).
Proof.
  intros Hf Halloc Hsel. eexists. split; [by apply options_step_skipped|].
  destruct (decide (f = OptionsFlowHandler.step_device)); [|done].
  destruct self as [s entry sel host dflt]. unfold with_new_dict, allocated.
  handler_simpl. split_and!; [|done|done].
  intros l Hl. apply lookup_insert_ne. lia.
Qed.

Lemma with_new_dict_fields (d : pydict) self :
  OptionsFlowHandler._selection (with_new_dict d self)
  = OptionsFlowHandler._selection self
  ∧ OptionsFlowHandler.select_step_errors (with_new_dict d self)
    = OptionsFlowHandler.select_step_errors self
  ∧ OptionsFlowHandler.config_entry (with_new_dict d self)
    = OptionsFlowHandler.config_entry self
  ∧ _options (OptionsFlowHandler.store (with_new_dict d self))
    = _options (OptionsFlowHandler.store self)
  ∧ _configs (OptionsFlowHandler.store (with_new_dict d self))
    = _configs (OptionsFlowHandler.store self)
  ∧ next_loc (OptionsFlowHandler.store (with_new_dict d self))
    = Pos.succ (next_loc (OptionsFlowHandler.store self))
  ∧ calls (OptionsFlowHandler.store (with_new_dict d self))
    = calls (OptionsFlowHandler.store self)
  ∧ logs (OptionsFlowHandler.store (with_new_dict d self))
    = logs (OptionsFlowHandler.store self).
Proof. by destruct self. Qed.

Lemma with_new_dict_heap (d : pydict) self :
  heap (OptionsFlowHandler.store (with_new_dict d self))
  = <[next_loc (OptionsFlowHandler.store self) := d]>
      (heap (OptionsFlowHandler.store self)).
Proof. by destruct self. Qed.

(** X21.  When the 'options' form is submitted with nothing selected, the
    four optional steps are all left out and the flow shows the
    'confirmation' form, with the options as they were, a new and empty
    [errors], and the bridge not asked for anything. *)
Theorem options_nothing_selected (user_input : pydict) self :
  let s := OptionsFlowHandler.store self in
  let selection := update (heap s !!! OptionsFlowHandler._selection self) user_input in
  user_input ≠ ∅ →
  (∀ step_id, step_id ∈ optional_steps.*2 → not_selected selection step_id) →
  allocated s (OptionsFlowHandler._selection self) →
  allocated s (_options s) →
  allocated s (OptionsFlowHandler.select_step_errors self) →
  OptionsFlowHandler._selection self ≠ _options s →
  OptionsFlowHandler.select_step_errors self ≠ OptionsFlowHandler._selection self →
  _check_errors (heap s !!! OptionsFlowHandler.select_step_errors self) = false →
  ∃ self',
    OptionsFlowHandler.run ARBridge 11
      (OptionsFlowHandler.Await_step OptionsFlowHandler.step_options
         (Some user_input) None) self
    = (Ok (Some (OptionsFlowHandler.async_show_form "confirmation"
                   (_create_form_confirmation (heap s !!! _options s))
                   (Some (Pos.succ (next_loc s))))), self')
    ∧ heap (OptionsFlowHandler.store self') !! _options s = heap s !! _options s
    ∧ heap (OptionsFlowHandler.store self') !! Pos.succ (next_loc s) = Some ∅
    ∧ calls (OptionsFlowHandler.store self') = calls s.
Proof.
  intros s selection Hgiven Hnone Hsel Hopt Herr Hso Hes Hclean.
  unfold allocated in Hsel, Hopt, Herr.
  set (selfA := OptionsFlowHandler.set_store
                  (set_heap <[OptionsFlowHandler._selection self := selection]> s)
                  self).
  set (selfB := with_new_dict ∅ selfA).
  set (selfC := with_new_dict ∅ selfB).
  assert (Hoptions : OptionsFlowHandler.async_step_options (Some user_input) self
                     = (Ok (OptionsFlowHandler.Await_select_step (Some "options") None),
                        selfA)).
  { unfold OptionsFlowHandler.async_step_options, given.
    rewrite bool_decide_true by done. destruct self. handler_exec. done. }
  assert (HheapA : heap (OptionsFlowHandler.store selfA)
                   = <[OptionsFlowHandler._selection self := selection]> (heap s))
    by (by destruct self).
  assert (HfieldsA : OptionsFlowHandler._selection selfA
                     = OptionsFlowHandler._selection self
                     ∧ OptionsFlowHandler.select_step_errors selfA
                       = OptionsFlowHandler.select_step_errors self
                     ∧ _options (OptionsFlowHandler.store selfA) = _options s
                     ∧ next_loc (OptionsFlowHandler.store selfA) = next_loc s
                     ∧ calls (OptionsFlowHandler.store selfA) = calls s)
    by (by destruct self).
  destruct HfieldsA as (HAsel & HAerr & HAopt & HAnext & HAcalls).
  destruct (with_new_dict_fields ∅ selfA)
    as (HBsel & HBerr & _ & HBopt & _ & HBnext & HBcalls & _).
  pose proof (with_new_dict_heap ∅ selfA) as HheapB.
  fold selfB in HBsel, HBerr, HBopt, HBnext, HBcalls, HheapB.
  destruct (with_new_dict_fields ∅ selfB)
    as (_ & _ & _ & HCopt & _ & _ & HCcalls & _).
  pose proof (with_new_dict_heap ∅ selfB) as HheapC.
  fold selfC in HCopt, HCcalls, HheapC.
  rewrite HBnext, HAnext, HheapB, HAnext, HheapA in HheapC.
  rewrite HAnext, HheapA in HheapB.
  assert (HselA : heap (OptionsFlowHandler.store selfA)
                    !!! OptionsFlowHandler._selection selfA = selection).
  { rewrite HheapA, HAsel. apply lookup_total_insert_eq. }
  assert (HselB : heap (OptionsFlowHandler.store selfB)
                    !!! OptionsFlowHandler._selection selfB = selection).
  { rewrite HheapB, HBsel, HAsel. rewrite lookup_total_insert_ne by lia.
    apply lookup_total_insert_eq. }
  assert (HerrA : heap (OptionsFlowHandler.store selfA)
                    !!! OptionsFlowHandler.select_step_errors selfA
                  = (heap s !!! OptionsFlowHandler.select_step_errors self : pydict)).
  { rewrite HheapA, HAerr. by apply lookup_total_insert_ne. }
  assert (HerrB : heap (OptionsFlowHandler.store selfB)
                    !!! OptionsFlowHandler.select_step_errors selfB
                  = (heap s !!! OptionsFlowHandler.select_step_errors self : pydict)).
  { rewrite HheapB, HBerr, HAerr. rewrite lookup_total_insert_ne by lia.
    by apply lookup_total_insert_ne. }
  assert (Hselect : ∀ last_step f self0,
            OptionsFlowHandler.steps_table !! last_step = Some f →
            heap (OptionsFlowHandler.store self0)
              !!! OptionsFlowHandler.select_step_errors self0
            = (heap s !!! OptionsFlowHandler.select_step_errors self : pydict) →
            OptionsFlowHandler.async_select_step (Some last_step) None self0
            = (Ok (OptionsFlowHandler.Await_step f None None), self0)).
  { intros last_step f self0 Hf Hself0. apply options_select_step_next; [done|].
    cbn [default from_option id]. by rewrite Hself0. }
  assert (Hskip : ∀ f step_id,
            (f, step_id) ∈ optional_steps →
            f ≠ OptionsFlowHandler.step_device →
            OptionsFlowHandler.call_step ARBridge f None None selfB
            = (Ok (OptionsFlowHandler.Await_select_step (Some step_id) None), selfB)).
  { intros f step_id Hf Hne.
    rewrite (options_step_skipped f step_id); [by rewrite decide_False|done| |].
    - unfold allocated. rewrite HBsel, HBnext, HAsel, HAnext. lia.
    - rewrite HselB. apply Hnone. apply list_elem_of_fmap. by exists (f, step_id). }
  assert (Hdevice : OptionsFlowHandler.call_step ARBridge
                      OptionsFlowHandler.step_device None None selfA
                    = (Ok (OptionsFlowHandler.Await_select_step (Some "device") None),
                       selfB)).
  { rewrite (options_step_skipped _ "device"); [done| | |].
    - unfold optional_steps. apply list_elem_of_In. simpl. tauto.
    - unfold allocated. rewrite HAsel, HAnext. lia.
    - rewrite HselA. apply Hnone. apply list_elem_of_In. simpl. tauto. }
  assert (Hconfirmation : OptionsFlowHandler.call_step ARBridge
                            OptionsFlowHandler.step_confirmation None None selfB
                          = (Ok (OptionsFlowHandler.Return
                                   (OptionsFlowHandler.async_show_form "confirmation"
                                      (_create_form_confirmation (heap s !!! _options s))
                                      (Some (Pos.succ (next_loc s))))), selfC)).
  { cbn [OptionsFlowHandler.call_step].
    unfold OptionsFlowHandler.async_step_confirmation, given.
    unfold bind at 1.
    assert (Hnew : OptionsFlowHandler.on_store (new_dict ∅) selfB
                   = (Ok (next_loc (OptionsFlowHandler.store selfB)), selfC))
      by (by destruct selfB).
    rewrite Hnew, HBnext, HAnext. handler_exec.
    rewrite HCopt, HBopt, HAopt, HheapC.
    rewrite !lookup_total_insert_ne by lia.
    by destruct selfC. }
  exists selfC. split.
  - cbn [OptionsFlowHandler.run]. unfold bind at 1.
    cbn [OptionsFlowHandler.await_next OptionsFlowHandler.call_step].
    rewrite Hoptions.
    cbn [OptionsFlowHandler.run]. unfold bind at 1. cbn [OptionsFlowHandler.await_next].
    rewrite (Hselect "options" OptionsFlowHandler.step_device) by done.
    cbn [OptionsFlowHandler.run]. unfold bind at 1. cbn [OptionsFlowHandler.await_next].
    rewrite Hdevice.
    cbn [OptionsFlowHandler.run]. unfold bind at 1. cbn [OptionsFlowHandler.await_next].
    rewrite (Hselect "device" OptionsFlowHandler.step_operation_mode) by done.
    cbn [OptionsFlowHandler.run]. unfold bind at 1. cbn [OptionsFlowHandler.await_next].
    rewrite (Hskip _ "operation_mode")
      by (try done; unfold optional_steps; apply list_elem_of_In; simpl; tauto).
    cbn [OptionsFlowHandler.run]. unfold bind at 1. cbn [OptionsFlowHandler.await_next].
    rewrite (Hselect "operation_mode" OptionsFlowHandler.step_times) by done.
    cbn [OptionsFlowHandler.run]. unfold bind at 1. cbn [OptionsFlowHandler.await_next].
    rewrite (Hskip _ "times")
      by (try done; unfold optional_steps; apply list_elem_of_In; simpl; tauto).
    cbn [OptionsFlowHandler.run]. unfold bind at 1. cbn [OptionsFlowHandler.await_next].
    rewrite (Hselect "times" OptionsFlowHandler.step_interfaces) by done.
    cbn [OptionsFlowHandler.run]. unfold bind at 1. cbn [OptionsFlowHandler.await_next].
    rewrite (Hskip _ "interfaces")
      by (try done; unfold optional_steps; apply list_elem_of_In; simpl; tauto).
    cbn [OptionsFlowHandler.run]. unfold bind at 1. cbn [OptionsFlowHandler.await_next].
    rewrite (Hselect "interfaces" OptionsFlowHandler.step_confirmation) by done.
    cbn [OptionsFlowHandler.run]. unfold bind at 1. cbn [OptionsFlowHandler.await_next].
    rewrite Hconfirmation. done.
  - rewrite HCcalls, HBcalls, HAcalls, HheapC. split_and!; [| |done].
    + by rewrite !lookup_insert_ne by lia.
    + apply lookup_insert_eq.
Qed.

Lemma options_selected_true (step_id : string) self :
  ¬ not_selected (heap (OptionsFlowHandler.store self)
                    !!! OptionsFlowHandler._selection self) step_id →
  OptionsFlowHandler.selected step_id self = (Ok true, self).
Proof.
  unfold not_selected. intros Hsel. unfold OptionsFlowHandler.selected.
  destruct self as [s entry sel host dflt]. handler_exec.
  destruct ((heap s !!! sel : pydict) !! step_id) as [v|]; [|done].
  simpl in Hsel. by destruct (eq_False v).
Qed.

(** X22.  The 'confirmation' step.  An input whose [CONF_CONFIRM] entry
    equals [True] ends the flow: the entry is created with the title of the
    config entry and [self._options] as its data.  Any other input shows the
    form again, filled with the input, with the error 'not_confirmed' in a
    new [errors] dictionary.  Nothing else is changed either way. *)
Theorem options_confirmation (user_input : pydict) self :
  let s := OptionsFlowHandler.store self in
  user_input ≠ ∅ →
  allocated s (OptionsFlowHandler.select_step_errors self) →
  _check_errors (heap s !!! OptionsFlowHandler.select_step_errors self) = false →
  (from_option eq_True false (user_input !! CONF_CONFIRM) = true →
   OptionsFlowHandler.run ARBridge 3
     (OptionsFlowHandler.Await_step OptionsFlowHandler.step_confirmation
        (Some user_input) None) self
   = (Ok (Some (OptionsFlowHandler.async_create_entry
                  (OptionsFlowHandler.title (OptionsFlowHandler.config_entry self))
                  (_options s))),
      with_new_dict ∅ self))
  ∧ (from_option eq_True false (user_input !! CONF_CONFIRM) = false →
     OptionsFlowHandler.call_step ARBridge OptionsFlowHandler.step_confirmation
       (Some user_input) None self
     = (Ok (OptionsFlowHandler.Return
              (OptionsFlowHandler.async_show_form "confirmation"
                 (_create_form_confirmation user_input) (Some (next_loc s)))),
        with_new_dict {[ "base" := VStr "not_confirmed" ]} self)).
Proof.
  intros s Hgiven Herr Hclean. unfold allocated in Herr. split.
  - intros Hconfirm.
    assert (Hstep : OptionsFlowHandler.call_step ARBridge
                      OptionsFlowHandler.step_confirmation (Some user_input) None self
                    = (Ok (OptionsFlowHandler.Await_select_step (Some "confirmation")
                             None), with_new_dict ∅ self)).
    { cbn [OptionsFlowHandler.call_step].
      unfold OptionsFlowHandler.async_step_confirmation, given.
      rewrite bool_decide_true by done. cbn [default from_option id].
      unfold contains.
      destruct (user_input !! CONF_CONFIRM) as [v|] eqn:Hv; [|done].
      rewrite bool_decide_true by eauto. cbn [from_option] in Hconfirm |- *.
      rewrite Hconfirm. destruct self. handler_exec. done. }
    cbn [OptionsFlowHandler.run]. unfold bind at 1. cbn [OptionsFlowHandler.await_next].
    rewrite Hstep.
    cbn [OptionsFlowHandler.run]. unfold bind at 1. cbn [OptionsFlowHandler.await_next].
    rewrite (options_select_step_next "confirmation" OptionsFlowHandler.step_finish);
      [|done|].
    + cbn [OptionsFlowHandler.run]. unfold bind at 1.
      cbn [OptionsFlowHandler.await_next OptionsFlowHandler.call_step].
      unfold OptionsFlowHandler.async_step_finish. by destruct self.
    + cbn [default from_option id].
      destruct (with_new_dict_fields ∅ self) as (_ & -> & _).
      rewrite with_new_dict_lookup by done. done.
  - intros Hconfirm. cbn [OptionsFlowHandler.call_step].
    unfold OptionsFlowHandler.async_step_confirmation, given.
    rewrite bool_decide_true by done. cbn [default from_option id].
    rewrite Hconfirm, andb_false_r. destruct self. handler_exec.
    unfold with_new_dict, set_heap, set_next_loc. handler_simpl.
    rewrite lookup_total_insert_eq, insert_insert_eq, insert_empty. done.
Qed.

(** X23.  The 'device' step of the options flow makes its [errors]
    dictionary anew in every call.  When the step is selected and given an
    input, [self._options] is updated with it and the connection is checked
    in the complete mode: an error code is shown in the 'device' form under
    'base', alone in the new dictionary; a success hands the new and empty
    dictionary to [async_select_step], which therefore goes on to the
    'operation_mode' step whatever an earlier submission reported. *)
Theorem options_device_errors_fresh (user_input : pydict) self :
  let s := OptionsFlowHandler.store self in
  let errors := next_loc s in
  let checked := _async_check_connection ARBridge (_configs s) (Some (_options s))
                   false (credentials_submitted user_input s) in
  user_input ≠ ∅ →
  ¬ not_selected (heap s !!! OptionsFlowHandler._selection self) "device" →
  allocated s (OptionsFlowHandler._selection self) →
  allocated s (_options s) →
  (∀ result code, checked.1 = Ok result → result !! "errors" = Some code →
     ∃ self',
       OptionsFlowHandler.call_step ARBridge OptionsFlowHandler.step_device
         (Some user_input) None self
       = (Ok (OptionsFlowHandler.Return
                (OptionsFlowHandler.async_show_form "device"
                   (_create_form_device user_input) (Some errors))), self')
       ∧ heap (OptionsFlowHandler.store self') !! errors = Some {[ "base" := code ]})
  ∧ (∀ result found,
       checked.1 = Ok result → result !! "errors" = None →
       result !! "configs" = Some (VDict found) →
       ∃ self',
         OptionsFlowHandler.call_step ARBridge OptionsFlowHandler.step_device
           (Some user_input) None self
         = (Ok (OptionsFlowHandler.Await_select_step (Some "device") (Some errors)),
            self')
         ∧ heap (OptionsFlowHandler.store self') !! errors = Some ∅
         ∧ OptionsFlowHandler.async_select_step (Some "device") (Some errors) self'
           = (Ok (OptionsFlowHandler.Await_step
                    OptionsFlowHandler.step_operation_mode None None), self')
         ∧ heap (OptionsFlowHandler.store self') !! _options s
           = Some (update (heap checked.2 !!! _options s) (heap checked.2 !!! found))).
Proof.
  intros s errors checked Hgiven Hchosen Hsel Hopt.
  unfold allocated in Hsel, Hopt.
  destruct checked as [r s2] eqn:Hcheck. subst checked. cbn [fst snd].
  pose proof Hcheck as Hcases.
  apply _async_check_connection_cases in Hcases as [Hframe _].
  assert (Herrors2 : heap s2 !!! errors = (∅ : pydict)).
  { unfold lookup_total, map_lookup_total. rewrite Hframe.
    - unfold credentials_submitted, options_updated. state_simpl.
      rewrite lookup_insert_ne by (subst errors; lia).
      by rewrite lookup_insert_eq.
    - unfold credentials_submitted, options_updated. state_simpl. subst errors. lia. }
  pose proof (_async_check_connection_same_self ARBridge (_configs s)
                (Some (_options s)) false (credentials_submitted user_input s)) as Hself.
  rewrite Hcheck in Hself. destruct Hself as (_ & Hopt2 & _).
  unfold credentials_submitted, options_updated in Hopt2. state_simpl.
  assert (Hselected : OptionsFlowHandler.selected "device" (with_new_dict ∅ self)
                      = (Ok true, with_new_dict ∅ self)).
  { apply options_selected_true.
    destruct (with_new_dict_fields ∅ self) as (-> & _).
    by rewrite with_new_dict_lookup. }
  assert (Hnew : OptionsFlowHandler.on_store (new_dict ∅) self
                 = (Ok errors, with_new_dict ∅ self)) by (by destruct self).
  split.
  - intros result code -> Hcode.
    cbn [OptionsFlowHandler.call_step].
    unfold OptionsFlowHandler.async_step_device, given.
    rewrite bool_decide_true by done.
    unfold bind at 1. rewrite Hnew.
    unfold bind at 1. rewrite Hselected. cbn [negb].
    destruct self as [s0 entry sel host dflt]. subst s. handler_simpl.
    unfold with_new_dict. handler_exec.
    match goal with
    | |- context [_async_check_connection _ _ _ _ ?st] =>
      change st with (credentials_submitted user_input s0)
    end.
    rewrite Hcheck. unfold contains, getitem. rewrite Hcode.
    rewrite bool_decide_true by eauto. handler_exec.
    change (default ∅ (Some user_input)) with user_input.
    eexists. split; [done|]. handler_simpl.
    rewrite Herrors2, insert_empty. apply lookup_insert_eq.
  - intros result found -> Hnone Hfound.
    cbn [OptionsFlowHandler.call_step].
    unfold OptionsFlowHandler.async_step_device, given.
    rewrite bool_decide_true by done.
    unfold bind at 1. rewrite Hnew.
    unfold bind at 1. rewrite Hselected. cbn [negb].
    destruct self as [s0 entry sel host dflt]. subst s. handler_simpl.
    unfold with_new_dict. handler_exec.
    match goal with
    | |- context [_async_check_connection _ _ _ _ ?st] =>
      change st with (credentials_submitted user_input s0)
    end.
    rewrite Hcheck. unfold contains, getitem. rewrite Hnone, Hfound.
    rewrite bool_decide_false by (by intros [? ?]). handler_exec.
    eexists. split; [done|]. handler_simpl.
    assert (Hempty : (<[_options s0 := update (heap s2 !!! _options s0)
                                         (heap s2 !!! found)]> (heap s2) : gmap loc pydict)
                       !! errors = Some ∅).
    { rewrite lookup_insert_ne by (subst errors; lia).
      assert (Hin : heap s2 !! errors = Some ∅).
      { rewrite Hframe.
        - unfold credentials_submitted, options_updated. state_simpl.
          rewrite lookup_insert_ne by (subst errors; lia).
          by rewrite lookup_insert_eq.
        - unfold credentials_submitted, options_updated. state_simpl.
          subst errors. lia. }
      done. }
    split_and!.
    + done.
    + apply options_select_step_next; [done|].
      cbn [default from_option id]. handler_simpl.
      by rewrite (lookup_total_correct _ _ _ Hempty).
    + apply lookup_insert_eq.
Qed.

(** The interfaces appended are those found that were not tracked, each
    once. *)
Lemma tracked_or_found_app (interfaces tracked : list string) :
  ∃ found, OptionsFlowHandler.tracked_or_found tracked interfaces = tracked ++ found
           ∧ NoDup found
           ∧ ∀ i, i ∈ found ↔ i ∈ interfaces ∧ i ∉ tracked.
Proof.
  unfold OptionsFlowHandler.tracked_or_found.
  revert tracked. induction interfaces as [|i l IH]; intros tracked; cbn [foldl].
  - exists []. rewrite app_nil_r. split_and!; [done|constructor|].
    intros j. split; [by intros ?%elem_of_nil|by intros [?%elem_of_nil _]].
  - case_bool_decide as Hi.
    + destruct (IH tracked) as (found & -> & Hnd & Hfound).
      exists found. split_and!; [done|done|].
      intros j. rewrite Hfound, elem_of_cons. split; [tauto|].
      intros [[->|Hj] Hn]; [done|tauto].
    + destruct (IH (tracked ++ [i])) as (found & -> & Hnd & Hfound).
      exists (i :: found). split_and!.
      * by rewrite <- app_assoc.
      * constructor; [|done]. rewrite Hfound, elem_of_app, list_elem_of_singleton.
        tauto.
      * intros j. rewrite !elem_of_cons, Hfound, elem_of_app, list_elem_of_singleton.
        destruct (decide (j = i)) as [->|Hne]; tauto.
Qed.

Lemma _async_get_network_interfaces_heap configs options' (s : state) :
  heap (_async_get_network_interfaces ARBridge configs options' s).2 = heap s.
Proof.
  unfold _async_get_network_interfaces, _LOGGER'.
  set (c := heap s !!! configs : pydict).
  set (o := match options' with Some l => heap s !!! l | None => ∅ end : pydict).
  destruct options'; exec; state_simpl; fold c; fold o.
  all: destruct (ARBridge c (Some o)) as [api|ex]; [|done].
  all: cbv beta iota; state_simpl.
  all: destruct (async_get_network_interfaces api) as [labels|ex];
    cbv beta iota; state_simpl.
  all: try (destruct (async_disconnect api) as [[]|ex']; cbv beta iota; state_simpl;
            [done|]).
  all: fold c; unfold getitem; destruct (c !! CONF_HOST); by state_simpl.
Qed.

(** X24.  Showing the 'interfaces' form of the options flow changes
    [self._options].  The step copies the options shallowly, so the list
    under 'interfaces' is the list of [self._options] itself; the interfaces
    that [_async_get_network_interfaces] found and that were not tracked are
    appended to it, each once and after the tracked ones.  The form offers
    the tracked and the found interfaces and preselects the tracked ones. *)
Theorem options_interfaces_form_extends_options
    (tracked interfaces : list string) self :
  let s := OptionsFlowHandler.store self in
  ¬ not_selected (heap s !!! OptionsFlowHandler._selection self) "interfaces" →
  dict_get (heap s !!! _options s) CONF_ENABLE_MONITOR DEFAULT_ENABLE_MONITOR
  = VBool true →
  (heap s !!! _options s : pydict) !! "interfaces" = Some (VList tracked) →
  (_async_get_network_interfaces ARBridge (_configs s) (Some (_options s)) s).1
  = Ok interfaces →
  ∃ self' found,
    OptionsFlowHandler.call_step ARBridge OptionsFlowHandler.step_interfaces
      None None self
    = (Ok (OptionsFlowHandler.Return
             (OptionsFlowHandler.async_show_form "interfaces"
                (interfaces_schema tracked
                   (list_to_set tracked ∪ list_to_set interfaces)) None)), self')
    ∧ heap (OptionsFlowHandler.store self') !! _options s
      = Some (<[ "interfaces" := VList (tracked ++ found) ]> (heap s !!! _options s))
    ∧ NoDup found
    ∧ (∀ i, i ∈ found ↔ i ∈ interfaces ∧ i ∉ tracked).
Proof.
  intros s Hchosen Hmonitor Htracked Hfound.
  destruct (tracked_or_found_app interfaces tracked) as (found & Happ & Hnd & Hin).
  pose proof (_async_get_network_interfaces_heap (_configs s) (Some (_options s)) s)
    as Hheap.
  pose proof (_async_get_network_interfaces_same_self ARBridge (_configs s)
                (Some (_options s)) s) as (_ & Hopt1 & _).
  destruct (_async_get_network_interfaces ARBridge (_configs s) (Some (_options s)) s)
    as [r s1] eqn:Hrun.
  cbn [fst snd] in *. subst r.
  eexists _, found.
  cbn [OptionsFlowHandler.call_step]. unfold OptionsFlowHandler.async_step_interfaces.
  unfold bind at 1. rewrite (options_selected_true _ _ Hchosen). cbn [negb given].
  destruct self as [s0 entry sel host dflt]. subst s. handler_simpl.
  handler_exec. rewrite Hmonitor. cbn [truthy]. unfold ret at 1. cbv beta iota.
  handler_simpl. unfold getitem at 1. rewrite Htracked. cbv beta iota.
  handler_simpl. rewrite Hrun. cbv beta iota. handler_simpl.
  unfold _create_form_interfaces, getitem, iterate.
  rewrite (lookup_insert_eq (M:=gmap string)). exec. handler_simpl.
  rewrite Happ, Hheap. split.
  - do 4 f_equal. unfold interfaces_schema. do 3 f_equal.
    apply set_eq. intros i.
    rewrite elem_of_union, !elem_of_list_to_set, elem_of_app, Hin.
    destruct (decide (i ∈ tracked)); tauto.
  - handler_simpl. split_and!; [apply lookup_insert_eq|done|done].
Qed.

(** X26.  The options flow starts from the config entry: without a host in
    the data of the entry the handler cannot be created ([KeyError]);
    otherwise [self._configs] and [self._options] are new dictionaries that
    hold the data and the options of the entry, nothing is selected, no
    dictionary that existed is changed, and the first form, 'options', asks
    for the four optional steps 'device', 'operation_mode', 'times' and
    'interfaces', in this order, each an optional flag that is off. *)
Theorem OptionsFlowHandler_first_form
    (entry : OptionsFlowHandler.ConfigEntry) (errors : loc) (s : state) :
  (OptionsFlowHandler.data entry !! CONF_HOST = None →
   OptionsFlowHandler.OptionsFlowHandler_init entry errors s
   = Raise (KeyError CONF_HOST))
  ∧ (∀ host, OptionsFlowHandler.data entry !! CONF_HOST = Some host →
       ∃ self,
         OptionsFlowHandler.OptionsFlowHandler_init entry errors s = Ok self
         ∧ OptionsFlowHandler._host self = host
         ∧ heap (OptionsFlowHandler.store self)
             !! _configs (OptionsFlowHandler.store self)
           = Some (OptionsFlowHandler.data entry)
         ∧ heap (OptionsFlowHandler.store self)
             !! _options (OptionsFlowHandler.store self)
           = Some (OptionsFlowHandler.options entry)
         ∧ heap (OptionsFlowHandler.store self) !! OptionsFlowHandler._selection self
           = Some ∅
         ∧ (∀ l, allocated s l → heap (OptionsFlowHandler.store self) !! l = heap s !! l)
         ∧ OptionsFlowHandler.run ARBridge 2
             (OptionsFlowHandler.Await_step OptionsFlowHandler.step_init None None) self
           = (Ok (Some (OptionsFlowHandler.async_show_form "options"
                          [ Field Optional "device" (VBool false) py_bool;
                            Field Optional "operation_mode" (VBool false) py_bool;
                            Field Optional "times" (VBool false) py_bool;
                            Field Optional "interfaces" (VBool false) py_bool ]
                          None)), self)).
Proof.
  unfold OptionsFlowHandler.OptionsFlowHandler_init, getitem. split.
  - by intros ->.
  - intros host ->. cbn [obind]. eexists. split; [done|]. handler_simpl.
    split_and!.
    + done.
    + rewrite lookup_insert_ne by lia. apply lookup_insert_eq.
    + apply lookup_insert_eq.
    + rewrite !lookup_insert_ne by lia. apply lookup_insert_eq.
    + unfold allocated. intros l Hl. by rewrite !lookup_insert_ne by lia.
    + reflexivity.
Qed.

Lemma options_settles_Return (r : OptionsFlowHandler.FlowResult) (k : nat) :
  options_settles ARBridge k (OptionsFlowHandler.Return r).
Proof. intros self fuel _. by destruct fuel, k. Qed.

Lemma options_settles_await (k : nat) (n : OptionsFlowHandler.next) :
  (∀ r, n ≠ OptionsFlowHandler.Return r) →
  (∀ self n' self', OptionsFlowHandler.await_next ARBridge n self = (Ok n', self') →
                    options_settles ARBridge k n') →
  options_settles ARBridge (S k) n.
Proof.
  intros Hn Hnext self fuel Hfuel.
  destruct fuel as [|fuel]; [lia|].
  assert (Hrun : ∀ fuel', OptionsFlowHandler.run ARBridge (S fuel') n self
                 = bind (OptionsFlowHandler.await_next ARBridge n)
                     (OptionsFlowHandler.run ARBridge fuel') self).
  { intros fuel'. destruct n as [r| |]; [by destruct (Hn r)|done|done]. }
  rewrite !Hrun. unfold bind. specialize (Hnext self).
  destruct (OptionsFlowHandler.await_next ARBridge n self) as [[n'|ex] self'];
    [|done].
  apply (Hnext n' self' eq_refl self'). lia.
Qed.

Lemma options_settles_mono (k k' : nat) (n : OptionsFlowHandler.next) :
  options_settles ARBridge k n → (k ≤ k')%nat → options_settles ARBridge k' n.
Proof.
  intros Hk Hle self fuel Hfuel.
  destruct (Hk self k' Hle) as [-> Hnone].
  split; [|done]. apply Hk. lia.
Qed.

(** What a step of the options flow hands over to. *)
Lemma options_call_step_shape (f : OptionsFlowHandler.step) user_input
    (errors : option loc) self self' (n : OptionsFlowHandler.next) :
  OptionsFlowHandler.call_step ARBridge f user_input errors self = (Ok n, self') →
  (∃ r, n = OptionsFlowHandler.Return r)
  ∨ (f = OptionsFlowHandler.step_init
     ∧ n = OptionsFlowHandler.Await_step OptionsFlowHandler.step_options
             user_input None)
  ∨ (∃ id e, n = OptionsFlowHandler.Await_select_step (Some id) e
             ∧ (f, id) ∈ options_step_ids
             ∧ (given user_input = false → f ≠ OptionsFlowHandler.step_options
                                           ∧ f ≠ OptionsFlowHandler.step_confirmation)).
Proof.
  intros Hrun.
  destruct errors as [e|]; [done|].
  destruct f; cbn [OptionsFlowHandler.call_step] in Hrun;
    unfold OptionsFlowHandler.async_step_init, OptionsFlowHandler.async_step_options,
      OptionsFlowHandler.async_step_device,
      OptionsFlowHandler.async_step_operation_mode,
      OptionsFlowHandler.async_step_times, OptionsFlowHandler.async_step_interfaces,
      OptionsFlowHandler.async_step_confirmation,
      OptionsFlowHandler.async_step_finish, OptionsFlowHandler.selected,
      _create_form_interfaces in Hrun;
    revert Hrun; handler_exec.
  all: try discriminate.
  all: intros Hrun.
  all: repeat (case_match; simplify_eq).
  all: simplify_eq.
  all: first
    [ by (left; eauto)
    | by (right; left)
    | right; right; eexists _, _; split; [reflexivity|]; split;
      [ apply list_elem_of_In; simpl; tauto
      | first [done | congruence
              | by intros Hg; rewrite Hg in * ] ] ].
Qed.

Lemma options_steps_no_error_entry (last_step : string) :
  is_Some (OptionsFlowHandler.steps_table !! last_step) →
  OptionsFlowHandler.steps_table !! (last_step +:+ "_error") = None.
Proof.
  intros [f Hf]. apply options_steps_entries in Hf.
  unfold OptionsFlowHandler._steps in Hf.
  repeat (apply elem_of_cons in Hf as [[= -> ->]|Hf]; [done|]).
  by apply elem_of_nil in Hf.
Qed.

(** What [async_select_step] of the options flow hands over to. *)
Lemma options_select_step_shape (last_step : option string) (errors : option loc)
    self self' (n : OptionsFlowHandler.next) :
  OptionsFlowHandler.async_select_step last_step errors self = (Ok n, self') →
  ∃ id g e, last_step = Some id ∧ n = OptionsFlowHandler.Await_step g None e
            ∧ (id, g) ∈ OptionsFlowHandler._steps.
Proof.
  unfold OptionsFlowHandler.async_select_step, getitem. intros Hrun.
  destruct last_step as [id|], errors as [l|]; revert Hrun; handler_exec; try done.
  all: intros Hrun; repeat (case_match; simplify_eq).
  all: try (eexists _, _, _; split_and!; [done|done|by apply options_steps_entries]).
  all: match goal with
       | Hcontains : contains _ ?k = true,
         Herror : OptionsFlowHandler.steps_table !! (?k +:+ "_error") = Some _ |- _ =>
         unfold contains in Hcontains;
         apply bool_decide_eq_true_1, options_steps_no_error_entry in Hcontains;
         by rewrite Hcontains in Herror
       end.
Qed.

Ltac member_cases Hin :=
  unfold options_step_ids, optional_steps, OptionsFlowHandler._steps in Hin;
  cbn [app] in Hin;
  repeat (apply elem_of_cons in Hin as [Hin|Hin]; [simplify_eq|]);
  try (by apply elem_of_nil in Hin).

Lemma options_settles_step (k : nat) (f : OptionsFlowHandler.step) user_input
    (errors : option loc) :
  f ≠ OptionsFlowHandler.step_init →
  (∀ id e, (f, id) ∈ options_step_ids →
           (given user_input = false → (f, id) ∈ optional_steps) →
           options_settles ARBridge k (OptionsFlowHandler.Await_select_step (Some id) e)) →
  options_settles ARBridge (S k) (OptionsFlowHandler.Await_step f user_input errors).
Proof.
  intros Hinit Hselect. apply options_settles_await; [done|].
  intros self n' self' Hstep. cbn [OptionsFlowHandler.await_next] in Hstep.
  apply options_call_step_shape in Hstep
    as [[r ->]|[[-> _]|(id & e & -> & Hid & Hgiven)]].
  - apply options_settles_Return.
  - done.
  - apply Hselect; [done|]. intros Hnone. destruct (Hgiven Hnone) as [Ho Hc].
    unfold options_step_ids in Hid.
    apply elem_of_cons in Hid as [[= -> _]|Hid]; [done|].
    apply elem_of_app in Hid as [Hid|Hid]; [done|].
    apply list_elem_of_singleton in Hid as [= -> _]. done.
Qed.

Lemma options_settles_select (k : nat) (last_step : option string)
    (errors : option loc) :
  (∀ id g e, last_step = Some id → (id, g) ∈ OptionsFlowHandler._steps →
             options_settles ARBridge k (OptionsFlowHandler.Await_step g None e)) →
  options_settles ARBridge (S k)
    (OptionsFlowHandler.Await_select_step last_step errors).
Proof.
  intros Hstep. apply options_settles_await; [done|].
  intros self n' self' Hselect. cbn [OptionsFlowHandler.await_next] in Hselect.
  apply options_select_step_shape in Hselect as (id & g & e & -> & -> & Hg).
  by apply (Hstep id).
Qed.

Lemma options_run_settles (n : OptionsFlowHandler.next) :
  options_settles ARBridge 12 n.
Proof.
  assert (Hfinish : ∀ e, options_settles ARBridge 1
            (OptionsFlowHandler.Await_step OptionsFlowHandler.step_finish None e)).
  { intros e. apply options_settles_step; [done|]. intros id e' Hid _. member_cases Hid. }
  assert (Hconfirmation : ∀ e, options_settles ARBridge 1
            (OptionsFlowHandler.Await_step OptionsFlowHandler.step_confirmation None e)).
  { intros e. apply options_settles_step; [done|]. intros id e' _ Hid.
    specialize (Hid eq_refl). member_cases Hid. }
  assert (Hinterfaces : ∀ user_input e, options_settles ARBridge 3
            (OptionsFlowHandler.Await_step OptionsFlowHandler.step_interfaces
               user_input e)).
  { intros user_input e. apply options_settles_step; [done|]. intros id e' Hid _.
    apply options_settles_select. intros id' g e'' [= <-] Hg.
    member_cases Hid; member_cases Hg. apply Hconfirmation. }
  assert (Htimes : ∀ user_input e, options_settles ARBridge 5
            (OptionsFlowHandler.Await_step OptionsFlowHandler.step_times user_input e)).
  { intros user_input e. apply options_settles_step; [done|]. intros id e' Hid _.
    apply options_settles_select. intros id' g e'' [= <-] Hg.
    member_cases Hid; member_cases Hg. apply Hinterfaces. }
  assert (Hmode : ∀ user_input e, options_settles ARBridge 7
            (OptionsFlowHandler.Await_step OptionsFlowHandler.step_operation_mode
               user_input e)).
  { intros user_input e. apply options_settles_step; [done|]. intros id e' Hid _.
    apply options_settles_select. intros id' g e'' [= <-] Hg.
    member_cases Hid; member_cases Hg. apply Htimes. }
  assert (Hdevice : ∀ user_input e, options_settles ARBridge 9
            (OptionsFlowHandler.Await_step OptionsFlowHandler.step_device user_input e)).
  { intros user_input e. apply options_settles_step; [done|]. intros id e' Hid _.
    apply options_settles_select. intros id' g e'' [= <-] Hg.
    member_cases Hid; member_cases Hg. apply Hmode. }
  assert (Hselect : ∀ last_step e, options_settles ARBridge 10
            (OptionsFlowHandler.Await_select_step last_step e)).
  { intros last_step e. apply options_settles_select. intros id g e' _ Hg.
    member_cases Hg.
    - apply Hdevice.
    - apply (options_settles_mono 7); [apply Hmode|lia].
    - apply (options_settles_mono 5); [apply Htimes|lia].
    - apply (options_settles_mono 3); [apply Hinterfaces|lia].
    - apply (options_settles_mono 1); [apply Hconfirmation|lia].
    - apply (options_settles_mono 1); [apply Hfinish|lia]. }
  assert (Hstep : ∀ f user_input e, f ≠ OptionsFlowHandler.step_init →
            options_settles ARBridge 11 (OptionsFlowHandler.Await_step f user_input e)).
  { intros f user_input e Hf. apply options_settles_step; [done|].
    intros id e' _ _. apply Hselect. }
  destruct n as [r|last_step errors|f user_input errors].
  - apply options_settles_Return.
  - apply (options_settles_mono 10); [apply Hselect|lia].
  - destruct (decide (f = OptionsFlowHandler.step_init)) as [->|Hf].
    + apply options_settles_await; [done|].
      intros self n' self' Hcall. cbn [OptionsFlowHandler.await_next] in Hcall.
      apply options_call_step_shape in Hcall
        as [[r ->]|[[_ ->]|(id & e & -> & Hid & _)]].
      * apply options_settles_Return.
      * by apply Hstep.
      * member_cases Hid.
    + apply (options_settles_mono 11); [by apply Hstep|lia].
Qed.

(** Two entries of the order that follow one another: the first is an
    optional step, and the step table sends its name to the second. *)
Lemma options_order_consecutive before f id g idg after :
  options_order = before ++ (f, id) :: (g, idg) :: after →
  (f, id) ∈ optional_steps
  ∧ OptionsFlowHandler.steps_table !! id = Some g
  ∧ g ≠ OptionsFlowHandler.step_device.
Proof.
  unfold options_order, optional_steps. cbn [app].
  destruct before as [|b1 [|b2 [|b3 [|b4 [|b5 before]]]]]; cbn [app]; intros Heq;
    simplify_eq; try (by destruct before).
  all: split_and!; [apply list_elem_of_In; simpl; tauto|done|done].
Qed.

(** The handler after a step that was left out. *)
Lemma options_skipped_state (f : OptionsFlowHandler.step) self :
  let self1 := if decide (f = OptionsFlowHandler.step_device)
               then with_new_dict ∅ self else self in
  OptionsFlowHandler._selection self1 = OptionsFlowHandler._selection self
  ∧ OptionsFlowHandler.select_step_errors self1
    = OptionsFlowHandler.select_step_errors self
  ∧ (∀ l, allocated (OptionsFlowHandler.store self) l →
       allocated (OptionsFlowHandler.store self1) l
       ∧ heap (OptionsFlowHandler.store self1) !!! l
         = (heap (OptionsFlowHandler.store self) !!! l : pydict)).
Proof.
  intros self1. subst self1.
  destruct (decide (f = OptionsFlowHandler.step_device)); [|done].
  destruct (with_new_dict_fields ∅ self) as (-> & -> & _ & _ & _ & Hnext & _).
  split_and!; [done|done|]. intros l Hl. split.
  - unfold allocated in *. rewrite Hnext. lia.
  - by apply with_new_dict_lookup.
Qed.

Lemma options_run_skipped (f g : OptionsFlowHandler.step) (step_id : string)
    user_input self (fuel : nat) :
  (f, step_id) ∈ optional_steps →
  OptionsFlowHandler.steps_table !! step_id = Some g →
  not_selected (heap (OptionsFlowHandler.store self)
                  !!! OptionsFlowHandler._selection self) step_id →
  allocated (OptionsFlowHandler.store self) (OptionsFlowHandler._selection self) →
  allocated (OptionsFlowHandler.store self) (OptionsFlowHandler.select_step_errors self) →
  _check_errors (heap (OptionsFlowHandler.store self)
                   !!! OptionsFlowHandler.select_step_errors self) = false →
  OptionsFlowHandler.run ARBridge (S (S fuel))
    (OptionsFlowHandler.Await_step f user_input None) self
  = OptionsFlowHandler.run ARBridge fuel (OptionsFlowHandler.Await_step g None None)
      (if decide (f = OptionsFlowHandler.step_device) then with_new_dict ∅ self
       else self).
Proof.
  intros Hf Hg Hnot Hsel Herr Hclean.
  destruct (options_skipped_state f self) as (_ & Herr1 & Hframe).
  cbn [OptionsFlowHandler.run]. unfold bind at 1. cbn [OptionsFlowHandler.await_next].
  rewrite (options_step_skipped f step_id) by done.
  unfold bind at 1. cbn [OptionsFlowHandler.await_next].
  rewrite (options_select_step_next step_id g); [done|done|].
  cbn [default from_option id]. rewrite Herr1.
  destruct (Hframe _ Herr) as [_ ->]. done.
Qed.

Lemma options_run_chain (skipped : list (OptionsFlowHandler.step * string)) :
  ∀ before f id g idg after user_input self (fuel : nat),
    options_order = before ++ (f, id) :: skipped ++ (g, idg) :: after →
    (∀ step_id, step_id ∈ id :: skipped.*2 →
       not_selected (heap (OptionsFlowHandler.store self)
                       !!! OptionsFlowHandler._selection self) step_id) →
    allocated (OptionsFlowHandler.store self) (OptionsFlowHandler._selection self) →
    allocated (OptionsFlowHandler.store self)
      (OptionsFlowHandler.select_step_errors self) →
    _check_errors (heap (OptionsFlowHandler.store self)
                     !!! OptionsFlowHandler.select_step_errors self) = false →
    OptionsFlowHandler.run ARBridge (2 * S (length skipped) + fuel)
      (OptionsFlowHandler.Await_step f user_input None) self
    = OptionsFlowHandler.run ARBridge fuel (OptionsFlowHandler.Await_step g None None)
        (if decide (f = OptionsFlowHandler.step_device) then with_new_dict ∅ self
         else self).
Proof.
  induction skipped as [|[f2 id2] skipped IH];
    intros before f id g idg after user_input self fuel Horder Hnot Hsel Herr Hclean.
  - cbn [app length] in *.
    apply options_order_consecutive in Horder as (Hf & Hg & _).
    replace (2 * 1 + fuel)%nat with (S (S fuel)) by lia.
    apply (options_run_skipped f g id); try done.
    apply Hnot. apply elem_of_cons. by left.
  - cbn [app length] in *.
    pose proof Horder as Hnext.
    apply options_order_consecutive in Hnext as (Hf & Hf2 & Hdevice).
    replace (2 * S (S (length skipped)) + fuel)%nat
      with (S (S (2 * S (length skipped) + fuel))) by lia.
    rewrite (options_run_skipped f f2 id); try done.
    2:{ apply Hnot. apply elem_of_cons. by left. }
    destruct (options_skipped_state f self) as (Hsel1 & Herr1 & Hframe).
    rewrite (IH (before ++ [(f, id)]) f2 id2 g idg after None).
    + by rewrite decide_False.
    + by rewrite <- app_assoc.
    + intros step_id Hid. rewrite Hsel1. destruct (Hframe _ Hsel) as [_ ->].
      apply Hnot. rewrite fmap_cons. apply elem_of_cons. by right.
    + rewrite Hsel1. by apply Hframe.
    + rewrite Herr1. by apply Hframe.
    + rewrite Herr1. destruct (Hframe _ Herr) as [_ ->]. done.
Qed.

(** X25.  A call of a step of the options flow is answered after at most
    twelve awaited calls of the handler's own coroutines, whatever was
    selected and whatever the bridge answers.  The optional steps that are
    left out follow one another in the order of the step table: a run of
    them, begun with any input, comes after two awaited calls for each to
    the step that the table puts next, called without input; when the run
    reaches the end of the optional steps, what is shown is the
    'confirmation' form. *)
Theorem options_run_settles_within_twelve self :
  let s := OptionsFlowHandler.store self in
  let skips (f : OptionsFlowHandler.step) (id : string)
      (skipped : list (OptionsFlowHandler.step * string)) :=
    (∀ step_id, step_id ∈ id :: skipped.*2 →
       not_selected (heap s !!! OptionsFlowHandler._selection self) step_id)
    ∧ allocated s (OptionsFlowHandler._selection self)
    ∧ allocated s (OptionsFlowHandler.select_step_errors self)
    ∧ _check_errors (heap s !!! OptionsFlowHandler.select_step_errors self) = false in
  let after_skipping (f : OptionsFlowHandler.step) :=
    if decide (f = OptionsFlowHandler.step_device) then with_new_dict ∅ self
    else self in
  (∀ n fuel, (12 ≤ fuel)%nat →
     OptionsFlowHandler.run ARBridge fuel n self
     = OptionsFlowHandler.run ARBridge 12 n self
     ∧ (OptionsFlowHandler.run ARBridge 12 n self).1 ≠ Ok None)
  ∧ (∀ before f id skipped g idg after user_input fuel,
       options_order = before ++ (f, id) :: skipped ++ (g, idg) :: after →
       skips f id skipped →
       OptionsFlowHandler.run ARBridge (2 * S (length skipped) + fuel)
         (OptionsFlowHandler.Await_step f user_input None) self
       = OptionsFlowHandler.run ARBridge fuel
           (OptionsFlowHandler.Await_step g None None) (after_skipping f))
  ∧ (∀ before f id skipped user_input,
       optional_steps = before ++ (f, id) :: skipped →
       skips f id skipped →
       allocated s (_options s) →
       OptionsFlowHandler.run ARBridge (2 * S (length skipped) + 1)
         (OptionsFlowHandler.Await_step f user_input None) self
       = (Ok (Some (OptionsFlowHandler.async_show_form "confirmation"
                      (_create_form_confirmation (heap s !!! _options s))
                      (Some (next_loc (OptionsFlowHandler.store (after_skipping f)))))),
          with_new_dict ∅ (after_skipping f))).
Proof.
  intros s skips after_skipping. subst skips after_skipping. cbv beta.
  split_and!.
  - intros n. apply options_run_settles.
  - intros before f id skipped g idg after user_input fuel Horder
      (Hnot & Hsel & Herr & Hclean).
    by apply (options_run_chain skipped before f id g idg after).
  - intros before f id skipped user_input Horder (Hnot & Hsel & Herr & Hclean) Hopt.
    rewrite (options_run_chain skipped before f id
               OptionsFlowHandler.step_confirmation "confirmation" []); try done.
    2:{ unfold options_order. rewrite Horder, <- app_assoc. done. }
    cbn [OptionsFlowHandler.run]. unfold bind at 1.
    cbn [OptionsFlowHandler.await_next OptionsFlowHandler.call_step].
    destruct (options_skipped_state f self) as (_ & _ & Hframe).
    destruct (Hframe _ Hopt) as [Hopt1 Hlook].
    set (self1 := if decide (f = OptionsFlowHandler.step_device)
                  then with_new_dict ∅ self else self) in *.
    assert (Hoptions : _options (OptionsFlowHandler.store self1) = _options s).
    { subst self1. destruct (decide (f = OptionsFlowHandler.step_device)); [|done].
      by destruct (with_new_dict_fields ∅ self) as (_ & _ & _ & -> & _). }
    unfold OptionsFlowHandler.async_step_confirmation, given.
    unfold bind at 1.
    assert (Hnew : OptionsFlowHandler.on_store (new_dict ∅) self1
                   = (Ok (next_loc (OptionsFlowHandler.store self1)),
                      with_new_dict ∅ self1)) by (by destruct self1).
    rewrite Hnew. handler_exec.
    destruct (with_new_dict_fields ∅ self1) as (_ & _ & _ & -> & _).
    rewrite with_new_dict_lookup by (by rewrite Hoptions).
    rewrite Hoptions, Hlook. by destruct (with_new_dict ∅ self1).
Qed.
End OptionsFlow.

Lemma options_step_not_selected_witness :
  ∃ self',
    @OptionsFlowHandler.call_step sample_const (bridge_class sample_instance)
      OptionsFlowHandler.step_times (Some {[ "cache_time" := VInt 9 ]}) None
      (sample_handler {[ "times" := VBool false ]} sample_options)
    = (Ok (OptionsFlowHandler.Await_select_step (Some "times") None), self')
    ∧ heap (OptionsFlowHandler.store self') !! 2%positive = Some sample_options.
Proof.
  destruct (@options_step_not_selected sample_const (bridge_class sample_instance)
              OptionsFlowHandler.step_times "times"
              (Some {[ "cache_time" := VInt 9 ]})
              (sample_handler {[ "times" := VBool false ]} sample_options))
    as (self' & Hstep & Hframe & _).
  - apply list_elem_of_In. simpl. tauto.
  - reflexivity.
  - reflexivity.
  - exists self'. split; [exact Hstep|].
    etransitivity; [apply Hframe; reflexivity|]. reflexivity.
Defined.

Lemma options_nothing_selected_witness :
  ∃ self',
    @OptionsFlowHandler.run sample_const (bridge_class sample_instance) 11
      (OptionsFlowHandler.Await_step OptionsFlowHandler.step_options
         (Some {[ "device" := VBool false; "times" := VBool false ]}) None)
      (sample_handler ∅ sample_options)
    = (Ok (Some (OptionsFlowHandler.async_show_form "confirmation"
                   (@_create_form_confirmation sample_const sample_options)
                   (Some 7%positive))), self')
    ∧ calls (OptionsFlowHandler.store self') = [].
Proof.
  destruct (@options_nothing_selected sample_const (bridge_class sample_instance)
              {[ "device" := VBool false; "times" := VBool false ]}
              (sample_handler ∅ sample_options))
    as (self' & Hrun & _ & _ & Hcalls).
  - apply (bool_decide_unpack _). vm_compute. exact I.
  - intros step_id Hid. apply list_elem_of_In in Hid. simpl in Hid.
    destruct Hid as [<-|[<-|[<-|[<-|[]]]]]; reflexivity.
  - reflexivity.
  - reflexivity.
  - reflexivity.
  - discriminate.
  - discriminate.
  - reflexivity.
  - exists self'. split; [exact Hrun|exact Hcalls].
Defined.

Lemma options_confirmation_witness :
  let self := sample_handler ∅ sample_options in
  @OptionsFlowHandler.run sample_const (bridge_class sample_instance) 3
    (OptionsFlowHandler.Await_step OptionsFlowHandler.step_confirmation
       (Some {[ "confirm" := VBool true ]}) None) self
  = (Ok (Some (OptionsFlowHandler.async_create_entry (VStr "RT-AX88U") 2%positive)),
     with_new_dict ∅ self).
Proof.
  intros self.
  destruct (@options_confirmation sample_const (bridge_class sample_instance)
              {[ "confirm" := VBool true ]} self) as [Hconfirmed _].
  - apply (bool_decide_unpack _). vm_compute. exact I.
  - reflexivity.
  - reflexivity.
  - apply Hconfirmed. reflexivity.
Defined.

Lemma options_device_errors_fresh_witness :
  ∃ self',
    @OptionsFlowHandler.call_step sample_const
      (bridge_class (failing_instance AsusRouterConnectionError (Ok tt)))
      OptionsFlowHandler.step_device (Some sample_options) None
      (sample_handler {[ "device" := VBool true ]} ∅)
    = (Ok (OptionsFlowHandler.Return
             (OptionsFlowHandler.async_show_form "device"
                (@_create_form_device sample_const sample_options)
                (Some 6%positive))), self')
    ∧ heap (OptionsFlowHandler.store self') !! 6%positive
      = Some {[ "base" := VStr "connection_refused" ]}.
Proof.
  destruct (@options_device_errors_fresh sample_const
              (bridge_class (failing_instance AsusRouterConnectionError (Ok tt)))
              sample_options (sample_handler {[ "device" := VBool true ]} ∅))
    as [Hfailed _].
  - apply (bool_decide_unpack _). vm_compute. exact I.
  - discriminate.
  - reflexivity.
  - reflexivity.
  - apply (Hfailed {[ "errors" := VStr "connection_refused" ]});
      vm_compute; reflexivity.
Defined.

Lemma options_interfaces_form_extends_options_witness :
  ∃ self' found,
    (@OptionsFlowHandler.call_step sample_const (bridge_class sample_instance)
       OptionsFlowHandler.step_interfaces None None
       (sample_handler {[ "interfaces" := VBool true ]}
          {[ "interfaces" := VList ["WAN"; "LAN"] ]})) = 
    (Ok (OptionsFlowHandler.Return
           (OptionsFlowHandler.async_show_form "interfaces"
              (@interfaces_schema sample_const ["WAN"; "LAN"]
                 (list_to_set ["WAN"; "LAN"] ∪ list_to_set ["WAN"; "WIRED"])) None)),
     self')
    ∧ heap (OptionsFlowHandler.store self') !! 2%positive
      = Some (<[ "interfaces" := VList (["WAN"; "LAN"] ++ found) ]>
                {[ "interfaces" := VList ["WAN"; "LAN"] ]})
    ∧ "WIRED" ∈ found ∧ "WAN" ∉ found.
Proof.
  destruct (@options_interfaces_form_extends_options sample_const
              (bridge_class sample_instance) ["WAN"; "LAN"] ["WAN"; "WIRED"]
              (sample_handler {[ "interfaces" := VBool true ]}
                 {[ "interfaces" := VList ["WAN"; "LAN"] ]}))
    as (self' & found & Hstep & Hoptions & _ & Hfound).
  - discriminate.
  - reflexivity.
  - reflexivity.
  - reflexivity.
  - exists self', found. split; [exact Hstep|]. split; [exact Hoptions|].
    split.
    + apply Hfound. split.
      * apply list_elem_of_In. simpl. tauto.
      * intros Hin. apply list_elem_of_In in Hin. simpl in Hin.
        destruct Hin as [Hin|[Hin|[]]]; discriminate Hin.
    + intros Hin. apply Hfound in Hin as [_ Hin]. apply Hin.
      apply list_elem_of_In. simpl. tauto.
Defined.

Lemma options_run_settles_within_twelve_witness :
  let n := OptionsFlowHandler.Await_step OptionsFlowHandler.step_init
             (Some {[ "device" := VBool false ]}) None in
  let self := sample_handler {[ "times" := VBool true ]} sample_options in
  (@OptionsFlowHandler.run sample_const (bridge_class sample_instance) 20 n self
   = @OptionsFlowHandler.run sample_const (bridge_class sample_instance) 12 n self
   ∧ (@OptionsFlowHandler.run sample_const (bridge_class sample_instance) 12 n self).1
     ≠ Ok None)
  ∧ @OptionsFlowHandler.run sample_const (bridge_class sample_instance) 5
      (OptionsFlowHandler.Await_step OptionsFlowHandler.step_device None None) self
    = @OptionsFlowHandler.run sample_const (bridge_class sample_instance) 1
        (OptionsFlowHandler.Await_step OptionsFlowHandler.step_times None None)
        (with_new_dict ∅ self).
Proof.
  intros n self.
  pose proof (@options_run_settles_within_twelve sample_const
                (bridge_class sample_instance) self) as Hrun.
  cbv zeta in Hrun. destruct Hrun as (Hbound & Hchain & _). split.
  - apply Hbound. lia.
  - apply (Hchain [] OptionsFlowHandler.step_device "device"
             [(OptionsFlowHandler.step_operation_mode, "operation_mode")]
             OptionsFlowHandler.step_times "times"
             [(OptionsFlowHandler.step_interfaces, "interfaces");
              (OptionsFlowHandler.step_confirmation, "confirmation")] None 1%nat).
    + reflexivity.
    + split_and!; [|reflexivity|reflexivity|reflexivity].
      intros step_id Hid. apply list_elem_of_In in Hid. simpl in Hid.
      destruct Hid as [<-|[<-|[]]]; reflexivity.
Defined.

Lemma OptionsFlowHandler_first_form_witness :
  ∃ self,
    OptionsFlowHandler.OptionsFlowHandler_init
      (sample_entry sample_options) 3%positive (sample_state ∅ ∅) = Ok self
    ∧ OptionsFlowHandler._host self = VStr "router.asus.com"
    ∧ heap (OptionsFlowHandler.store self) !! 7%positive = Some sample_options.
Proof.
  destruct (@OptionsFlowHandler_first_form sample_const (bridge_class sample_instance)
              (sample_entry sample_options) 3%positive (sample_state ∅ ∅))
    as [_ Hcreated].
  destruct (Hcreated (VStr "router.asus.com")) as (self & Hinit & Hhost & _ & Hopt & _).
  - reflexivity.
  - exists self. split; [exact Hinit|]. split; [exact Hhost|].
    etransitivity; [|exact Hopt]. f_equal.
    injection Hinit as <-. reflexivity.
Defined.
